(** * pdftoepub: the fixed-layout EPUB packaging engine

    A shallow embedding of the [EPUBGenerator] class of [pdf-to-epub.ts]
    (the Node.js command line tool) and of [public/app.jsx] (the browser
    application).  The two classes are the same code up to blank-line
    whitespace in one template and the way page images reach the archive;
    the embedding is indexed by a [build] value that selects between them.

    Conventions.
    - A JavaScript string is a Rocq [string].  The generator only ever looks
      at ASCII characters, so the encoding of the others is immaterial.
    - The numbers the class handles (page numbers, pixel sizes, loop
      indices) are integers: they are modelled in [Z].  [Math.max] of an
      empty argument list is [-Infinity], hence the type [number].
    - [Math.random] is an explicit source of rationals, threaded through
      construction as a stream with a cursor.
    - The archive writer (JSZip) is outside the repository.  The archive is
      the log of [zip.file] calls, in call order. *)

From Stdlib Require Import ZArith QArith Qround List String Ascii Lia Bool.
From Stdlib Require Import Permutation.
From Stdlib Require Finite.
From Stdlib Require DecimalString DecimalZ DecimalFacts.
From Stdlib Require HexadecimalString HexadecimalZ.
Import ListNotations.

Open Scope string_scope.
Open Scope Z_scope.

(* ================================================================== *)
(** ** JavaScript primitives used by the generator *)
(* ================================================================== *)

Module JS.

(** The double-quote character and a line feed, as one-character strings. *)
Definition dquote : ascii := "034"%char.
Definition dq : string := String dquote EmptyString.
Definition nl : string := String "010"%char EmptyString.

(** [q s] is [s] between double quotes: an attribute value in a template. *)
Definition q (s : string) : string := dq ++ s ++ dq.

(** [String(n)] and template interpolation of an integer. *)
Definition ToString (n : Z) : string :=
  DecimalString.NilZero.string_of_int (Z.to_int n).

(** [n.toString(16)] for an integer. *)
Definition toString16 (n : Z) : string :=
  HexadecimalString.NilZero.string_of_int (Z.to_hex_int n).

(** [s.repeat]-like filler of [padStart]: the first [n] characters of
    [fill] repeated for ever ([fill] non-empty). *)
Fixpoint take (n : nat) (s : string) : string :=
  match n, s with
  | S k, String c s' => String c (take k s')
  | _, _ => EmptyString
  end.

Fixpoint filler (fuel : nat) (n : nat) (fill : string) : string :=
  match fuel with
  | O => EmptyString
  | S fuel' =>
      if (n <=? String.length fill)%nat then take n fill
      else fill ++ filler fuel' (n - String.length fill) fill
  end.

(** [s.padStart(target, fill)]. *)
Definition padStart (target : nat) (fill : string) (s : string) : string :=
  if (target <=? String.length s)%nat then s
  else match fill with
       | EmptyString => s
       | _ => let n := (target - String.length s)%nat in filler (S n) n fill ++ s
       end.

(** [s.replace(/c/g, r)] for a one-character pattern [c] and a replacement
    [r] free of [$]. *)
Fixpoint replace_all (c : ascii) (r : string) (s : string) : string :=
  match s with
  | EmptyString => EmptyString
  | String a s' =>
      if Ascii.eqb a c then r ++ replace_all c r s'
      else String a (replace_all c r s')
  end.

(** [s.split(c)] for a one-character separator. *)
Fixpoint split (c : ascii) (s : string) : list string :=
  match s with
  | EmptyString => [EmptyString]
  | String a s' =>
      if Ascii.eqb a c then EmptyString :: split c s'
      else match split c s' with
           | h :: t => String a h :: t
           | [] => [String a EmptyString]
           end
  end.

(** [a || b] on strings that may be [undefined]: the empty string is falsy. *)
Definition or_else (a : option string) (b : string) : string :=
  match a with
  | Some EmptyString | None => b
  | Some s => s
  end.

(** Numbers as [Math.max] returns them. *)
Inductive number : Type :=
| NegInfinity
| Int (z : Z).

Definition max2 (a b : number) : number :=
  match a, b with
  | NegInfinity, _ => b
  | _, NegInfinity => a
  | Int x, Int y => Int (Z.max x y)
  end.

(** [Math.max(...xs)]: the running maximum starts at [-Infinity]. *)
Definition Math_max (xs : list Z) : number :=
  fold_left (fun acc x => max2 acc (Int x)) xs NegInfinity.

Definition number_ToString (n : number) : string :=
  match n with
  | NegInfinity => "-Infinity"
  | Int z => ToString z
  end.

(** [x | 0]: truncation towards zero, then wrap-around to 32 bits signed. *)
Definition truncate (x : Q) : Z := Z.quot (Qnum x) (Zpos (Qden x)).

Definition wrap32 (z : Z) : Z := (z + 2 ^ 31) mod 2 ^ 32 - 2 ^ 31.

Definition ToInt32 (x : Q) : Z := wrap32 (truncate x).

(** The random source: [Math.random()] reads the stream at the cursor and
    advances it. *)
Record Random : Type := { stream : nat -> Q; cursor : nat }.

Definition Math_random (g : Random) : Q * Random :=
  (stream g (cursor g), {| stream := stream g; cursor := S (cursor g) |}).

End JS.

(* ================================================================== *)
(** ** The generator class *)
(* ================================================================== *)

Module EPUBGenerator.
Import JS.

(** Which of the two copies of the class: [pdf-to-epub.ts] or
    [public/app.jsx]. *)
Inductive build : Type := Node | Browser.

(** [Partial<EPUBOptions>]: every key may be absent. *)
Record EPUBOptions : Type := {
  opt_title : option string;
  opt_author : option string;
  opt_language : option string;
  opt_dpi : option Z
}.

Definition no_options : EPUBOptions :=
  {| opt_title := None; opt_author := None; opt_language := None; opt_dpi := None |}.

(** [imageData] is a [Buffer] in the Node build and a data URL in the
    browser build; both are opaque payloads here. *)
Record PageData : Type := {
  imageData : string;
  width : Z;
  height : Z;
  pageNum : Z
}.

(** The fields of an [EPUBGenerator] instance. *)
Record t : Type := {
  title : string;
  author : string;
  language : string;
  uuid : string;
  pages : list PageData
}.

(** *** generateUUID *)

Definition uuid_template : string := "xxxxxxxx-xxxx-4xxx-yxxx-xxxxxxxxxxxx".

(** The callback of [replace(/[xy]/g, ...)]: one draw per placeholder. *)
Definition uuid_digit (c : ascii) (g : Random) : string * Random :=
  let (x, g') := Math_random g in
  let r := ToInt32 (x * 16)%Q in
  let v := if Ascii.eqb c "x" then r else Z.lor (Z.land r 3) 8 in
  (toString16 v, g').

Fixpoint replace_xy (s : string) (g : Random) : string * Random :=
  match s with
  | EmptyString => (EmptyString, g)
  | String c s' =>
      if Ascii.eqb c "x" || Ascii.eqb c "y" then
        let (d, g1) := uuid_digit c g in
        let (r, g2) := replace_xy s' g1 in
        (d ++ r, g2)
      else
        let (r, g2) := replace_xy s' g in
        (String c r, g2)
  end.

Definition generateUUID (g : Random) : string * Random :=
  replace_xy uuid_template g.

(** *** constructor and addPage *)

Definition constructor (options : EPUBOptions) (g : Random) : t * Random :=
  let (u, g') := generateUUID g in
  ({| title := or_else (opt_title options) "Untitled";
      author := or_else (opt_author options) "Unknown";
      language := or_else (opt_language options) "en";
      uuid := u;
      pages := [] |}, g').

Definition addPage (b : t) (data : string) (w h n : Z) : t :=
  {| title := title b; author := author b; language := language b;
     uuid := uuid b;
     pages := (pages b ++ [{| imageData := data; width := w; height := h; pageNum := n |}])%list |}.

(** Assignments to the metadata fields (the fields are plain properties in
    the browser build). *)
Definition set_title (b : t) (s : string) : t :=
  {| title := s; author := author b; language := language b;
     uuid := uuid b; pages := pages b |}.

Definition set_author (b : t) (s : string) : t :=
  {| title := title b; author := s; language := language b;
     uuid := uuid b; pages := pages b |}.

Definition set_language (b : t) (s : string) : t :=
  {| title := title b; author := author b; language := s;
     uuid := uuid b; pages := pages b |}.

(** *** escapeXML *)

Definition escapeXML (str : string) : string :=
  replace_all "'" "&apos;"
    (replace_all dquote "&quot;"
       (replace_all ">" "&gt;"
          (replace_all "<" "&lt;"
             (replace_all "&" "&amp;" str)))).

(** *** Fixed documents *)

Definition getMimetype : string := "application/epub+zip".

Definition xml_decl : string :=
  "<?xml version=" ++ q "1.0" ++ " encoding=" ++ q "UTF-8" ++ "?>".

Definition getContainer : string :=
  xml_decl ++ nl ++
  "<container version=" ++ q "1.0" ++ " xmlns=" ++ q "urn:oasis:names:tc:opendocument:xmlns:container" ++ ">" ++ nl ++
  "  <rootfiles>" ++ nl ++
  "    <rootfile full-path=" ++ q "OEBPS/content.opf" ++ " media-type=" ++ q "application/oebps-package+xml" ++ "/>" ++ nl ++
  "  </rootfiles>" ++ nl ++
  "</container>".

Definition getCSS : string :=
  "@charset " ++ q "UTF-8" ++ ";" ++ nl ++
  nl ++
  "html, body {" ++ nl ++
  "  margin: 0;" ++ nl ++
  "  padding: 0;" ++ nl ++
  "  width: 100%;" ++ nl ++
  "  height: 100%;" ++ nl ++
  "  overflow: hidden;" ++ nl ++
  "}" ++ nl ++
  nl ++
  "body {" ++ nl ++
  "  background-color: #ffffff;" ++ nl ++
  "}" ++ nl ++
  nl ++
  ".page-image {" ++ nl ++
  "  width: 100%;" ++ nl ++
  "  height: 100%;" ++ nl ++
  "  object-fit: contain;" ++ nl ++
  "  display: block;" ++ nl ++
  "}" ++ nl ++
  nl ++
  "div.page-container {" ++ nl ++
  "  width: 100%;" ++ nl ++
  "  height: 100%;" ++ nl ++
  "  margin: 0;" ++ nl ++
  "  padding: 0;" ++ nl ++
  "  position: absolute;" ++ nl ++
  "  top: 0;" ++ nl ++
  "  left: 0;" ++ nl ++
  "}".

(** *** Page numbering *)

(** [String(n).padStart(3, '0')]. *)
Definition num (n : Z) : string := padStart 3 "0" (ToString n).

(** [this.pages.forEach((_, i) => ...)]: the indices visited, in order. *)
Definition indices (ps : list PageData) : list nat := seq 0 (List.length ps).

(** The [i + 1] of the loops. *)
Definition succ_index (i : nat) : Z := Z.of_nat i + 1.

(** [acc += render(x)] for each [x] in turn, from the initial text [init]. *)
Definition accumulate {A : Type} (init : string) (render : A -> string) (xs : list A) : string :=
  fold_left (fun acc x => acc ++ render x) xs init.

(** *** content.opf *)

(** [new Date().toISOString().replace(/\.\d{3}Z$/, 'Z')]: the clock reading
    [iso] loses its millisecond field. *)
Definition is_digit (c : ascii) : bool :=
  (48 <=? nat_of_ascii c)%nat && (nat_of_ascii c <=? 57)%nat.

Definition millis_Z (s : string) : bool :=
  match s with
  | String a (String b (String c (String z EmptyString))) =>
      is_digit a && is_digit b && is_digit c && Ascii.eqb z "Z"
  | _ => false
  end.

Fixpoint strip_millis (iso : string) : string :=
  match iso with
  | EmptyString => EmptyString
  | String c s' =>
      if Ascii.eqb c "." && millis_Z s' then "Z" else String c (strip_millis s')
  end.

(** One [<item .../>] line of the manifest; [item_props] is the text of the
    [${props}] hole (empty, or a [properties] attribute). *)
Record item : Type := {
  item_id : string;
  item_href : string;
  item_media_type : string;
  item_props : string
}.

Definition properties (v : string) : string := " properties=" ++ q v.

Definition render_item (it : item) : string :=
  "    <item id=" ++ q (item_id it) ++ " href=" ++ q (item_href it) ++
  " media-type=" ++ q (item_media_type it) ++ item_props it ++ "/>" ++ nl.

(** The three lines the [manifest] variable starts with. *)
Definition fixed_items : list item :=
  [ {| item_id := "css"; item_href := "styles/fixed-layout.css";
       item_media_type := "text/css"; item_props := EmptyString |};
    {| item_id := "ncx"; item_href := "toc.ncx";
       item_media_type := "application/x-dtbncx+xml"; item_props := EmptyString |};
    {| item_id := "nav"; item_href := "nav.xhtml";
       item_media_type := "application/xhtml+xml"; item_props := properties "nav" |} ].

(** First loop: the markup document of the page at index [i]. *)
Definition page_item (i : nat) : item :=
  let num := num (succ_index i) in
  {| item_id := "page" ++ num; item_href := "xhtml/page_" ++ num ++ ".xhtml";
     item_media_type := "application/xhtml+xml"; item_props := EmptyString |}.

(** Second loop: the image of the page at index [i]. *)
Definition image_item (i : nat) : item :=
  let num := num (succ_index i) in
  let props := if (i =? 0)%nat then properties "cover-image" else EmptyString in
  {| item_id := "img" ++ num; item_href := "images/page_" ++ num ++ ".png";
     item_media_type := "image/png"; item_props := props |}.

Definition manifest_items (b : t) : list item :=
  (fixed_items ++ map page_item (indices (pages b))
               ++ map image_item (indices (pages b)))%list.

Definition manifest (b : t) : string :=
  let manifest := accumulate EmptyString render_item fixed_items in
  let manifest := accumulate manifest render_item (map page_item (indices (pages b))) in
  accumulate manifest render_item (map image_item (indices (pages b))).

(** One [<itemref .../>] line of the spine. *)
Definition render_itemref (idref : string) : string :=
  "    <itemref idref=" ++ q idref ++ " properties=" ++
  q "rendition:layout-pre-paginated rendition:spread-none" ++ "/>" ++ nl.

Definition spine_idrefs (b : t) : list string :=
  map (fun i => "page" ++ num (succ_index i)) (indices (pages b)).

Definition spine (b : t) : string :=
  accumulate EmptyString render_itemref (spine_idrefs b).

Definition maxWidth (b : t) : number := Math_max (map width (pages b)).
Definition maxHeight (b : t) : number := Math_max (map height (pages b)).

(** The text of the [original-resolution] attribute. *)
Definition original_resolution (b : t) : string :=
  number_ToString (maxWidth b) ++ "x" ++ number_ToString (maxHeight b).

(** The target of the guide's cover reference (a constant of the template). *)
Definition guide_href : string := "xhtml/page_001.xhtml".

(** The blank lines of the template: two spaces in [pdf-to-epub.ts], empty
    in [app.jsx]. *)
Definition blank_line (v : build) : string :=
  match v with Node => "  " | Browser => EmptyString end.

(** The template literal [getContentOPF] returns, as a function of its
    holes. *)
Definition opf_template (blank id_ title_ language_ creator_ now resolution manifest_ spine_ : string) : string :=
  xml_decl ++ nl ++
  "<package xmlns=" ++ q "http://www.idpf.org/2007/opf" ++ " version=" ++ q "3.0" ++
    " unique-identifier=" ++ q "bookid" ++ " prefix=" ++
    q "rendition: http://www.idpf.org/vocab/rendition/#" ++ ">" ++ nl ++
  "  <metadata xmlns:dc=" ++ q "http://purl.org/dc/elements/1.1/" ++ " xmlns:opf=" ++
    q "http://www.idpf.org/2007/opf" ++ ">" ++ nl ++
  "    <dc:identifier id=" ++ q "bookid" ++ ">urn:uuid:" ++ id_ ++ "</dc:identifier>" ++ nl ++
  "    <dc:title>" ++ title_ ++ "</dc:title>" ++ nl ++
  "    <dc:language>" ++ language_ ++ "</dc:language>" ++ nl ++
  "    <dc:creator>" ++ creator_ ++ "</dc:creator>" ++ nl ++
  "    <meta property=" ++ q "dcterms:modified" ++ ">" ++ now ++ "</meta>" ++ nl ++
  "    <meta property=" ++ q "rendition:layout" ++ ">pre-paginated</meta>" ++ nl ++
  "    <meta property=" ++ q "rendition:orientation" ++ ">portrait</meta>" ++ nl ++
  "    <meta property=" ++ q "rendition:spread" ++ ">none</meta>" ++ nl ++
  "    <meta name=" ++ q "fixed-layout" ++ " content=" ++ q "true" ++ "/>" ++ nl ++
  "    <meta name=" ++ q "original-resolution" ++ " content=" ++ q resolution ++ "/>" ++ nl ++
  "  </metadata>" ++ nl ++
  blank ++ nl ++
  "  <manifest>" ++ nl ++
  manifest_ ++ "  </manifest>" ++ nl ++
  blank ++ nl ++
  "  <spine toc=" ++ q "ncx" ++ " page-progression-direction=" ++ q "ltr" ++ ">" ++ nl ++
  spine_ ++ "  </spine>" ++ nl ++
  blank ++ nl ++
  "  <guide>" ++ nl ++
  "    <reference type=" ++ q "cover" ++ " title=" ++ q "Cover" ++ " href=" ++ q guide_href ++ "/>" ++ nl ++
  "  </guide>" ++ nl ++
  "</package>".

(** [iso] is what [new Date().toISOString()] returns at the call. *)
Definition getContentOPF (v : build) (b : t) (iso : string) : string :=
  let now := strip_millis iso in
  opf_template (blank_line v) (uuid b) (escapeXML (title b)) (language b)
    (escapeXML (author b)) now (original_resolution b) (manifest b) (spine b).

(** *** toc.ncx *)

(** One [<navPoint>] element: the [i + 1] of its [id] and [playOrder], its
    label text and the [src] of its content. *)
Record navPoint : Type := {
  np_id : Z;
  np_playOrder : Z;
  np_label : string;
  np_src : string
}.

Definition render_navPoint (p : navPoint) : string :=
  "    <navPoint id=" ++ q ("navpoint" ++ ToString (np_id p)) ++ " playOrder=" ++
    q (ToString (np_playOrder p)) ++ ">" ++ nl ++
  "      <navLabel>" ++ nl ++
  "        <text>" ++ np_label p ++ "</text>" ++ nl ++
  "      </navLabel>" ++ nl ++
  "      <content src=" ++ q (np_src p) ++ "/>" ++ nl ++
  "    </navPoint>" ++ nl.

Definition nav_point (i : nat) : navPoint :=
  let num := num (succ_index i) in
  {| np_id := succ_index i; np_playOrder := succ_index i;
     np_label := "Page " ++ ToString (succ_index i);
     np_src := "xhtml/page_" ++ num ++ ".xhtml" |}.

Definition navPoints (b : t) : list navPoint :=
  map nav_point (indices (pages b)).

(** [this.pages.length], as both page-count metadata values read it. *)
Definition totalPageCount (b : t) : Z := Z.of_nat (List.length (pages b)).
Definition maxPageNumber (b : t) : Z := Z.of_nat (List.length (pages b)).

Definition ncx_template (id_ total_ max_ title_ navPoints_ : string) : string :=
  xml_decl ++ nl ++
  "<!DOCTYPE ncx PUBLIC " ++ q "-//NISO//DTD ncx 2005-1//EN" ++ " " ++
    q "http://www.daisy.org/z3986/2005/ncx-2005-1.dtd" ++ ">" ++ nl ++
  "<ncx xmlns=" ++ q "http://www.daisy.org/z3986/2005/ncx/" ++ " version=" ++ q "2005-1" ++ ">" ++ nl ++
  "  <head>" ++ nl ++
  "    <meta name=" ++ q "dtb:uid" ++ " content=" ++ q ("urn:uuid:" ++ id_) ++ "/>" ++ nl ++
  "    <meta name=" ++ q "dtb:depth" ++ " content=" ++ q "1" ++ "/>" ++ nl ++
  "    <meta name=" ++ q "dtb:totalPageCount" ++ " content=" ++ q total_ ++ "/>" ++ nl ++
  "    <meta name=" ++ q "dtb:maxPageNumber" ++ " content=" ++ q max_ ++ "/>" ++ nl ++
  "  </head>" ++ nl ++
  "  <docTitle>" ++ nl ++
  "    <text>" ++ title_ ++ "</text>" ++ nl ++
  "  </docTitle>" ++ nl ++
  "  <navMap>" ++ nl ++
  navPoints_ ++ "  </navMap>" ++ nl ++
  "</ncx>".

Definition getNCX (b : t) : string :=
  let navPoints_ := accumulate EmptyString render_navPoint (navPoints b) in
  ncx_template (uuid b) (ToString (totalPageCount b)) (ToString (maxPageNumber b))
    (escapeXML (title b)) navPoints_.

(** *** nav.xhtml *)

(** One [<li><a href=...>text</a></li>] line. *)
Record link : Type := { link_href : string; link_text : string }.

Definition render_link (l : link) : string :=
  "      <li><a href=" ++ q (link_href l) ++ ">" ++ link_text l ++ "</a></li>" ++ nl.

Definition toc_link (i : nat) : link :=
  let num := num (succ_index i) in
  {| link_href := "xhtml/page_" ++ num ++ ".xhtml";
     link_text := "Page " ++ ToString (succ_index i) |}.

Definition pageList_link (i : nat) : link :=
  let num := num (succ_index i) in
  {| link_href := "xhtml/page_" ++ num ++ ".xhtml";
     link_text := ToString (succ_index i) |}.

Definition toc_links (b : t) : list link := map toc_link (indices (pages b)).
Definition pageList_links (b : t) : list link := map pageList_link (indices (pages b)).

Definition html_open (language_ : string) : string :=
  "<html xmlns=" ++ q "http://www.w3.org/1999/xhtml" ++ " xmlns:epub=" ++
    q "http://www.idpf.org/2007/ops" ++ " xml:lang=" ++ q language_ ++ ">".

Definition nav_template (language_ toc_ pageList_ : string) : string :=
  xml_decl ++ nl ++
  "<!DOCTYPE html>" ++ nl ++
  html_open language_ ++ nl ++
  "<head>" ++ nl ++
  "  <meta charset=" ++ q "UTF-8" ++ "/>" ++ nl ++
  "  <title>Table of Contents</title>" ++ nl ++
  "  <link rel=" ++ q "stylesheet" ++ " type=" ++ q "text/css" ++ " href=" ++
    q "styles/fixed-layout.css" ++ "/>" ++ nl ++
  "</head>" ++ nl ++
  "<body>" ++ nl ++
  "  <nav epub:type=" ++ q "toc" ++ " id=" ++ q "toc" ++ ">" ++ nl ++
  "    <h1>Contents</h1>" ++ nl ++
  "    <ol>" ++ nl ++
  toc_ ++ "    </ol>" ++ nl ++
  "  </nav>" ++ nl ++
  "  <nav epub:type=" ++ q "page-list" ++ ">" ++ nl ++
  "    <ol>" ++ nl ++
  pageList_ ++ "    </ol>" ++ nl ++
  "  </nav>" ++ nl ++
  "</body>" ++ nl ++
  "</html>".

Definition getNav (b : t) : string :=
  let toc := accumulate EmptyString render_link (toc_links b) in
  let pageList := accumulate EmptyString render_link (pageList_links b) in
  nav_template (language b) toc pageList.

(** *** Page markup *)

Definition getPageXHTML (b : t) (pageNum_ width_ height_ : Z) : string :=
  let num := num pageNum_ in
  xml_decl ++ nl ++
  "<!DOCTYPE html>" ++ nl ++
  html_open (language b) ++ nl ++
  "<head>" ++ nl ++
  "  <meta charset=" ++ q "UTF-8" ++ "/>" ++ nl ++
  "  <meta name=" ++ q "viewport" ++ " content=" ++
    q ("width=" ++ ToString width_ ++ ", height=" ++ ToString height_) ++ "/>" ++ nl ++
  "  <title>Page " ++ ToString pageNum_ ++ "</title>" ++ nl ++
  "  <link rel=" ++ q "stylesheet" ++ " type=" ++ q "text/css" ++ " href=" ++
    q "../styles/fixed-layout.css" ++ "/>" ++ nl ++
  "  <style type=" ++ q "text/css" ++ ">" ++ nl ++
  "    html, body {" ++ nl ++
  "      width: " ++ ToString width_ ++ "px;" ++ nl ++
  "      height: " ++ ToString height_ ++ "px;" ++ nl ++
  "      margin: 0;" ++ nl ++
  "      padding: 0;" ++ nl ++
  "    }" ++ nl ++
  "  </style>" ++ nl ++
  "</head>" ++ nl ++
  "<body>" ++ nl ++
  "  <div class=" ++ q "page-container" ++ ">" ++ nl ++
  "    <img src=" ++ q ("../images/page_" ++ num ++ ".png") ++ " alt=" ++
    q ("Page " ++ ToString pageNum_) ++ " class=" ++ q "page-image" ++ "/>" ++ nl ++
  "  </div>" ++ nl ++
  "</body>" ++ nl ++
  "</html>".

(** *** The archive writer *)

Inductive compression_method : Type := STORE | DEFLATE.

(** The third argument of [zip.file]; an absent key is [None] / [false]. *)
Record file_options : Type := {
  compression : option compression_method;
  base64 : bool
}.

Definition default_options : file_options :=
  {| compression := None; base64 := false |}.

(** One [zip.file(name, data, options)] call; [data] is [None] when the
    argument is [undefined]. *)
Record entry : Type := {
  name : string;
  data : option string;
  options : file_options
}.

(** Modelled from the spec: the archive writer (JSZip) is an external
    collaborator that receives one intent per entry and preserves entry
    order and per-entry storage mode exactly as requested.  The archive
    under construction is therefore the sequence of intents issued so far. *)
Definition zip_file (zip : list entry) (name_ : string) (data_ : option string)
    (options_ : file_options) : list entry :=
  (zip ++ [{| name := name_; data := data_; options := options_ |}])%list.

(** *** generate *)

(** The image entry of a page.  Node: the buffer itself, no options.
    Browser: [page.imageData.split(',')[1]] with [{ base64: true }]. *)
Definition image_entry_data (v : build) (p : PageData) : option string :=
  match v with
  | Node => Some (imageData p)
  | Browser => nth_error (split "," (imageData p)) 1
  end.

Definition image_entry_options (v : build) : file_options :=
  match v with
  | Node => default_options
  | Browser => {| compression := None; base64 := true |}
  end.

(** The body of [for (const page of this.pages)]. *)
Definition add_page_entries (v : build) (b : t) (zip : list entry) (page : PageData) : list entry :=
  let num := num (pageNum page) in
  let zip := zip_file zip ("OEBPS/xhtml/page_" ++ num ++ ".xhtml")
               (Some (getPageXHTML b (pageNum page) (width page) (height page)))
               default_options in
  zip_file zip ("OEBPS/images/page_" ++ num ++ ".png")
    (image_entry_data v page) (image_entry_options v).

(** The archive handed to [zip.generateAsync]. *)
Definition generate (v : build) (b : t) (iso : string) : list entry :=
  let zip := [] in
  let zip := zip_file zip "mimetype" (Some getMimetype)
               {| compression := Some STORE; base64 := false |} in
  let zip := zip_file zip "META-INF/container.xml" (Some getContainer) default_options in
  let zip := zip_file zip "OEBPS/content.opf" (Some (getContentOPF v b iso)) default_options in
  let zip := zip_file zip "OEBPS/toc.ncx" (Some (getNCX b)) default_options in
  let zip := zip_file zip "OEBPS/nav.xhtml" (Some (getNav b)) default_options in
  let zip := zip_file zip "OEBPS/styles/fixed-layout.css" (Some getCSS) default_options in
  fold_left (add_page_entries v b) (pages b) zip.

(* ================================================================== *)
(** ** Notions the properties are stated with *)
(* ================================================================== *)

(** [needle] occurs in [hay]. *)
Definition occurs_in (needle hay : string) : Prop :=
  exists pre post, hay = pre ++ needle ++ post.

(** [s] begins with [p]. *)
Fixpoint starts_with (p s : string) : bool :=
  match p with
  | EmptyString => true
  | String a p' =>
      match s with
      | EmptyString => false
      | String c s' => Ascii.eqb a c && starts_with p' s'
      end
  end.

(** *** XML entities *)

(** The five predefined entities: the text after the ampersand, and the
    character each stands for. *)
Definition entities : list (string * ascii) :=
  [ ("amp;", "&"%char); ("lt;", "<"%char); ("gt;", ">"%char);
    ("quot;", dquote); ("apos;", "'"%char) ].

(** The entity whose name starts [s] (the text after an ampersand). *)
Definition entity_at (s : string) : option (string * ascii) :=
  find (fun e => starts_with (fst e) s) entities.

(** Standard un-escaping, left to right in one pass: an ampersand followed
    by an entity name is replaced by the entity's character, and the scan
    resumes after the name ([skip] counts the characters of a name still to
    be passed over).  Numeric character references are left as they are:
    they start with an ampersand and a hash sign, which text accepted by
    [only_entities] below never holds. *)
Fixpoint unescape_from (skip : nat) (s : string) : string :=
  match s with
  | EmptyString => EmptyString
  | String c s' =>
      match skip with
      | S k => unescape_from k s'
      | O =>
          if Ascii.eqb c "&" then
            match entity_at s' with
            | Some (ent, ch) => String ch (unescape_from (String.length ent) s')
            | None => String c (unescape_from 0 s')
            end
          else String c (unescape_from 0 s')
      end
  end.

Definition unescapeXML (s : string) : string := unescape_from 0 s.

(** What the five replacements of [escapeXML] make of one character. *)
Definition escape_char (c : ascii) : string :=
  if Ascii.eqb c "&" then "&amp;"
  else if Ascii.eqb c "<" then "&lt;"
  else if Ascii.eqb c ">" then "&gt;"
  else if Ascii.eqb c dquote then "&quot;"
  else if Ascii.eqb c "'" then "&apos;"
  else String c EmptyString.

Definition is_special (c : ascii) : bool :=
  Ascii.eqb c "&" || Ascii.eqb c "<" || Ascii.eqb c ">" ||
  Ascii.eqb c dquote || Ascii.eqb c "'".

(** Text in which the five special characters occur only inside an entity:
    none of [<], [>], the double quote and the apostrophe at all, and every
    ampersand as the first character of one of the five entities. *)
Fixpoint escaped_from (skip : nat) (s : string) : bool :=
  match s with
  | EmptyString => true
  | String c s' =>
      match skip with
      | S k => negb (is_special c) && escaped_from k s'
      | O =>
          if Ascii.eqb c "&" then
            match entity_at s' with
            | Some (ent, _) => escaped_from (String.length ent) s'
            | None => false
            end
          else negb (is_special c) && escaped_from 0 s'
      end
  end.

Definition only_entities (s : string) : bool := escaped_from 0 s.

(** *** The random source *)

(** Every draw of [Math.random] lies in the interval from 0 (included) to
    1 (excluded). *)
Definition unit_draws (g : Random) : Prop :=
  forall n, (0 <= stream g n)%Q /\ (stream g n < 1)%Q.

(** *** The identifier pattern *)

Definition is_hex (c : ascii) : bool :=
  is_digit c || ((97 <=? nat_of_ascii c)%nat && (nat_of_ascii c <=? 102)%nat).

Definition is_variant (c : ascii) : bool :=
  Ascii.eqb c "8" || Ascii.eqb c "9" || Ascii.eqb c "a" || Ascii.eqb c "b".

(** [s] matches [pattern] position by position: [x] stands for a lower-case
    hexadecimal digit, [y] for one of [8 9 a b], any other character for
    itself. *)
Fixpoint matches (pattern s : string) : bool :=
  match pattern, s with
  | EmptyString, EmptyString => true
  | String p pattern', String c s' =>
      (if Ascii.eqb p "x" then is_hex c
       else if Ascii.eqb p "y" then is_variant c
       else Ascii.eqb p c) && matches pattern' s'
  | _, _ => false
  end.

Definition uuid_v4_shape (s : string) : bool :=
  matches "xxxxxxxx-xxxx-4xxx-yxxx-xxxxxxxxxxxx" s.

(** The placeholders of a template, one draw each. *)
Fixpoint placeholders (tpl : string) : nat :=
  match tpl with
  | EmptyString => 0
  | String c tpl' =>
      ((if Ascii.eqb c "x" || Ascii.eqb c "y" then 1 else 0) + placeholders tpl')%nat
  end.

(** *** Edits between construction and generation *)

Inductive edit : Type :=
| SetTitle (s : string)
| SetAuthor (s : string)
| SetLanguage (s : string)
| AddPage (data : string) (w h n : Z).

Definition apply_edit (b : t) (e : edit) : t :=
  match e with
  | SetTitle s => set_title b s
  | SetAuthor s => set_author b s
  | SetLanguage s => set_language b s
  | AddPage d w h n => addPage b d w h n
  end.

Definition apply_edits (b : t) (es : list edit) : t := fold_left apply_edit es b.

(** *** Archive layout *)

Definition fixed_names : list string :=
  [ "mimetype"; "META-INF/container.xml"; "OEBPS/content.opf"; "OEBPS/toc.ncx";
    "OEBPS/nav.xhtml"; "OEBPS/styles/fixed-layout.css" ].

Definition markup_name (n : Z) : string := "OEBPS/xhtml/page_" ++ num n ++ ".xhtml".
Definition image_name (n : Z) : string := "OEBPS/images/page_" ++ num n ++ ".png".

(** The 1-based insertion positions of the pages. *)
Definition positions (b : t) : list Z := map succ_index (indices (pages b)).

(** Every page carries its insertion position as its page number. *)
Definition numbered_by_position (b : t) : Prop :=
  map pageNum (pages b) = positions b.

(** The layout listing of the specification read as an order: the fixed
    entries, then every markup entry, then every image entry. *)
Definition grouped_layout (b : t) : list string :=
  (fixed_names ++ map markup_name (map pageNum (pages b))
               ++ map image_name (map pageNum (pages b)))%list.

(** The order the loop of [generate] yields: each page's markup entry
    directly followed by its image entry. *)
Definition paired_layout (b : t) : list string :=
  (fixed_names ++
   flat_map (fun n => [markup_name n; image_name n]) (map pageNum (pages b)))%list.

(** The intents one page contributes. *)
Definition page_entries (v : build) (b : t) (page : PageData) : list entry :=
  add_page_entries v b [] page.

(** The entry the container format wants first. *)
Definition mimetype_entry : entry :=
  {| name := "mimetype"; data := Some "application/epub+zip";
     options := {| compression := Some STORE; base64 := false |} |}.

(** *** Cross-document references *)

(** The three referring documents all live in [OEBPS/]; their relative
    references resolve against that directory. *)
Definition resolve (href : string) : string := "OEBPS/" ++ href.

(** Manifest hrefs, NCX content sources, and the hrefs of both navigation
    lists. *)
Definition file_references (b : t) : list string :=
  (map item_href (manifest_items b) ++ map np_src (navPoints b)
   ++ map link_href (toc_links b) ++ map link_href (pageList_links b))%list.

(** Every file reference names an archive entry, and every spine [idref]
    names a manifest item. *)
Definition references_resolve (v : build) (b : t) (iso : string) : Prop :=
  (forall h, In h (file_references b) -> In (resolve h) (map name (generate v b iso)))
  /\ (forall r, In r (spine_idrefs b) -> In r (map item_id (manifest_items b))).

(** *** Three-digit numerals *)

Definition digit_char (d : Z) : ascii := ascii_of_nat (48 + Z.to_nat d).

(** [n] written with exactly three decimal digits. *)
Definition three_digits (n : Z) : string :=
  String (digit_char (n / 100))
    (String (digit_char ((n / 10) mod 10))
       (String (digit_char (n mod 10)) EmptyString)).

Fixpoint zeros (k : nat) : string :=
  match k with
  | O => EmptyString
  | S k' => String "0" (zeros k')
  end.

(** The text left once the leading zeros are dropped. *)
Fixpoint drop_zeros (s : string) : string :=
  match s with
  | String c s' => if Ascii.eqb c "0" then drop_zeros s' else s
  | EmptyString => EmptyString
  end.

(** *** Construction options *)

(** An empty string replaced by an absent key. *)
Definition absent_if_empty (o : option string) : option string :=
  match o with
  | Some EmptyString => None
  | _ => o
  end.

Definition without_empty (options : EPUBOptions) : EPUBOptions :=
  {| opt_title := absent_if_empty (opt_title options);
     opt_author := absent_if_empty (opt_author options);
     opt_language := absent_if_empty (opt_language options);
     opt_dpi := opt_dpi options |}.

(** *** Counting fragments *)

(** The number of positions of [hay] at which [needle] starts. *)
Fixpoint count_occurrences (needle hay : string) : nat :=
  match hay with
  | EmptyString => 0
  | String _ hay' =>
      ((if starts_with needle hay then 1 else 0) + count_occurrences needle hay')%nat
  end.

(** *** Sample books *)

(** A random source whose draws run through sixteenths. *)
Definition sample_random : Random :=
  {| stream := fun n => Z.of_nat (n mod 16) # 16; cursor := 0 |}.

Definition sample_options : EPUBOptions :=
  {| opt_title := Some "Test"; opt_author := Some "Author & Co.";
     opt_language := Some "en"; opt_dpi := None |}.

(** Scenario A: one page of 300 by 400 pixels. *)
Definition book_A : t :=
  addPage (fst (constructor sample_options sample_random)) "PNG" 300 400 1.

(** Two pages whose largest width and largest height sit on different
    pages. *)
Definition book_two : t := addPage book_A "PNG" 200 500 2.

(** Two pages numbered in reverse of their insertion order. *)
Definition book_swapped : t :=
  addPage (addPage (fst (constructor sample_options sample_random)) "PNG" 300 400 2)
    "PNG" 300 400 1.

(** Scenario C: no page added. *)
Definition book_empty : t := fst (constructor no_options sample_random).

(** Scenario B: [n] pages numbered from 1. *)
Definition add_numbered (b : t) (i : nat) : t := addPage b "PNG" 300 400 (succ_index i).

Definition book_of_pages (n : nat) : t :=
  fold_left add_numbered (seq 0 n) (fst (constructor sample_options sample_random)).

(* ================================================================== *)
(** ** The callers of the class *)
(* ================================================================== *)

(** *** More JavaScript primitives *)

(** [s.substring(n)]. *)
Fixpoint drop (n : nat) (s : string) : string :=
  match n, s with
  | S k, String _ s' => drop k s'
  | _, _ => s
  end.

(** [s.replace(pat, r)] for a string pattern and a replacement free of
    [$]: the first occurrence only. *)
Fixpoint replace_first (pat r s : string) : string :=
  if starts_with pat s then r ++ drop (String.length pat) s
  else match s with
       | EmptyString => EmptyString
       | String c s' => String c (replace_first pat r s')
       end.

(** [Math.round]: the nearest integer, a tie going up. *)
Definition Math_round (x : Q) : Z := Qfloor (x + (1 # 2)).

(** [a || b] on a number that may be [undefined]: zero is falsy (and so is
    [NaN], which is read as [None] throughout). *)
Definition or_else_number (a : option Z) (b : Z) : Z :=
  match a with
  | Some 0 | None => b
  | Some n => n
  end.

(** *** The page renderer *)

(** What the PDF library and the canvas give for a loaded document: the
    page count and, for a 1-based page index and a scale, the viewport size
    and the rendered image (a PNG buffer under Node, a data URL in the
    browser). *)
Record PDFDocument : Type := {
  numPages : nat;
  viewport_width : nat -> Q -> Q;
  viewport_height : nat -> Q -> Q;
  toBuffer : nat -> Q -> string;
  toDataURL : nat -> Q -> string
}.

Definition rendered_image (v : build) (pdf : PDFDocument) (i : nat) (scale : Q) : string :=
  match v with
  | Node => toBuffer pdf i scale
  | Browser => toDataURL pdf i scale
  end.

(** The body of [for (let i = 1; i <= totalPages; i++)], the same in both
    builds up to the kind of image. *)
Definition convert_page (v : build) (pdf : PDFDocument) (scale : Q) (epub : t) (i : nat) : t :=
  addPage epub (rendered_image v pdf i scale)
    (Math_round (viewport_width pdf i scale))
    (Math_round (viewport_height pdf i scale))
    (Z.of_nat i).

Definition convert_pages (v : build) (pdf : PDFDocument) (scale : Q) (epub : t) : t :=
  fold_left (convert_page v pdf scale) (seq 1 (numPages pdf)) epub.

(** *** pdf-to-epub.ts: convertPDFToEPUB and main *)

Section CommandLine.

(** [path.basename] and [parseInt(_, 10)] of the platform; [parseInt]
    answers [None] for [NaN], also on an [undefined] argument. *)
Variable basename : string -> string -> string.
Variable parseInt : option string -> option Z.

(** The generator [convertPDFToEPUB] has filled when it calls
    [generate]. *)
Definition convertPDFToEPUB_book (pdf : PDFDocument) (inputPath : string)
    (options : EPUBOptions) (g : Random) : t * Random :=
  let dpi := or_else_number (opt_dpi options) 150 in
  let scale := (inject_Z dpi / 72)%Q in
  let title_ := or_else (opt_title options) (basename inputPath ".pdf") in
  let (epub, g') :=
    constructor {| opt_title := Some title_;
                   opt_author := Some (or_else (opt_author options) "Unknown");
                   opt_language := Some (or_else (opt_language options) "en");
                   opt_dpi := None |} g in
  (convert_pages Node pdf scale epub, g').

(** The archive [convertPDFToEPUB] writes to the output path. *)
Definition convertPDFToEPUB (pdf : PDFDocument) (inputPath : string)
    (options : EPUBOptions) (g : Random) (iso : string) : list entry :=
  generate Node (fst (convertPDFToEPUB_book pdf inputPath options g)) iso.

(** One turn of the [switch (flag)]; [value] is [None] when [args[i + 1]]
    is past the end. *)
Definition set_option (options : EPUBOptions) (flag : string) (value : option string) : EPUBOptions :=
  if String.eqb flag "--title" then
    {| opt_title := value; opt_author := opt_author options;
       opt_language := opt_language options; opt_dpi := opt_dpi options |}
  else if String.eqb flag "--author" then
    {| opt_title := opt_title options; opt_author := value;
       opt_language := opt_language options; opt_dpi := opt_dpi options |}
  else if String.eqb flag "--language" then
    {| opt_title := opt_title options; opt_author := opt_author options;
       opt_language := value; opt_dpi := opt_dpi options |}
  else if String.eqb flag "--dpi" then
    {| opt_title := opt_title options; opt_author := opt_author options;
       opt_language := opt_language options; opt_dpi := parseInt value |}
  else options.

(** [for (let i = 2; i < args.length; i += 2)] over the arguments from
    index 2 on. *)
Fixpoint parse_flags (args : list string) (options : EPUBOptions) : EPUBOptions :=
  match args with
  | [] => options
  | [flag] => set_option options flag None
  | flag :: value :: rest => parse_flags rest (set_option options flag (Some value))
  end.

(** How a run of [main] ends. *)
Inductive outcome : Type :=
| UsageExit
| NotFoundExit (inputPath : string)
| ErrorExit
| Saved (outputPath : string) (archive : list entry).

(** [main] on [process.argv.slice(2)].  [existsSync] is the file system's
    answer; [load] is reading and parsing the input, [None] when it
    throws. *)
Definition main (args : list string) (existsSync : string -> bool)
    (load : string -> option PDFDocument) (g : Random) (iso : string) : outcome :=
  match args with
  | inputPath :: outputPath :: flags =>
      let options := parse_flags flags no_options in
      if negb (existsSync inputPath) then NotFoundExit inputPath
      else match load inputPath with
           | Some pdf => Saved outputPath (convertPDFToEPUB pdf inputPath options g iso)
           | None => ErrorExit
           end
  | _ => UsageExit
  end.

End CommandLine.

(** *** public/app.jsx: the file drop and convertToEPUB *)

Record File : Type := { file_name : string; file_type : string }.

Record Metadata : Type := {
  md_title : string;
  md_author : string;
  md_language : string
}.

(** The initial [useState] value. *)
Definition initial_metadata : Metadata :=
  {| md_title := EmptyString; md_author := EmptyString; md_language := "en" |}.

(** [handleFileDrop] on the dropped or selected file, if any: the new
    [file] and [metadata] states. *)
Definition handleFileDrop (dropped : option File) (file : option File)
    (metadata : Metadata) : option File * Metadata :=
  match dropped with
  | Some droppedFile =>
      if String.eqb (file_type droppedFile) "application/pdf" then
        (Some droppedFile,
         {| md_title := replace_first ".pdf" EmptyString (file_name droppedFile);
            md_author := md_author metadata;
            md_language := md_language metadata |})
      else (file, metadata)
  | None => (file, metadata)
  end.

(** The generator [convertToEPUB] has filled when it calls [generate]. *)
Definition convertToEPUB_book (pdf : PDFDocument) (file : File) (metadata : Metadata)
    (dpi : Z) (g : Random) : t * Random :=
  let (epub, g') :=
    constructor
      {| opt_title := Some (or_else (Some (md_title metadata))
                              (replace_first ".pdf" EmptyString (file_name file)));
         opt_author := Some (or_else (Some (md_author metadata)) "Unknown");
         opt_language := Some (or_else (Some (md_language metadata)) "en");
         opt_dpi := None |} g in
  let scale := (inject_Z dpi / 72)%Q in
  (convert_pages Browser pdf scale epub, g').

(** The name offered for the download. *)
Definition download_name (metadata : Metadata) : string :=
  or_else (Some (md_title metadata)) "converted" ++ ".epub".

(** *** Notions for the callers *)

(** [c] does not occur in [s]. *)
Fixpoint free_of (c : ascii) (s : string) : bool :=
  match s with
  | EmptyString => true
  | String a s' => negb (Ascii.eqb a c) && free_of c s'
  end.

(** A page document lives in [OEBPS/xhtml/]: a reference that climbs one
    directory resolves against [OEBPS/]. *)
Definition resolve_from_page (href : string) : string :=
  if starts_with "../" href then "OEBPS/" ++ drop 3 href
  else "OEBPS/xhtml/" ++ href.

(** None of the five special characters occurs in [s]. *)
Fixpoint plain (s : string) : bool :=
  match s with
  | EmptyString => true
  | String c s' => negb (is_special c) && plain s'
  end.

(** The option a text flag of the command line sets. *)
Definition text_option (flag : string) (options : EPUBOptions) : option string :=
  if String.eqb flag "--title" then opt_title options
  else if String.eqb flag "--author" then opt_author options
  else opt_language options.

(** The page a converter adds for the page of index [i]. *)
Definition converted_page (v : build) (pdf : PDFDocument) (scale : Q) (i : nat) : PageData :=
  {| imageData := rendered_image v pdf i scale;
     width := Math_round (viewport_width pdf i scale);
     height := Math_round (viewport_height pdf i scale);
     pageNum := Z.of_nat i |}.

(** A two-page document of US Letter pages, 612 by 792 points. *)
Definition sample_pdf : PDFDocument :=
  {| numPages := 2;
     viewport_width := fun _ scale => (612 * scale)%Q;
     viewport_height := fun _ scale => (792 * scale)%Q;
     toBuffer := fun _ _ => "PNG";
     toDataURL := fun _ _ => "data:image/png;base64,iVBORw0KGgo=" |}.

(** The flag and value pairs of a command line, flattened. *)
Definition flatten_pairs (ps : list (string * string)) : list string :=
  flat_map (fun p => [fst p; snd p]) ps.

(** *** Reading a document *)

(** The text of [s] before its first [stop]. *)
Fixpoint until (stop : ascii) (s : string) : string :=
  match s with
  | EmptyString => EmptyString
  | String a s' => if Ascii.eqb a stop then EmptyString else String a (until stop s')
  end.

(** For every position of [s] at which [marker] starts, in order, the text
    that follows the marker up to the next [stop]. *)
Fixpoint fields (marker : string) (stop : ascii) (s : string) : list string :=
  match s with
  | EmptyString => []
  | String _ s' =>
      if starts_with marker s
      then until stop (drop (String.length marker) s) :: fields marker stop s'
      else fields marker stop s'
  end.

(** The attribute text of every start tag of [element] in [doc]: what
    stands between the element name and the closing angle bracket. *)
Definition start_tags (element doc : string) : list string :=
  fields ("<" ++ element ++ " ") ">" doc.

(** The values the attribute [name] takes in the attribute text [tag]. *)
Definition attribute (name tag : string) : list string :=
  fields (" " ++ name ++ "=" ++ dq) dquote (" " ++ tag).

(** The concatenation of a list of texts. *)
Definition join (l : list string) : string := fold_right append EmptyString l.

(** Every character of [s] is a decimal digit or a minus sign. *)
Fixpoint numeral (s : string) : bool :=
  match s with
  | EmptyString => true
  | String c s' => (is_digit c || Ascii.eqb c "-") && numeral s'
  end.

(** The attribute text of a manifest line and of a spine line. *)
Definition item_tag (it : item) : string :=
  "id=" ++ q (item_id it) ++ " href=" ++ q (item_href it) ++
  " media-type=" ++ q (item_media_type it) ++ item_props it ++ "/".

Definition itemref_tag (idref : string) : string :=
  "idref=" ++ q idref ++ " properties=" ++
  q "rendition:layout-pre-paginated rendition:spread-none" ++ "/".

(** Scanning [text] for [marker] yields [r] whatever follows [text]. *)
Definition yields (marker : string) (stop : ascii) (text : string) (r : list string) : Prop :=
  forall rest, fields marker stop (text ++ rest) = (r ++ fields marker stop rest)%list.

(** The values of the attribute [name_] over the start tags of [element]. *)
Definition attributes (name_ element doc : string) : list string :=
  flat_map (attribute name_) (start_tags element doc).


(** *** The references of an archive *)

(** The text of the entry named [n]. *)
Definition document (zip : list entry) (n : string) : string :=
  match find (fun e => String.eqb (name e) n) zip with
  | Some e => match data e with Some s => s | None => EmptyString end
  | None => EmptyString
  end.

(** What the package document, the NCX and the navigation document refer
    to, relative to [OEBPS/]: the manifest hrefs and the guide's href, the
    NCX content sources, the hrefs of the navigation lists and of the
    style sheet link. *)
Definition archive_references (zip : list entry) : list string :=
  let opf := document zip "OEBPS/content.opf" in
  let ncx := document zip "OEBPS/toc.ncx" in
  let nav := document zip "OEBPS/nav.xhtml" in
  (attributes "href" "item" opf ++ attributes "href" "reference" opf
   ++ attributes "src" "content" ncx
   ++ attributes "href" "a" nav ++ attributes "href" "link" nav)%list.

(** Every reference read back from the archive's documents names an entry
    of the archive: the container's root file, the references of the three
    documents, and every spine [idref] names a manifest [id]. *)
Definition archive_references_resolve (zip : list entry) : Prop :=
  let opf := document zip "OEBPS/content.opf" in
  (forall p, In p (attributes "full-path" "rootfile" (document zip "META-INF/container.xml")) ->
             In p (map name zip))
  /\ (forall h, In h (archive_references zip) -> In (resolve h) (map name zip))
  /\ (forall r, In r (attributes "idref" "itemref" opf) -> In r (attributes "id" "item" opf)).

(** A language text that holds markup: it closes the metadata, adds a
    manifest with one entry and opens the metadata again.  The one-page
    book that has it as its language. *)
Definition language_with_markup : string :=
  "en</dc:language></metadata><manifest><item id=" ++ q "x" ++ " href=" ++ q "x.png" ++
  " media-type=" ++ q "image/png" ++ " properties=" ++ q "cover-image" ++
  "/></manifest><metadata><dc:language>".

Definition book_with_markup : t := set_language book_A language_with_markup.

(** [result] is [s] without its first occurrence of [pat], and [s] itself
    when [pat] does not occur. *)
Inductive first_removed (pat : string) : string -> string -> Prop :=
| removed_none (s : string) : ~ occurs_in pat s -> first_removed pat s s
| removed_at (pre post : string) :
    (forall pre' post', pre ++ pat ++ post = pre' ++ pat ++ post' ->
                        (String.length pre <= String.length pre')%nat) ->
    first_removed pat (pre ++ pat ++ post) (pre ++ post).

(* ================================================================== *)
(** ** Basic facts *)
(* ================================================================== *)

Lemma append_empty_r (s : string) : s ++ EmptyString = s.
Proof. induction s as [|c s IH]; simpl; [reflexivity | now rewrite IH]. Qed.

Lemma append_assoc (a b c : string) : (a ++ b) ++ c = a ++ (b ++ c).
Proof. induction a as [|x a IH]; simpl; [reflexivity | now rewrite IH]. Qed.

Lemma append_length (a b : string) :
  String.length (a ++ b) = (String.length a + String.length b)%nat.
Proof. induction a as [|x a IH]; simpl; [reflexivity | now rewrite IH]. Qed.

Lemma append_inv_head (a b c : string) : a ++ b = a ++ c -> b = c.
Proof.
  induction a as [|x a IH]; simpl; intros H; [exact H|].
  injection H as H. now apply IH.
Qed.

(** Two decompositions with heads of the same length agree part by part. *)
Lemma append_same_length (a a' b b' : string) :
  String.length a = String.length a' -> a ++ b = a' ++ b' -> a = a' /\ b = b'.
Proof.
  revert a'. induction a as [|x a IH]; intros [|x' a'] Hlen H; simpl in *;
    try discriminate.
  - split; [reflexivity | exact H].
  - injection H as Hx H. injection Hlen as Hlen.
    destruct (IH a' Hlen H) as [-> ->]. now subst.
Qed.

Lemma indices_length (ps : list PageData) : List.length (indices ps) = List.length ps.
Proof. unfold indices. apply length_seq. Qed.

(** *** The shape of the archive *)

Lemma add_page_entries_app (v : build) (b : t) (zip : list entry) (page : PageData) :
  add_page_entries v b zip page = (zip ++ page_entries v b page)%list.
Proof.
  unfold page_entries, add_page_entries, zip_file. simpl.
  now rewrite <- app_assoc.
Qed.

Lemma fold_page_entries (v : build) (b : t) (ps : list PageData) (zip : list entry) :
  fold_left (add_page_entries v b) ps zip
  = (zip ++ flat_map (page_entries v b) ps)%list.
Proof.
  revert zip. induction ps as [|p ps IH]; intros zip; simpl.
  - now rewrite app_nil_r.
  - rewrite IH, add_page_entries_app, <- app_assoc. reflexivity.
Qed.

(** [generate] issues the six fixed intents, then those of each page. *)
Lemma generate_shape (v : build) (b : t) (iso : string) :
  generate v b iso =
  (mimetype_entry
   :: {| name := "META-INF/container.xml"; data := Some getContainer; options := default_options |}
   :: {| name := "OEBPS/content.opf"; data := Some (getContentOPF v b iso); options := default_options |}
   :: {| name := "OEBPS/toc.ncx"; data := Some (getNCX b); options := default_options |}
   :: {| name := "OEBPS/nav.xhtml"; data := Some (getNav b); options := default_options |}
   :: {| name := "OEBPS/styles/fixed-layout.css"; data := Some getCSS; options := default_options |}
   :: flat_map (page_entries v b) (pages b))%list.
Proof.
  unfold generate. rewrite fold_page_entries. reflexivity.
Qed.

Lemma page_entries_no_compression (v : build) (b : t) (p : PageData) :
  Forall (fun e => compression (options e) = None) (page_entries v b p).
Proof.
  unfold page_entries, add_page_entries, zip_file. simpl.
  repeat constructor. destruct v; reflexivity.
Qed.

Lemma generate_names (v : build) (b : t) (iso : string) :
  map name (generate v b iso) = paired_layout b.
Proof.
  rewrite generate_shape. unfold paired_layout, fixed_names. simpl.
  do 6 f_equal.
  induction (pages b) as [|p ps IH]; simpl; [reflexivity|].
  now rewrite IH.
Qed.

(** *** Decimal numerals *)

Lemma to_int_normal (z : Z) : Decimal.norm (Z.to_int z) = Z.to_int z.
Proof.
  rewrite <- (DecimalZ.of_to z) at 2. now rewrite DecimalZ.to_of.
Qed.

Lemma nzhead_no_zero (u v : Decimal.uint) : Decimal.nzhead u <> Decimal.D0 v.
Proof. induction u; simpl; try discriminate. exact IHu. Qed.

Lemma ToString_inj (a b : Z) : ToString a = ToString b -> a = b.
Proof.
  unfold ToString. intros H.
  apply DecimalZ.to_int_inj.
  assert (N : forall z, Z.to_int z <> Decimal.Pos Decimal.Nil
                        /\ Z.to_int z <> Decimal.Neg Decimal.Nil).
  { intros z. rewrite <- (to_int_normal z).
    destruct (Z.to_int z) as [u|u]; simpl.
    - split; [|discriminate]. intros [= E]. now apply DecimalFacts.unorm_nonnil in E.
    - destruct (Decimal.nzhead u); split; discriminate. }
  destruct (N a) as [Ha1 Ha2], (N b) as [Hb1 Hb2].
  apply (f_equal DecimalString.NilZero.int_of_string) in H.
  rewrite !DecimalString.NilZero.isi in H by assumption.
  now injection H.
Qed.

Lemma ToString_nonempty (z : Z) : ToString z <> EmptyString.
Proof.
  unfold ToString. destruct (Z.to_int z) as [u|u]; simpl; [|discriminate].
  destruct u; simpl; discriminate.
Qed.

(** Only zero is written with a leading [0]. *)
Lemma ToString_leading_zero (z : Z) (s : string) :
  ToString z = String "0" s -> z = 0.
Proof.
  unfold ToString. intros H.
  rewrite <- (DecimalZ.of_to z).
  rewrite <- (to_int_normal z) in H |- *.
  destruct (Z.to_int z) as [u|u]; simpl in H |- *.
  - unfold Decimal.unorm in *.
    pose proof (nzhead_no_zero u) as Hnz.
    destruct (Decimal.nzhead u) eqn:E; simpl in H; try discriminate; try reflexivity.
    now destruct (Hnz u0).
  - destruct (Decimal.nzhead u) eqn:E; simpl in H; try discriminate.
    reflexivity.
Qed.

(** *** Zero padding *)

Lemma filler_zeros (fuel n : nat) : (n < fuel)%nat -> filler fuel n "0" = zeros n.
Proof.
  revert n. induction fuel as [|fuel IH]; intros n Hn; [lia|].
  destruct n as [|[|n]]; simpl; try reflexivity.
  f_equal. apply (IH (S n)). lia.
Qed.

Lemma padStart_zeros (target : nat) (s : string) :
  padStart target "0" s = zeros (target - String.length s) ++ s.
Proof.
  unfold padStart. destruct (Nat.leb_spec target (String.length s)) as [H|H].
  - replace (target - String.length s)%nat with 0%nat by lia. reflexivity.
  - cbv zeta. now rewrite filler_zeros by lia.
Qed.

Lemma drop_zeros_app (k : nat) (s : string) : drop_zeros (zeros k ++ s) = drop_zeros s.
Proof. induction k as [|k IH]; simpl; [reflexivity | exact IH]. Qed.

Lemma drop_zeros_ToString (z : Z) :
  z <> 0 -> drop_zeros (ToString z) = ToString z.
Proof.
  intros Hz. destruct (ToString z) as [|c s] eqn:E; [reflexivity|].
  simpl. destruct (Ascii.eqb_spec c "0") as [->|_]; [|reflexivity].
  now apply ToString_leading_zero in E.
Qed.

Lemma drop_zeros_num (z : Z) :
  drop_zeros (num z) = if Z.eqb z 0 then EmptyString else ToString z.
Proof.
  unfold num. rewrite padStart_zeros, drop_zeros_app.
  destruct (Z.eqb_spec z 0) as [->|Hz]; [reflexivity|].
  now apply drop_zeros_ToString.
Qed.

(** Distinct page numbers never share a padded numeral. *)
Lemma num_inj (a b : Z) : num a = num b -> a = b.
Proof.
  intros H. apply (f_equal drop_zeros) in H. rewrite !drop_zeros_num in H.
  destruct (Z.eqb_spec a 0) as [Ha|Ha]; destruct (Z.eqb_spec b 0) as [Hb|Hb].
  - congruence.
  - symmetry in H. now apply ToString_nonempty in H.
  - now apply ToString_nonempty in H.
  - now apply ToString_inj.
Qed.

(** Up to 999 the padded numeral has exactly three digits. *)
Lemma num_three_digits_upto :
  forallb (fun i => String.eqb (num (Z.of_nat i)) (three_digits (Z.of_nat i)))
    (seq 0 1000) = true.
Proof. vm_compute. reflexivity. Qed.

Lemma num_three_digits (n : Z) : 0 <= n <= 999 -> num n = three_digits n.
Proof.
  intros Hn. pose proof num_three_digits_upto as H.
  rewrite forallb_forall in H.
  specialize (H (Z.to_nat n)).
  rewrite Z2Nat.id in H by lia.
  apply String.eqb_eq, H, in_seq. lia.
Qed.

(* ================================================================== *)
(** ** The mimetype entry *)
(* ================================================================== *)

(** C1.  In both builds, whatever the book, the first intent handed to the
    archive writer is the entry named [mimetype], with content exactly
    [application/epub+zip] and the [STORE] compression directive; no other
    intent carries a compression directive at all. *)
Theorem mimetype_first_and_stored (v : build) (b : t) (iso : string) :
  exists rest,
    generate v b iso =
      {| name := "mimetype"; data := Some "application/epub+zip";
         options := {| compression := Some STORE; base64 := false |} |} :: rest
    /\ Forall (fun e => compression (options e) = None) rest.
Proof.
  rewrite generate_shape. eexists. split; [reflexivity|].
  repeat (constructor; [reflexivity|]).
  induction (pages b) as [|p ps IH]; cbn [flat_map]; [constructor|].
  apply Forall_app. split; [apply page_entries_no_compression | exact IH].
Qed.

(* ================================================================== *)
(** ** Archive order *)
(* ================================================================== *)

(** C3, as stated, fails.  With two pages the eighth intent is the image of
    page 1, where the grouped reading of the layout listing puts the markup
    of page 2. *)
Lemma archive_not_grouped :
  nth_error (map name (generate Node book_two EmptyString)) 7
    = Some "OEBPS/images/page_001.png"
  /\ nth_error (grouped_layout book_two) 7 = Some "OEBPS/xhtml/page_002.xhtml"
  /\ map name (generate Node book_two EmptyString) <> grouped_layout book_two.
Proof.
  rewrite generate_names.
  split; [vm_compute; reflexivity|].
  split; [vm_compute; reflexivity|].
  vm_compute. intros H. discriminate H.
Qed.

(** C3, amended.  When the pages carry their insertion positions 1..n as
    page numbers, the intents are the six fixed entries in the listed order
    and then, for each position in turn, the markup entry of that page
    directly followed by its image entry; with one page that is exactly
    eight entries, the last two named [page_001]. *)
Theorem archive_order_paired (v : build) (b : t) (iso : string) :
  numbered_by_position b ->
  map name (generate v b iso) =
    List.app
      [ "mimetype"; "META-INF/container.xml"; "OEBPS/content.opf"; "OEBPS/toc.ncx";
        "OEBPS/nav.xhtml"; "OEBPS/styles/fixed-layout.css" ]
      (flat_map (fun n => [ "OEBPS/xhtml/page_" ++ num n ++ ".xhtml";
                            "OEBPS/images/page_" ++ num n ++ ".png" ])
         (positions b))
  /\ (List.length (pages b) = 1%nat ->
      map name (generate v b iso) =
        [ "mimetype"; "META-INF/container.xml"; "OEBPS/content.opf"; "OEBPS/toc.ncx";
          "OEBPS/nav.xhtml"; "OEBPS/styles/fixed-layout.css";
          "OEBPS/xhtml/page_001.xhtml"; "OEBPS/images/page_001.png" ]).
Proof.
  intros Hnum. rewrite generate_names. unfold paired_layout.
  rewrite Hnum. split; [reflexivity|].
  intros Hlen. unfold positions, indices. rewrite Hlen. reflexivity.
Qed.

Lemma archive_order_paired_witness :
  numbered_by_position book_two
  /\ map name (generate Browser book_two EmptyString) =
       [ "mimetype"; "META-INF/container.xml"; "OEBPS/content.opf"; "OEBPS/toc.ncx";
         "OEBPS/nav.xhtml"; "OEBPS/styles/fixed-layout.css";
         "OEBPS/xhtml/page_001.xhtml"; "OEBPS/images/page_001.png";
         "OEBPS/xhtml/page_002.xhtml"; "OEBPS/images/page_002.png" ].
Proof.
  assert (H : numbered_by_position book_two) by reflexivity.
  split; [exact H|].
  exact (proj1 (archive_order_paired Browser book_two EmptyString H)).
Defined.

(* ================================================================== *)
(** ** Declared resolution *)
(* ================================================================== *)

Section RunningMaximum.

Variable xs : list Z.

Lemma running_max_from (a : Z) :
  fold_left (fun acc x => max2 acc (Int x)) xs (Int a) = Int (fold_left Z.max xs a).
Proof using Type.
  revert a. induction xs as [|x l IH]; intros a; simpl; [reflexivity | apply IH].
Qed.

Lemma fold_max_bounds (a : Z) :
  a <= fold_left Z.max xs a /\ forall x, In x xs -> x <= fold_left Z.max xs a.
Proof using Type.
  revert a. induction xs as [|x l IH]; intros a; simpl.
  - split; [lia | intros ? []].
  - destruct (IH (Z.max a x)) as [H1 H2]. split; [lia|].
    intros y [<-|Hy]; [lia | now apply H2].
Qed.

Lemma fold_max_attained (a : Z) :
  fold_left Z.max xs a = a \/ In (fold_left Z.max xs a) xs.
Proof using Type.
  revert a. induction xs as [|x l IH]; intros a; simpl; [now left|].
  destruct (IH (Z.max a x)) as [H|H]; [|now right; right].
  rewrite H. destruct (Z.max_spec a x) as [[_ ->]|[_ ->]]; [right; now left | now left].
Qed.

End RunningMaximum.

(** [Math.max] over at least one number is the largest of them. *)
Lemma Math_max_nonempty (xs : list Z) :
  xs <> [] ->
  exists m, Math_max xs = Int m /\ In m xs /\ forall x, In x xs -> x <= m.
Proof.
  destruct xs as [|a l]; [congruence|]. intros _.
  unfold Math_max. cbn [fold_left max2]. rewrite running_max_from.
  exists (fold_left Z.max l a).
  destruct (fold_max_bounds l a) as [Ha Hl].
  repeat split.
  - destruct (fold_max_attained l a) as [->|H]; [now left | now right].
  - intros x [<-|Hx]; [exact Ha | now apply Hl].
Qed.

(** *** Finding a fragment in a template *)

Lemma occurs_in_head (needle hay post : string) :
  hay = needle ++ post -> occurs_in needle hay.
Proof. intros ->. now exists EmptyString, post. Qed.

Lemma occurs_in_app_r (needle pre hay : string) :
  occurs_in needle hay -> occurs_in needle (pre ++ hay).
Proof.
  intros (a & c & ->). exists (pre ++ a), c. now rewrite append_assoc.
Qed.

(** Two right-nested concatenations agree piece by piece, up to the tail
    still to be determined. *)
Ltac same_pieces :=
  lazymatch goal with
  | |- ?a ++ ?b = ?a ++ ?c => apply (f_equal (append a)); same_pieces
  | |- _ = ?post => is_evar post; reflexivity
  end.

(** Walk down a right-nested concatenation until the fragment starts. *)
Ltac find_fragment :=
  lazymatch goal with
  | |- occurs_in (?a ++ _) (?a ++ _) =>
      first [ solve [ eapply occurs_in_head; rewrite ?append_assoc; same_pieces ]
            | apply occurs_in_app_r; find_fragment ]
  | |- occurs_in _ (_ ++ _) => apply occurs_in_app_r; find_fragment
  end.

(** C5.  For a book with at least one page, the [original-resolution]
    declared in the package document reads [WxH], where [W] is the largest
    width over all pages and [H] the largest height over all pages, each
    taken on its own axis: [W] bounds every page's width and is the width of
    some page, and likewise [H] for the heights. *)
Theorem original_resolution_is_max (v : build) (b : t) (iso : string) :
  pages b <> [] ->
  exists W H : Z,
    (forall p, In p (pages b) -> width p <= W)
    /\ (exists p, In p (pages b) /\ width p = W)
    /\ (forall p, In p (pages b) -> height p <= H)
    /\ (exists p, In p (pages b) /\ height p = H)
    /\ original_resolution b = ToString W ++ "x" ++ ToString H
    /\ occurs_in
         ("    <meta name=" ++ q "original-resolution" ++ " content=" ++
          q (ToString W ++ "x" ++ ToString H) ++ "/>")
         (getContentOPF v b iso).
Proof.
  intros Hne.
  destruct (Math_max_nonempty (map width (pages b))) as (W & HW & HWin & HWmax).
  { destruct (pages b); [congruence | discriminate]. }
  destruct (Math_max_nonempty (map height (pages b))) as (H & HH & HHin & HHmax).
  { destruct (pages b); [congruence | discriminate]. }
  assert (Hres : original_resolution b = ToString W ++ "x" ++ ToString H).
  { unfold original_resolution, maxWidth, maxHeight. now rewrite HW, HH. }
  exists W, H. repeat split.
  - intros p Hp. apply HWmax, in_map, Hp.
  - apply in_map_iff in HWin. destruct HWin as (p & Hp & Hin). now exists p.
  - intros p Hp. apply HHmax, in_map, Hp.
  - apply in_map_iff in HHin. destruct HHin as (p & Hp & Hin). now exists p.
  - exact Hres.
  - unfold getContentOPF. rewrite Hres. unfold opf_template. find_fragment.
Qed.

(** On the two-page sample the width comes from page 1 and the height from
    page 2. *)
Lemma original_resolution_witness :
  pages book_two <> []
  /\ occurs_in
       ("    <meta name=" ++ q "original-resolution" ++ " content=" ++ q "300x500" ++ "/>")
       (getContentOPF Node book_two EmptyString).
Proof.
  assert (Hps : pages book_two =
                [ {| imageData := "PNG"; width := 300; height := 400; pageNum := 1 |};
                  {| imageData := "PNG"; width := 200; height := 500; pageNum := 2 |} ])
    by (vm_compute; reflexivity).
  assert (Hne : pages book_two <> []) by (rewrite Hps; discriminate).
  split; [exact Hne|].
  destruct (original_resolution_is_max Node book_two EmptyString Hne)
    as (W & H & HW & (pw & Hpw & Ew) & HH & (ph & Hph & Eh) & _ & Hocc).
  rewrite Hps in HW, Hpw, HH, Hph.
  assert (W300 : W = 300).
  { pose proof (HW _ (or_introl eq_refl)) as B. cbn [width] in B.
    destruct Hpw as [<-|[<-|[]]]; cbn [width] in Ew; lia. }
  assert (H500 : H = 500).
  { pose proof (HH _ (or_intror (or_introl eq_refl))) as B. cbn [height] in B.
    destruct Hph as [<-|[<-|[]]]; cbn [height] in Eh; lia. }
  subst W H. rewrite W300, H500 in Hocc. exact Hocc.
Defined.

(* ================================================================== *)
(** ** The cover marker *)
(* ================================================================== *)


(* ================================================================== *)
(** ** The navigation-control document *)
(* ================================================================== *)

(** Scenario B on the text of the document: twelve navPoint start tags,
    play orders 1 to 12, sources [page_001] to [page_012]. *)
Example ncx_twelve_pages :
  count_occurrences "<navPoint " (getNCX (book_of_pages 12)) = 12%nat
  /\ map np_playOrder (navPoints (book_of_pages 12)) = [1; 2; 3; 4; 5; 6; 7; 8; 9; 10; 11; 12]
  /\ map np_src (navPoints (book_of_pages 12)) =
       [ "xhtml/page_001.xhtml"; "xhtml/page_002.xhtml"; "xhtml/page_003.xhtml";
         "xhtml/page_004.xhtml"; "xhtml/page_005.xhtml"; "xhtml/page_006.xhtml";
         "xhtml/page_007.xhtml"; "xhtml/page_008.xhtml"; "xhtml/page_009.xhtml";
         "xhtml/page_010.xhtml"; "xhtml/page_011.xhtml"; "xhtml/page_012.xhtml" ].
Proof. vm_compute. repeat split. Qed.

(* ================================================================== *)
(** ** Escaping of metadata *)
(* ================================================================== *)

Lemma replace_all_app (c : ascii) (r a b : string) :
  replace_all c r (a ++ b) = replace_all c r a ++ replace_all c r b.
Proof.
  induction a as [|x a IH]; simpl; [reflexivity|].
  destruct (Ascii.eqb x c); rewrite IH; [now rewrite append_assoc | reflexivity].
Qed.

(** The five replacements in sequence act as one pass: a replacement text
    introduced by an earlier step holds no character a later step looks
    for. *)
Lemma escapeXML_cons (c : ascii) (s : string) :
  escapeXML (String c s) = escape_char c ++ escapeXML s.
Proof.
  unfold escapeXML, escape_char.
  cbn [replace_all].
  destruct (Ascii.eqb_spec c "&") as [->|_].
  { rewrite !replace_all_app. reflexivity. }
  cbn [replace_all].
  destruct (Ascii.eqb_spec c "<") as [->|_].
  { rewrite !replace_all_app. reflexivity. }
  cbn [replace_all].
  destruct (Ascii.eqb_spec c ">") as [->|_].
  { rewrite !replace_all_app. reflexivity. }
  cbn [replace_all].
  destruct (Ascii.eqb_spec c dquote) as [->|_].
  { rewrite !replace_all_app. reflexivity. }
  cbn [replace_all].
  destruct (Ascii.eqb_spec c "'") as [->|_]; reflexivity.
Qed.

(** Scanning an escaped character: the five cases of [escape_char]. *)
Ltac by_escape_char c :=
  unfold escape_char;
  destruct (Ascii.eqb_spec c "&") as [->|Hamp]; [reflexivity|];
  destruct (Ascii.eqb_spec c "<") as [->|Hlt]; [reflexivity|];
  destruct (Ascii.eqb_spec c ">") as [->|Hgt]; [reflexivity|];
  destruct (Ascii.eqb_spec c dquote) as [->|Hdq]; [reflexivity|];
  destruct (Ascii.eqb_spec c "'") as [->|Hap]; [reflexivity|].

Lemma unescape_escape_char (c : ascii) (rest : string) :
  unescape_from 0 (escape_char c ++ rest) = String c (unescape_from 0 rest).
Proof.
  by_escape_char c.
  cbn [append unescape_from].
  now rewrite (proj2 (Ascii.eqb_neq c "&") Hamp).
Qed.

Lemma escaped_escape_char (c : ascii) (rest : string) :
  escaped_from 0 (escape_char c ++ rest) = escaped_from 0 rest.
Proof.
  by_escape_char c.
  cbn [append escaped_from]. unfold is_special.
  rewrite (proj2 (Ascii.eqb_neq c "&") Hamp), (proj2 (Ascii.eqb_neq c "<") Hlt),
    (proj2 (Ascii.eqb_neq c ">") Hgt), (proj2 (Ascii.eqb_neq c dquote) Hdq),
    (proj2 (Ascii.eqb_neq c "'") Hap).
  reflexivity.
Qed.

(** Un-escaping undoes [escapeXML]. *)
Lemma unescape_escapeXML (s : string) : unescapeXML (escapeXML s) = s.
Proof.
  unfold unescapeXML. induction s as [|c s IH]; [reflexivity|].
  now rewrite escapeXML_cons, unescape_escape_char, IH.
Qed.

(** [escapeXML] leaves the special characters only inside entities. *)
Lemma escapeXML_only_entities (s : string) : only_entities (escapeXML s) = true.
Proof.
  unfold only_entities. induction s as [|c s IH]; [reflexivity|].
  now rewrite escapeXML_cons, escaped_escape_char.
Qed.

(** The check is not vacuous: raw special characters are refused. *)
Example only_entities_samples :
  only_entities "Author &amp; Co." = true
  /\ only_entities "Author & Co." = false
  /\ only_entities "a<b" = false
  /\ only_entities "a>b" = false
  /\ only_entities "it's" = false
  /\ only_entities (String dquote EmptyString) = false
  /\ only_entities "&amp" = false.
Proof. vm_compute. repeat split. Qed.

(** C4.  Whatever the title and the author, the package document carries
    them as [escapeXML] renders them, inside [dc:title] and [dc:creator];
    in that text [<], [>], the double quote and the apostrophe do not occur
    and every ampersand starts one of the five entities; and un-escaping the
    text gives back the original string. *)
Theorem metadata_escaped_round_trip (v : build) (b : t) (iso : string) :
  occurs_in ("    <dc:title>" ++ escapeXML (title b) ++ "</dc:title>")
    (getContentOPF v b iso)
  /\ occurs_in ("    <dc:creator>" ++ escapeXML (author b) ++ "</dc:creator>")
       (getContentOPF v b iso)
  /\ only_entities (escapeXML (title b)) = true
  /\ only_entities (escapeXML (author b)) = true
  /\ unescapeXML (escapeXML (title b)) = title b
  /\ unescapeXML (escapeXML (author b)) = author b.
Proof.
  split; [|split; [|split; [|split; [|split]]]].
  - unfold getContentOPF, opf_template. find_fragment.
  - unfold getContentOPF, opf_template. find_fragment.
  - apply escapeXML_only_entities.
  - apply escapeXML_only_entities.
  - apply unescape_escapeXML.
  - apply unescape_escapeXML.
Qed.

(** Scenario A: the creator line of the sample book. *)
Example creator_of_book_A :
  count_occurrences "<dc:creator>Author &amp; Co.</dc:creator>"
    (getContentOPF Node book_A EmptyString) = 1%nat
  /\ escapeXML "<a href='x'>Q&A</a>" = "&lt;a href=&apos;x&apos;&gt;Q&amp;A&lt;/a&gt;"
  /\ unescapeXML "&lt;a href=&apos;x&apos;&gt;Q&amp;A&lt;/a&gt;" = "<a href='x'>Q&A</a>"
  /\ unescapeXML (escapeXML "&amp;lt;") = "&amp;lt;".
Proof. vm_compute. repeat split. Qed.

(* ================================================================== *)
(** ** The identifier *)
(* ================================================================== *)

(** A draw scaled by 16 and truncated is one of the sixteen nibbles. *)
Lemma nibble_of_draw (x : Q) :
  (0 <= x)%Q -> (x < 1)%Q -> 0 <= ToInt32 (x * 16)%Q <= 15.
Proof.
  destruct x as [a d]. unfold Qle, Qlt, ToInt32, truncate. cbn.
  intros Ha Hd.
  assert (Hq : 0 <= Z.quot (a * 16) (Z.pos (d * 1)) <= 15).
  { rewrite Z.quot_div_nonneg by lia.
    rewrite Pos.mul_1_r. split.
    - apply Z.div_pos; lia.
    - apply Z.lt_succ_r. apply Z.div_lt_upper_bound; lia. }
  unfold wrap32. rewrite Z.mod_small; lia.
Qed.

Lemma nibble_cases (r : Z) :
  0 <= r <= 15 ->
  In r [0; 1; 2; 3; 4; 5; 6; 7; 8; 9; 10; 11; 12; 13; 14; 15].
Proof. intros H. cbn [In]. lia. Qed.

Lemma advance_unit_draws (g : Random) :
  unit_draws g -> unit_draws (snd (Math_random g)).
Proof. intros H n. exact (H n). Qed.

(** What the callback writes for [x] and for [y]. *)
Lemma uuid_digit_x (g : Random) :
  unit_draws g ->
  exists ch, fst (uuid_digit "x" g) = String ch EmptyString /\ is_hex ch = true.
Proof.
  intros Hg. unfold uuid_digit, Math_random. cbn [fst Ascii.eqb Bool.eqb].
  destruct (Hg (cursor g)) as [H0 H1].
  pose proof (nibble_cases _ (nibble_of_draw _ H0 H1)) as Hr.
  set (r := ToInt32 _) in *. clearbody r.
  repeat (destruct Hr as [<-|Hr]; [eexists; split; reflexivity|]).
  destruct Hr.
Qed.

Lemma uuid_digit_y (g : Random) :
  unit_draws g ->
  exists ch, fst (uuid_digit "y" g) = String ch EmptyString /\ is_variant ch = true.
Proof.
  intros Hg. unfold uuid_digit, Math_random. cbn [fst Ascii.eqb Bool.eqb].
  destruct (Hg (cursor g)) as [H0 H1].
  pose proof (nibble_cases _ (nibble_of_draw _ H0 H1)) as Hr.
  set (r := ToInt32 _) in *. clearbody r.
  repeat (destruct Hr as [<-|Hr]; [eexists; split; reflexivity|]).
  destruct Hr.
Qed.

Lemma uuid_digit_advances (c : ascii) (g : Random) :
  snd (uuid_digit c g) = snd (Math_random g).
Proof. reflexivity. Qed.

(** Filling a template: every [x] becomes a hexadecimal digit, every [y] one
    of [8 9 a b], every other character stays. *)
Lemma replace_xy_matches (tpl : string) :
  forall g, unit_draws g -> matches tpl (fst (replace_xy tpl g)) = true.
Proof.
  induction tpl as [|c tpl IH]; intros g Hg; [reflexivity|].
  cbn [replace_xy].
  destruct (Ascii.eqb_spec c "x") as [->|Hx].
  - cbn [orb].
    destruct (uuid_digit_x g Hg) as (ch & Hd & Hch).
    pose proof (IH _ (advance_unit_draws g Hg)) as Hrest.
    rewrite <- uuid_digit_advances with (c := "x"%char) in Hrest.
    destruct (uuid_digit "x" g) as [d g1]. cbn [fst snd] in *. subst d.
    destruct (replace_xy tpl g1) as [r g2]. cbn [fst append matches] in *.
    cbn [Ascii.eqb Bool.eqb]. now rewrite Hch, Hrest.
  - cbn [orb]. destruct (Ascii.eqb_spec c "y") as [->|Hy].
    + destruct (uuid_digit_y g Hg) as (ch & Hd & Hch).
      pose proof (IH _ (advance_unit_draws g Hg)) as Hrest.
      rewrite <- uuid_digit_advances with (c := "y"%char) in Hrest.
      destruct (uuid_digit "y" g) as [d g1]. cbn [fst snd] in *. subst d.
      destruct (replace_xy tpl g1) as [r g2]. cbn [fst append matches] in *.
      cbn [Ascii.eqb Bool.eqb]. now rewrite Hch, Hrest.
    + pose proof (IH g Hg) as Hrest.
      destruct (replace_xy tpl g) as [r g2]. cbn [fst matches] in *.
      rewrite (proj2 (Ascii.eqb_neq c "x") Hx), (proj2 (Ascii.eqb_neq c "y") Hy).
      now rewrite Ascii.eqb_refl, Hrest.
Qed.

Lemma replace_xy_cursor (tpl : string) :
  forall g, cursor (snd (replace_xy tpl g)) = (cursor g + placeholders tpl)%nat
            /\ stream (snd (replace_xy tpl g)) = stream g.
Proof.
  induction tpl as [|c tpl IH]; intros g; cbn [replace_xy placeholders].
  - cbn. split; [lia | reflexivity].
  - destruct (Ascii.eqb c "x" || Ascii.eqb c "y").
    + destruct (IH (snd (uuid_digit c g))) as [Hc Hs].
      destruct (uuid_digit c g) as [d g1] eqn:E.
      assert (Hg1 : g1 = snd (Math_random g))
        by (now rewrite <- (uuid_digit_advances c g), E).
      cbn [snd] in *.
      destruct (replace_xy tpl g1) as [r g2]. cbn [snd] in *.
      rewrite Hc, Hs, Hg1. cbn. split; [lia | reflexivity].
    + destruct (IH g) as [Hc Hs].
      destruct (replace_xy tpl g) as [r g2]. cbn [snd] in *.
      rewrite Hc, Hs. split; [lia | reflexivity].
Qed.

Lemma constructor_uuid (options : EPUBOptions) (g : Random) :
  uuid (fst (constructor options g)) = fst (generateUUID g)
  /\ snd (constructor options g) = snd (generateUUID g).
Proof. unfold constructor. destruct (generateUUID g). split; reflexivity. Qed.

(** No edit touches the identifier. *)
Lemma apply_edits_uuid (es : list edit) (b : t) : uuid (apply_edits b es) = uuid b.
Proof.
  unfold apply_edits. revert b.
  induction es as [|e es IH]; intros b; cbn [fold_left]; [reflexivity|].
  rewrite IH. destruct e; reflexivity.
Qed.

(** C7.  Construction draws the identifier once, with one draw for each of
    the 31 placeholders, and the result has the shape
    [xxxxxxxx-xxxx-4xxx-yxxx-xxxxxxxxxxxx]: hexadecimal digits, the literal
    [4], and one of [8 9 a b] in place of [y].  Whatever edits of title,
    author, language or page list follow, the identifier field keeps that
    value, and every archive generated afterwards carries it after
    [urn:uuid:] both in the package document and in the NCX. *)
Theorem identifier_generated_once (options : EPUBOptions) (g : Random) :
  unit_draws g ->
  uuid_v4_shape (uuid (fst (constructor options g))) = true
  /\ cursor (snd (constructor options g)) = (cursor g + 31)%nat
  /\ forall (es : list edit) (v : build) (iso : string),
       let b := fst (constructor options g) in
       let b' := apply_edits b es in
       uuid b' = uuid b
       /\ exists opf ncx,
            In {| name := "OEBPS/content.opf"; data := Some opf; options := default_options |}
               (generate v b' iso)
            /\ In {| name := "OEBPS/toc.ncx"; data := Some ncx; options := default_options |}
                  (generate v b' iso)
            /\ occurs_in (">urn:uuid:" ++ uuid b ++ "</dc:identifier>") opf
            /\ occurs_in (" content=" ++ q ("urn:uuid:" ++ uuid b) ++ "/>") ncx.
Proof.
  intros Hg. destruct (constructor_uuid options g) as [Hu Hs].
  split; [|split].
  - rewrite Hu. apply replace_xy_matches, Hg.
  - rewrite Hs. unfold generateUUID.
    now rewrite (proj1 (replace_xy_cursor uuid_template g)).
  - intros es v iso b b'.
    assert (Hb : uuid b' = uuid b) by apply apply_edits_uuid.
    split; [exact Hb|].
    exists (getContentOPF v b' iso), (getNCX b').
    rewrite generate_shape. rewrite <- Hb.
    split; [cbn [In]; tauto|]. split; [cbn [In]; tauto|]. split.
    + unfold getContentOPF, opf_template. find_fragment.
    + unfold getNCX, ncx_template. find_fragment.
Qed.

Lemma sample_random_unit : unit_draws sample_random.
Proof.
  intros n. cbn [sample_random stream]. unfold Qle, Qlt. cbn [Qnum Qden].
  pose proof (Nat.mod_upper_bound n 16). lia.
Defined.

Lemma identifier_generated_once_witness :
  unit_draws sample_random
  /\ uuid_v4_shape (uuid (fst (constructor sample_options sample_random))) = true
  /\ cursor (snd (constructor sample_options sample_random)) = 31%nat.
Proof.
  split; [exact sample_random_unit|].
  destruct (identifier_generated_once sample_options sample_random sample_random_unit)
    as (Hshape & Hcursor & _).
  split; [exact Hshape | exact Hcursor].
Defined.

(** The sample identifier, and strings the pattern refuses. *)
Example uuid_samples :
  uuid book_A = "01234567-89ab-4cde-b012-3456789abcde"
  /\ uuid_v4_shape "01234567-89ab-4cde-b012-3456789abcde" = true
  /\ uuid_v4_shape "01234567-89ab-1cde-b012-3456789abcde" = false
  /\ uuid_v4_shape "01234567-89ab-4cde-c012-3456789abcde" = false
  /\ uuid_v4_shape "01234567-89ab-4cde-b012-3456789abcd" = false
  /\ uuid_v4_shape "01234567-89AB-4cde-b012-3456789abcde" = false.
Proof. vm_compute. repeat split. Qed.

(* ================================================================== *)
(** ** Construction defaults *)
(* ================================================================== *)

Lemma or_else_absent_if_empty (o : option string) (d : string) :
  or_else (absent_if_empty o) d = or_else o d.
Proof. destruct o as [[|c s]|]; reflexivity. Qed.

Lemma or_else_nonempty (o : option string) (d : string) :
  d <> EmptyString -> or_else o d <> EmptyString.
Proof. intros Hd. destruct o as [[|c s]|]; cbn; [exact Hd | discriminate | exact Hd]. Qed.

Lemma constructor_fields (options : EPUBOptions) (g : Random) :
  title (fst (constructor options g)) = or_else (opt_title options) "Untitled"
  /\ author (fst (constructor options g)) = or_else (opt_author options) "Unknown"
  /\ language (fst (constructor options g)) = or_else (opt_language options) "en"
  /\ pages (fst (constructor options g)) = [].
Proof. unfold constructor. destruct (generateUUID g). repeat split. Qed.

(** C10.  The constructor cannot tell an empty title, author or language
    from an absent one: it builds the same book from the options with the
    empty strings removed.  A field supplied empty therefore holds its
    default ([Untitled], [Unknown], [en]), no metadata field of a fresh
    book is empty, and the package document of that book shows the
    default. *)
Theorem empty_metadata_is_absent (options : EPUBOptions) (g : Random) :
  constructor options g = constructor (without_empty options) g
  /\ (opt_title options = Some EmptyString ->
      title (fst (constructor options g)) = "Untitled"
      /\ forall v iso, occurs_in ("    <dc:title>" ++ "Untitled" ++ "</dc:title>")
                         (getContentOPF v (fst (constructor options g)) iso))
  /\ (opt_author options = Some EmptyString ->
      author (fst (constructor options g)) = "Unknown"
      /\ forall v iso, occurs_in ("    <dc:creator>" ++ "Unknown" ++ "</dc:creator>")
                         (getContentOPF v (fst (constructor options g)) iso))
  /\ (opt_language options = Some EmptyString ->
      language (fst (constructor options g)) = "en"
      /\ forall v iso, occurs_in ("    <dc:language>" ++ "en" ++ "</dc:language>")
                         (getContentOPF v (fst (constructor options g)) iso))
  /\ title (fst (constructor options g)) <> EmptyString
  /\ author (fst (constructor options g)) <> EmptyString
  /\ language (fst (constructor options g)) <> EmptyString.
Proof.
  destruct (constructor_fields options g) as (Ht & Ha & Hl & _).
  split; [|split; [|split; [|split; [|split; [|split]]]]].
  - unfold constructor, without_empty. cbn [opt_title opt_author opt_language].
    now rewrite !or_else_absent_if_empty.
  - intros E. rewrite E in Ht. cbn [or_else] in Ht. split; [exact Ht|].
    intros v iso. unfold getContentOPF. rewrite Ht.
    change (escapeXML "Untitled") with "Untitled".
    unfold opf_template. find_fragment.
  - intros E. rewrite E in Ha. cbn [or_else] in Ha. split; [exact Ha|].
    intros v iso. unfold getContentOPF. rewrite Ha.
    change (escapeXML "Unknown") with "Unknown".
    unfold opf_template. find_fragment.
  - intros E. rewrite E in Hl. cbn [or_else] in Hl. split; [exact Hl|].
    intros v iso. unfold getContentOPF. rewrite Hl.
    unfold opf_template. find_fragment.
  - rewrite Ht. apply or_else_nonempty. discriminate.
  - rewrite Ha. apply or_else_nonempty. discriminate.
  - rewrite Hl. apply or_else_nonempty. discriminate.
Qed.

Lemma empty_metadata_is_absent_witness :
  let options := {| opt_title := Some EmptyString; opt_author := Some EmptyString;
                    opt_language := Some EmptyString; opt_dpi := None |} in
  title (fst (constructor options sample_random)) = "Untitled"
  /\ author (fst (constructor options sample_random)) = "Unknown"
  /\ language (fst (constructor options sample_random)) = "en"
  /\ constructor options sample_random = constructor no_options sample_random.
Proof.
  intros options.
  destruct (empty_metadata_is_absent options sample_random)
    as (Hsame & Ht & Ha & Hl & _).
  split; [exact (proj1 (Ht eq_refl))|].
  split; [exact (proj1 (Ha eq_refl))|].
  split; [exact (proj1 (Hl eq_refl))|].
  exact Hsame.
Defined.

(* ================================================================== *)
(** ** A book without pages *)
(* ================================================================== *)

(** With no page, [Math.max] has no argument and both maxima are
    [-Infinity]. *)
Lemma original_resolution_no_page (b : t) :
  pages b = [] -> original_resolution b = "-Infinityx-Infinity".
Proof. intros H. unfold original_resolution, maxWidth, maxHeight. now rewrite H. Qed.

(** C2, on the code.  Generating from a freshly constructed book raises no
    error: both builds issue the six fixed entries and no page entry.  The
    package document among them declares the resolution
    [-Infinityx-Infinity], which is neither [0x0] nor a pair of numerals,
    and its guide points at a page document the archive does not hold. *)
Theorem empty_book_resolution :
  pages book_empty = []
  /\ map name (generate Node book_empty EmptyString) = fixed_names
  /\ map name (generate Browser book_empty EmptyString) = fixed_names
  /\ original_resolution book_empty = "-Infinityx-Infinity"
  /\ count_occurrences (" content=" ++ q "-Infinityx-Infinity" ++ "/>")
       (getContentOPF Node book_empty EmptyString) = 1%nat
  /\ count_occurrences (" content=" ++ q "-Infinityx-Infinity" ++ "/>")
       (getContentOPF Browser book_empty EmptyString) = 1%nat
  /\ count_occurrences (" content=" ++ q "0x0" ++ "/>")
       (getContentOPF Node book_empty EmptyString) = 0%nat
  /\ ~ In (resolve guide_href) (map name (generate Node book_empty EmptyString)).
Proof.
  repeat (split; [vm_compute; reflexivity|]).
  vm_compute. intuition discriminate.
Qed.

(* ================================================================== *)
(** ** Cross-document references *)
(* ================================================================== *)

Lemma append_inv_tail (a b c : string) : a ++ c = b ++ c -> a = b.
Proof.
  intros H. apply (append_same_length a b c c); [|exact H].
  apply (f_equal String.length) in H. rewrite !append_length in H. lia.
Qed.

Lemma markup_name_inj (a b : Z) : markup_name a = markup_name b -> a = b.
Proof.
  unfold markup_name. intros H.
  apply append_inv_head, append_inv_tail in H. now apply num_inj.
Qed.

Lemma image_name_inj (a b : Z) : image_name a = image_name b -> a = b.
Proof.
  unfold image_name. intros H.
  apply append_inv_head, append_inv_tail in H. now apply num_inj.
Qed.

(** The archive holds the markup entry and the image entry of exactly the
    page numbers in use. *)
Lemma markup_in_archive (b : t) (n : Z) :
  In (markup_name n) (paired_layout b) <-> In n (map pageNum (pages b)).
Proof.
  unfold paired_layout. rewrite in_app_iff, in_flat_map. split.
  - intros [H|(m & Hm & [H|[H|[]]])].
    + unfold fixed_names, markup_name in H. cbn [In append] in H.
      repeat (destruct H as [H|H]; [discriminate H|]). destruct H.
    + apply markup_name_inj in H. now subst.
    + unfold markup_name, image_name in H. cbn [append] in H. discriminate H.
  - intros H. right. exists n. split; [exact H | now left].
Qed.

Lemma image_in_archive (b : t) (n : Z) :
  In (image_name n) (paired_layout b) <-> In n (map pageNum (pages b)).
Proof.
  unfold paired_layout. rewrite in_app_iff, in_flat_map. split.
  - intros [H|(m & Hm & [H|[H|[]]])].
    + unfold fixed_names, image_name in H. cbn [In append] in H.
      repeat (destruct H as [H|H]; [discriminate H|]). destruct H.
    + unfold markup_name, image_name in H. cbn [append] in H. discriminate H.
    + apply image_name_inj in H. now subst.
  - intros H. right. exists n. split; [exact H | right; now left].
Qed.

(** Every reference is computed from an insertion position. *)
Lemma file_references_by_position (b : t) :
  file_references b =
    List.app [ "styles/fixed-layout.css"; "toc.ncx"; "nav.xhtml" ]
      (List.app (map (fun n => "xhtml/page_" ++ num n ++ ".xhtml") (positions b))
         (List.app (map (fun n => "images/page_" ++ num n ++ ".png") (positions b))
            (List.app (map (fun n => "xhtml/page_" ++ num n ++ ".xhtml") (positions b))
               (List.app (map (fun n => "xhtml/page_" ++ num n ++ ".xhtml") (positions b))
                  (map (fun n => "xhtml/page_" ++ num n ++ ".xhtml") (positions b)))))).
Proof.
  unfold file_references, manifest_items, navPoints, toc_links, pageList_links, positions.
  rewrite !map_app, !map_map, <- !app_assoc. reflexivity.
Qed.

Lemma spine_idrefs_in_manifest (b : t) (r : string) :
  In r (spine_idrefs b) -> In r (map item_id (manifest_items b)).
Proof.
  unfold spine_idrefs, manifest_items. intros H.
  rewrite !map_app, !in_app_iff. right; left.
  rewrite map_map. exact H.
Qed.

(** The references resolve exactly when every insertion position is in use
    as a page number. *)
Lemma references_resolve_incl (v : build) (b : t) (iso : string) :
  references_resolve v b iso <-> incl (positions b) (map pageNum (pages b)).
Proof.
  unfold references_resolve. rewrite generate_names, file_references_by_position.
  split.
  - intros [H _] n Hn. apply (markup_in_archive b n).
    apply (H ("xhtml/page_" ++ num n ++ ".xhtml")).
    apply in_app_iff. right. apply in_app_iff. left.
    apply in_map_iff. now exists n.
  - intros Hincl. split; [|apply spine_idrefs_in_manifest].
    intros h Hh.
    repeat (apply in_app_or in Hh; destruct Hh as [Hh|Hh]);
      try (apply in_map_iff in Hh; destruct Hh as (n & <- & Hn);
           first [ apply (markup_in_archive b n), Hincl, Hn
                 | apply (image_in_archive b n), Hincl, Hn ]).
    unfold paired_layout, fixed_names. cbn [In] in Hh.
    repeat (destruct Hh as [<-|Hh]; [cbn; tauto|]). destruct Hh.
Qed.

Lemma succ_index_inj (i j : nat) : succ_index i = succ_index j -> i = j.
Proof. unfold succ_index. lia. Qed.

Lemma positions_NoDup (b : t) : NoDup (positions b).
Proof.
  unfold positions, indices. apply Finite.Injective_map_NoDup.
  - intros i j. apply succ_index_inj.
  - apply seq_NoDup.
Qed.

Lemma positions_length (b : t) : List.length (positions b) = List.length (pages b).
Proof. unfold positions. now rewrite length_map, indices_length. Qed.

(** As many page numbers as positions: using every position means using
    each exactly once. *)
Lemma references_resolve_permutation (v : build) (b : t) (iso : string) :
  references_resolve v b iso <-> Permutation (map pageNum (pages b)) (positions b).
Proof.
  rewrite references_resolve_incl. split.
  - intros Hincl. symmetry. apply NoDup_Permutation_bis.
    + apply positions_NoDup.
    + rewrite length_map, positions_length. lia.
    + exact Hincl.
  - intros Hperm n Hn. apply Permutation_in with (l := positions b); [|exact Hn].
    now symmetry.
Qed.

(* ================================================================== *)
(** ** The modification timestamp *)
(* ================================================================== *)

Lemma strip_millis_free (s : string) : free_of "." s = true -> strip_millis s = s.
Proof.
  induction s as [|c s IH]; cbn [free_of strip_millis]; [reflexivity|].
  intros H. apply andb_prop in H. destruct H as [Hc Hs].
  apply negb_true_iff in Hc. rewrite Hc. cbn [andb]. now rewrite IH.
Qed.

Lemma strip_millis_suffix (body : string) (d1 d2 d3 : ascii) :
  free_of "." body = true ->
  is_digit d1 && is_digit d2 && is_digit d3 = true ->
  strip_millis (body ++ String "." (String d1 (String d2 (String d3 "Z")))) = body ++ "Z".
Proof.
  intros Hbody Hd.
  induction body as [|c body IH]; cbn [append strip_millis].
  - cbn [Ascii.eqb Bool.eqb andb millis_Z]. rewrite Hd. reflexivity.
  - cbn [free_of] in Hbody. apply andb_prop in Hbody. destruct Hbody as [Hc Hs].
    apply negb_true_iff in Hc. rewrite Hc. cbn [andb]. now rewrite IH.
Qed.

(** X1.  A clock reading of the form [body.dddZ], [body] without a full
    stop and [ddd] three digits (the form [toISOString] gives), appears in
    the package document's [dcterms:modified] as [bodyZ], without the
    milliseconds; a reading with no full stop at all is passed on
    unchanged. *)
Theorem modified_timestamp (v : build) (b : t) (body : string) (d1 d2 d3 : ascii) :
  free_of "." body = true ->
  is_digit d1 && is_digit d2 && is_digit d3 = true ->
  occurs_in ("    <meta property=" ++ q "dcterms:modified" ++ ">" ++ (body ++ "Z") ++ "</meta>")
    (getContentOPF v b (body ++ String "." (String d1 (String d2 (String d3 "Z")))))
  /\ occurs_in ("    <meta property=" ++ q "dcterms:modified" ++ ">" ++ body ++ "</meta>")
       (getContentOPF v b body).
Proof.
  intros Hbody Hd. split.
  - unfold getContentOPF. rewrite strip_millis_suffix by assumption.
    unfold opf_template. find_fragment.
  - unfold getContentOPF. rewrite strip_millis_free by assumption.
    unfold opf_template. find_fragment.
Qed.

Lemma modified_timestamp_witness :
  occurs_in ("    <meta property=" ++ q "dcterms:modified" ++ ">" ++
             "2026-01-02T03:04:05Z" ++ "</meta>")
    (getContentOPF Node book_A "2026-01-02T03:04:05.678Z").
Proof.
  exact (proj1 (modified_timestamp Node book_A "2026-01-02T03:04:05" "6" "7" "8"
                  eq_refl eq_refl)).
Defined.

(* ================================================================== *)
(** ** More on the archive *)
(* ================================================================== *)

Lemma markup_in_pairs (n : Z) (l : list Z) :
  In (markup_name n) (flat_map (fun m => [markup_name m; image_name m]) l) <-> In n l.
Proof.
  rewrite in_flat_map. split.
  - intros (m & Hm & [H|[H|[]]]).
    + apply markup_name_inj in H. now subst.
    + unfold markup_name, image_name in H. cbn [append] in H. discriminate H.
  - intros H. exists n. split; [exact H | now left].
Qed.

Lemma image_in_pairs (n : Z) (l : list Z) :
  In (image_name n) (flat_map (fun m => [markup_name m; image_name m]) l) <-> In n l.
Proof.
  rewrite in_flat_map. split.
  - intros (m & Hm & [H|[H|[]]]).
    + unfold markup_name, image_name in H. cbn [append] in H. discriminate H.
    + apply image_name_inj in H. now subst.
  - intros H. exists n. split; [exact H | right; now left].
Qed.

Lemma pairs_NoDup (l : list Z) :
  NoDup (flat_map (fun m => [markup_name m; image_name m]) l) <-> NoDup l.
Proof.
  induction l as [|a l IH]; cbn [flat_map app].
  - split; constructor.
  - split.
    + intros H. inversion H as [|x xs Hm H' E]; subst.
      inversion H' as [|x xs Hi H'' E]; subst.
      constructor; [|now apply IH].
      intros Ha. apply Hi. now apply image_in_pairs.
    + intros H. inversion H as [|x xs Ha H' E]; subst.
      constructor.
      * intros [E|Hin].
        -- unfold markup_name, image_name in E. cbn [append] in E. discriminate E.
        -- now apply markup_in_pairs in Hin.
      * constructor; [|now apply IH].
        intros Hin. now apply image_in_pairs in Hin.
Qed.

Lemma fixed_not_page (s : string) (l : list Z) :
  In s fixed_names -> ~ In s (flat_map (fun m => [markup_name m; image_name m]) l).
Proof.
  intros Hs Hin. apply in_flat_map in Hin. destruct Hin as (m & _ & Hm).
  unfold fixed_names in Hs. cbn [In] in Hs.
  unfold markup_name, image_name in Hm. cbn [In append] in Hm.
  repeat (destruct Hs as [<-|Hs];
          [destruct Hm as [Hm|[Hm|[]]]; discriminate Hm|]).
  destruct Hs.
Qed.

Lemma paired_layout_NoDup (b : t) :
  NoDup (map pageNum (pages b)) -> NoDup (paired_layout b).
Proof.
  intros H. unfold paired_layout. apply NoDup_app.
  - unfold fixed_names. repeat constructor; cbn [In]; intuition discriminate.
  - now apply pairs_NoDup.
  - intros s Hs. now apply fixed_not_page.
Qed.

(** X2.  The entry names of an archive are pairwise distinct exactly when
    the page numbers of the book are: two pages with the same number are
    handed to the archive writer under the same two names, and nothing
    else ever collides. *)
Theorem entry_names_distinct_iff (v : build) (b : t) (iso : string) :
  NoDup (map name (generate v b iso)) <-> NoDup (map pageNum (pages b)).
Proof.
  rewrite generate_names. split.
  - unfold paired_layout. intros H.
    apply NoDup_app_remove_l in H. now apply pairs_NoDup in H.
  - apply paired_layout_NoDup.
Qed.

Lemma page_entries_length (v : build) (b : t) (ps : list PageData) :
  List.length (flat_map (page_entries v b) ps) = (2 * List.length ps)%nat.
Proof.
  induction ps as [|p ps IH]; [reflexivity|].
  cbn [flat_map]. rewrite length_app, IH.
  unfold page_entries, add_page_entries, zip_file. cbn [List.length app]. lia.
Qed.

Lemma generate_length (v : build) (b : t) (iso : string) :
  List.length (generate v b iso) = (6 + 2 * List.length (pages b))%nat.
Proof.
  rewrite generate_shape. cbn [List.length]. rewrite page_entries_length. lia.
Qed.

Lemma page_entries_nth (v : build) (b : t) (ps : list PageData) (k : nat) (p : PageData) :
  nth_error ps k = Some p ->
  nth_error (flat_map (page_entries v b) ps) (2 * k) =
    Some {| name := markup_name (pageNum p);
            data := Some (getPageXHTML b (pageNum p) (width p) (height p));
            options := default_options |}
  /\ nth_error (flat_map (page_entries v b) ps) (2 * k + 1) =
       Some {| name := image_name (pageNum p);
               data := image_entry_data v p;
               options := image_entry_options v |}.
Proof.
  revert k. induction ps as [|a ps IH]; intros k Hk.
  - destruct k; discriminate Hk.
  - destruct k as [|k].
    + injection Hk as ->. split; reflexivity.
    + cbn [nth_error] in Hk. destruct (IH k Hk) as [H1 H2].
      replace (2 * S k)%nat with (S (S (2 * k))) by lia.
      replace (S (S (2 * k)) + 1)%nat with (S (S (2 * k + 1))) by lia.
      split; [exact H1 | exact H2].
Qed.

(** X3.  The archive has six entries and two more for each page.  The page
    at index [k] of the page list (from 0) supplies entries [6 + 2k] and
    [7 + 2k]: its markup document, then its image, whose payload under Node
    is the page's image buffer, unchanged. *)
Theorem page_entry_positions (v : build) (b : t) (iso : string) (k : nat) (p : PageData) :
  nth_error (pages b) k = Some p ->
  List.length (generate v b iso) = (6 + 2 * List.length (pages b))%nat
  /\ nth_error (generate v b iso) (6 + 2 * k) =
       Some {| name := "OEBPS/xhtml/page_" ++ num (pageNum p) ++ ".xhtml";
               data := Some (getPageXHTML b (pageNum p) (width p) (height p));
               options := default_options |}
  /\ nth_error (generate v b iso) (7 + 2 * k) =
       Some {| name := "OEBPS/images/page_" ++ num (pageNum p) ++ ".png";
               data := image_entry_data v p;
               options := image_entry_options v |}
  /\ image_entry_data Node p = Some (imageData p)
  /\ image_entry_options Node = default_options.
Proof.
  intros Hk. split; [apply generate_length|].
  destruct (page_entries_nth v b (pages b) k p Hk) as [H1 H2].
  rewrite generate_shape.
  split; [exact H1|]. split; [|split; reflexivity].
  replace (7 + 2 * k)%nat with (6 + (2 * k + 1))%nat by lia. exact H2.
Qed.

Lemma page_entry_positions_witness :
  nth_error (generate Node book_swapped EmptyString) 8 =
    Some {| name := "OEBPS/xhtml/page_001.xhtml";
            data := Some (getPageXHTML book_swapped 1 300 400);
            options := default_options |}
  /\ nth_error (generate Node book_swapped EmptyString) 9 =
       Some {| name := "OEBPS/images/page_001.png"; data := Some "PNG";
               options := default_options |}.
Proof.
  assert (Hk : nth_error (pages book_swapped) 1 =
               Some {| imageData := "PNG"; width := 300; height := 400; pageNum := 1 |})
    by reflexivity.
  destruct (page_entry_positions Node book_swapped EmptyString 1 _ Hk)
    as (_ & Hm & Hi & _).
  split; [exact Hm | exact Hi].
Defined.

(** X6.  The guide of the package document always names
    [xhtml/page_001.xhtml] as the cover; the archive holds that entry if
    and only if some page carries the page number 1. *)
Theorem guide_cover_resolves_iff (v : build) (b : t) (iso : string) :
  occurs_in ("    <reference type=" ++ q "cover" ++ " title=" ++ q "Cover" ++
             " href=" ++ q "xhtml/page_001.xhtml" ++ "/>") (getContentOPF v b iso)
  /\ (In "OEBPS/xhtml/page_001.xhtml" (map name (generate v b iso))
      <-> In 1 (map pageNum (pages b))).
Proof.
  split.
  - change "xhtml/page_001.xhtml" with guide_href.
    unfold getContentOPF, opf_template. find_fragment.
  - rewrite generate_names. exact (markup_in_archive b 1).
Qed.

(* ================================================================== *)
(** ** Page images and page documents *)
(* ================================================================== *)

Lemma split_free (c : ascii) (a : string) :
  free_of c a = true -> split c a = [a].
Proof.
  induction a as [|x a IH]; cbn [free_of split]; [reflexivity|].
  intros H. apply andb_prop in H. destruct H as [Hx Ha].
  apply negb_true_iff in Hx. now rewrite Hx, IH.
Qed.

Lemma split_at_separator (c : ascii) (a rest : string) :
  free_of c a = true -> split c (a ++ String c rest) = a :: split c rest.
Proof.
  induction a as [|x a IH]; cbn [free_of split append].
  - intros _. now rewrite Ascii.eqb_refl.
  - intros H. apply andb_prop in H. destruct H as [Hx Ha].
    apply negb_true_iff in Hx. now rewrite Hx, IH.
Qed.

(** X4.  In the browser build the payload of a page's image entry is the
    text between the first and the second comma of the page's data URL, or
    up to its end when there is no second comma, and it is flagged as
    base64; a page image without any comma reaches the archive writer as
    [undefined]. *)
Theorem browser_image_payload (p : PageData) (header payload : string) :
  free_of "," header = true ->
  free_of "," payload = true ->
  (imageData p = header ++ "," ++ payload -> image_entry_data Browser p = Some payload)
  /\ (forall more, imageData p = header ++ "," ++ payload ++ "," ++ more ->
                   image_entry_data Browser p = Some payload)
  /\ (imageData p = payload -> image_entry_data Browser p = None)
  /\ base64 (image_entry_options Browser) = true.
Proof.
  intros Hh Hp. unfold image_entry_data. split; [|split; [|split]].
  - intros ->. cbn [append]. rewrite split_at_separator, split_free by assumption.
    reflexivity.
  - intros more ->. cbn [append].
    rewrite split_at_separator, split_at_separator by assumption. reflexivity.
  - intros ->. rewrite split_free by assumption. reflexivity.
  - reflexivity.
Qed.

Lemma browser_image_payload_witness :
  image_entry_data Browser
    {| imageData := "data:image/png;base64,iVBORw0KGgo="; width := 1; height := 1; pageNum := 1 |}
  = Some "iVBORw0KGgo=".
Proof.
  exact (proj1 (browser_image_payload
                  {| imageData := "data:image/png;base64,iVBORw0KGgo=";
                     width := 1; height := 1; pageNum := 1 |}
                  "data:image/png;base64" "iVBORw0KGgo=" eq_refl eq_refl) eq_refl).
Defined.

Lemma page_in_archive (v : build) (b : t) (p : PageData) :
  In p (pages b) ->
  In {| name := markup_name (pageNum p);
        data := Some (getPageXHTML b (pageNum p) (width p) (height p));
        options := default_options |}
     (flat_map (page_entries v b) (pages b)).
Proof.
  intros Hp. apply in_flat_map. exists p. split; [exact Hp|]. now left.
Qed.

(** X5.  Whatever the page numbers, each page's markup document is in the
    archive and its own references hold: the image it shows,
    [../images/page_NNN.png] with [NNN] from that page's number, and the
    stylesheet it links both resolve, from [OEBPS/xhtml/], to entries of
    the archive; its viewport is the page's stored width and height and
    its title and alternative text read [Page N]. *)
Theorem page_document_references (v : build) (b : t) (iso : string) (p : PageData) :
  In p (pages b) ->
  let doc := getPageXHTML b (pageNum p) (width p) (height p) in
  In {| name := "OEBPS/xhtml/page_" ++ num (pageNum p) ++ ".xhtml";
        data := Some doc; options := default_options |} (generate v b iso)
  /\ occurs_in ("    <img src=" ++ q ("../images/page_" ++ num (pageNum p) ++ ".png") ++
                " alt=" ++ q ("Page " ++ ToString (pageNum p))) doc
  /\ In (resolve_from_page ("../images/page_" ++ num (pageNum p) ++ ".png"))
        (map name (generate v b iso))
  /\ occurs_in (" href=" ++ q "../styles/fixed-layout.css") doc
  /\ In (resolve_from_page "../styles/fixed-layout.css") (map name (generate v b iso))
  /\ occurs_in ("  <meta name=" ++ q "viewport" ++ " content=" ++
                q ("width=" ++ ToString (width p) ++ ", height=" ++ ToString (height p)))
       doc
  /\ occurs_in ("  <title>Page " ++ ToString (pageNum p) ++ "</title>") doc.
Proof.
  intros Hp doc. subst doc.
  split; [|split; [|split; [|split; [|split; [|split]]]]].
  - rewrite generate_shape. do 6 right. now apply page_in_archive.
  - unfold getPageXHTML. find_fragment.
  - rewrite generate_names.
    change (resolve_from_page ("../images/page_" ++ num (pageNum p) ++ ".png"))
      with (image_name (pageNum p)).
    apply image_in_archive, in_map, Hp.
  - unfold getPageXHTML. find_fragment.
  - rewrite generate_names. unfold paired_layout, fixed_names.
    apply in_or_app. left. cbn. tauto.
  - unfold getPageXHTML. find_fragment.
  - unfold getPageXHTML. find_fragment.
Qed.

Lemma page_document_references_witness :
  In (resolve_from_page "../images/page_002.png")
     (map name (generate Browser book_swapped EmptyString)).
Proof.
  assert (Hps : pages book_swapped =
                [ {| imageData := "PNG"; width := 300; height := 400; pageNum := 2 |};
                  {| imageData := "PNG"; width := 300; height := 400; pageNum := 1 |} ])
    by (vm_compute; reflexivity).
  assert (Hp : In {| imageData := "PNG"; width := 300; height := 400; pageNum := 2 |}
                  (pages book_swapped)) by (rewrite Hps; left; reflexivity).
  pose proof (page_document_references Browser book_swapped EmptyString _ Hp) as H.
  cbv zeta in H. destruct H as (_ & _ & H & _).
  cbn [pageNum] in H. change (num 2) with "002" in H. exact H.
Defined.

(* ================================================================== *)
(** ** Navigation and metadata across the documents *)
(* ================================================================== *)

(** X8.  The NCX carries the title in [docTitle] as [escapeXML] renders
    it: the special characters only inside entities, and un-escaping gives
    the title back. *)
Theorem ncx_title_escaped (b : t) :
  occurs_in ("    <text>" ++ escapeXML (title b) ++ "</text>" ++ nl ++ "  </docTitle>")
    (getNCX b)
  /\ only_entities (escapeXML (title b)) = true
  /\ unescapeXML (escapeXML (title b)) = title b.
Proof.
  split; [|split].
  - unfold getNCX, ncx_template. find_fragment.
  - apply escapeXML_only_entities.
  - apply unescape_escapeXML.
Qed.

Lemma escapeXML_app (a b : string) : escapeXML (a ++ b) = escapeXML a ++ escapeXML b.
Proof.
  induction a as [|c a IH]; [reflexivity|].
  cbn [append]. now rewrite !escapeXML_cons, IH, append_assoc.
Qed.

Lemma escape_char_plain (c : ascii) :
  is_special c = false -> escape_char c = String c EmptyString.
Proof.
  unfold is_special, escape_char. intros H.
  repeat (apply orb_false_elim in H; destruct H as [H ?]).
  now repeat match goal with E : Ascii.eqb _ _ = false |- _ => rewrite E; clear E end.
Qed.

Lemma escape_char_special (c : ascii) :
  is_special c = true -> (1 < String.length (escape_char c))%nat.
Proof.
  unfold is_special, escape_char. intros H.
  destruct (Ascii.eqb c "&"); [cbn; lia|].
  destruct (Ascii.eqb c "<"); [cbn; lia|].
  destruct (Ascii.eqb c ">"); [cbn; lia|].
  destruct (Ascii.eqb c dquote); [cbn; lia|].
  destruct (Ascii.eqb c "'"); [cbn; lia | discriminate H].
Qed.

Lemma escapeXML_length (s : string) : (String.length s <= String.length (escapeXML s))%nat.
Proof.
  induction s as [|c s IH]; [apply Nat.le_refl|].
  rewrite escapeXML_cons, append_length. cbn [String.length].
  destruct (is_special c) eqn:E.
  - apply escape_char_special in E. lia.
  - rewrite (escape_char_plain c E). cbn [String.length]. lia.
Qed.

(** X10.  [escapeXML] works character by character: it distributes over
    concatenation and is one-to-one; it returns its argument unchanged
    exactly when none of the five special characters occurs in it, so
    text that is already escaped is escaped again. *)
Theorem escapeXML_algebra (a b : string) :
  escapeXML (a ++ b) = escapeXML a ++ escapeXML b
  /\ (escapeXML a = escapeXML b -> a = b)
  /\ (escapeXML a = a <-> plain a = true).
Proof.
  split; [apply escapeXML_app|]. split.
  - intros H. apply (f_equal unescapeXML) in H.
    now rewrite !unescape_escapeXML in H.
  - clear b. induction a as [|c a IH]; [split; reflexivity|].
    rewrite escapeXML_cons. cbn [plain]. split.
    + intros H. destruct (is_special c) eqn:E.
      * exfalso. apply (f_equal String.length) in H.
        rewrite append_length in H. cbn [String.length] in H.
        pose proof (escape_char_special c E). pose proof (escapeXML_length a). lia.
      * rewrite (escape_char_plain c E) in H. cbn [append] in H.
        injection H as H. cbn [negb andb]. now apply IH.
    + intros H. apply andb_prop in H. destruct H as [Hc Ha].
      apply negb_true_iff in Hc. rewrite (escape_char_plain c Hc). cbn [append].
      f_equal. now apply IH.
Qed.

Lemma escapeXML_algebra_witness :
  escapeXML "Q&A" <> "Q&A" /\ escapeXML (escapeXML "Q&A") = "Q&amp;amp;A".
Proof.
  split.
  - intros H. apply (proj2 (proj2 (escapeXML_algebra "Q&A" EmptyString))) in H.
    discriminate H.
  - reflexivity.
Defined.

(* ================================================================== *)
(** ** The converters *)
(* ================================================================== *)

Lemma addPage_pages (b : t) (d : string) (w h n : Z) :
  pages (addPage b d w h n)
  = (pages b ++ [{| imageData := d; width := w; height := h; pageNum := n |}])%list.
Proof. reflexivity. Qed.

(** The loop appends one page for each index, in order, and leaves the
    metadata and the identifier alone. *)
Lemma convert_pages_spec (v : build) (pdf : PDFDocument) (scale : Q) (epub : t) :
  pages (convert_pages v pdf scale epub)
  = (pages epub ++ map (converted_page v pdf scale) (seq 1 (numPages pdf)))%list
  /\ title (convert_pages v pdf scale epub) = title epub
  /\ author (convert_pages v pdf scale epub) = author epub
  /\ language (convert_pages v pdf scale epub) = language epub
  /\ uuid (convert_pages v pdf scale epub) = uuid epub.
Proof.
  unfold convert_pages. generalize (seq 1 (numPages pdf)). intros l. revert epub.
  induction l as [|i l IH]; intros epub; cbn [fold_left map].
  - rewrite app_nil_r. repeat split.
  - destruct (IH (convert_page v pdf scale epub i)) as (Hp & Ht & Ha & Hl & Hu).
    rewrite Hp, Ht, Ha, Hl, Hu. unfold convert_page at 1.
    rewrite addPage_pages, <- app_assoc. repeat split.
Qed.

Lemma positions_from_one (n : nat) :
  map Z.of_nat (seq 1 n) = map succ_index (seq 0 n).
Proof.
  rewrite <- seq_shift, map_map. apply map_ext. intros k. unfold succ_index. lia.
Qed.

(** A generator filled by the loop from an empty page list. *)
Lemma convert_pages_numbered (v : build) (pdf : PDFDocument) (scale : Q) (epub : t) :
  pages epub = [] ->
  List.length (pages (convert_pages v pdf scale epub)) = numPages pdf
  /\ numbered_by_position (convert_pages v pdf scale epub).
Proof.
  intros He. destruct (convert_pages_spec v pdf scale epub) as (Hp & _).
  rewrite He in Hp. cbn [app] in Hp.
  assert (Hlen : List.length (pages (convert_pages v pdf scale epub)) = numPages pdf)
    by (now rewrite Hp, length_map, length_seq).
  split; [exact Hlen|].
  unfold numbered_by_position, positions, indices. rewrite Hlen, Hp, map_map.
  cbn [converted_page pageNum]. apply positions_from_one.
Qed.

Lemma constructor_pages (options : EPUBOptions) (g : Random) :
  pages (fst (constructor options g)) = [].
Proof. apply constructor_fields. Qed.


Section ConverterFacts.

Variable basename : string -> string -> string.

Lemma convertPDFToEPUB_book_pages (pdf : PDFDocument) (inputPath : string)
    (options : EPUBOptions) (g : Random) :
  exists epub,
    pages epub = []
    /\ title epub = or_else (Some (or_else (opt_title options) (basename inputPath ".pdf")))
                      "Untitled"
    /\ fst (convertPDFToEPUB_book basename pdf inputPath options g)
       = convert_pages Node pdf (inject_Z (or_else_number (opt_dpi options) 150) / 72)%Q epub.
Proof.
  unfold convertPDFToEPUB_book.
  match goal with |- context [constructor ?o g] => set (opts := o) end.
  exists (fst (constructor opts g)).
  destruct (constructor_fields opts g) as (Ht & _ & _ & Hp).
  split; [exact Hp|]. split; [exact Ht|].
  destruct (constructor opts g). reflexivity.
Qed.

Lemma convertToEPUB_book_pages (pdf : PDFDocument) (file : File) (metadata : Metadata)
    (dpi : Z) (g : Random) :
  exists epub,
    pages epub = []
    /\ title epub = or_else (Some (or_else (Some (md_title metadata))
                                     (replace_first ".pdf" EmptyString (file_name file))))
                      "Untitled"
    /\ fst (convertToEPUB_book pdf file metadata dpi g)
       = convert_pages Browser pdf (inject_Z dpi / 72)%Q epub.
Proof.
  unfold convertToEPUB_book.
  match goal with |- context [constructor ?o g] => set (opts := o) end.
  exists (fst (constructor opts g)).
  destruct (constructor_fields opts g) as (Ht & _ & _ & Hp).
  split; [exact Hp|]. split; [exact Ht|].
  destruct (constructor opts g). reflexivity.
Qed.


End ConverterFacts.

Lemma Math_round_bounds (x : Q) :
  (inject_Z (Math_round x) <= x + (1 # 2))%Q
  /\ (x + (1 # 2) < inject_Z (Math_round x + 1))%Q.
Proof. unfold Math_round. split; [apply Qfloor_le | apply Qlt_floor]. Qed.

(** X12.  The loop of either converter, started on a generator without
    pages, stores for the page of index [i] (from 1) the image rendered at
    the conversion scale, the page number [i], and as width and height the
    viewport's width and height rounded to the nearest integer, a half
    going up. *)
Theorem converted_page_sizes (v : build) (pdf : PDFDocument) (scale : Q) (epub : t) (i : nat) :
  pages epub = [] ->
  (1 <= i <= numPages pdf)%nat ->
  exists p,
    nth_error (pages (convert_pages v pdf scale epub)) (i - 1) = Some p
    /\ pageNum p = Z.of_nat i
    /\ imageData p = rendered_image v pdf i scale
    /\ (inject_Z (width p) <= viewport_width pdf i scale + (1 # 2))%Q
    /\ (viewport_width pdf i scale + (1 # 2) < inject_Z (width p + 1))%Q
    /\ (inject_Z (height p) <= viewport_height pdf i scale + (1 # 2))%Q
    /\ (viewport_height pdf i scale + (1 # 2) < inject_Z (height p + 1))%Q.
Proof.
  intros He Hi. exists (converted_page v pdf scale i).
  destruct (convert_pages_spec v pdf scale epub) as (Hp & _).
  rewrite He in Hp. cbn [app] in Hp. rewrite Hp.
  split.
  - rewrite nth_error_map, nth_error_seq.
    destruct (Nat.ltb_spec (i - 1) (numPages pdf)) as [_|H]; [|lia].
    cbn [option_map]. f_equal. f_equal. lia.
  - cbn [converted_page pageNum imageData width height].
    split; [reflexivity|]. split; [reflexivity|].
    destruct (Math_round_bounds (viewport_width pdf i scale)) as [W1 W2].
    destruct (Math_round_bounds (viewport_height pdf i scale)) as [H1 H2].
    repeat split; assumption.
Qed.

(** At the default 150 dpi a US Letter page of 612 by 792 points becomes
    1275 by 1650 pixels. *)
Lemma converted_page_sizes_witness :
  exists p,
    nth_error (pages (convert_pages Node sample_pdf (150 / 72)%Q book_empty)) 1 = Some p
    /\ pageNum p = 2 /\ width p = 1275 /\ height p = 1650.
Proof.
  assert (He : pages book_empty = []) by apply constructor_pages.
  assert (Hi : (1 <= 2 <= numPages sample_pdf)%nat) by (cbn; lia).
  destruct (converted_page_sizes Node sample_pdf (150 / 72)%Q book_empty 2 He Hi)
    as (p & Hnth & Hn & _).
  exists p. split; [exact Hnth|]. split; [exact Hn|].
  destruct (convert_pages_spec Node sample_pdf (150 / 72)%Q book_empty) as (Hp & _).
  rewrite He in Hp. cbn [app] in Hp. rewrite Hp in Hnth.
  cbn in Hnth. injection Hnth as <-. split; reflexivity.
Defined.

Section CommandLineFacts.

Variable basename : string -> string -> string.
Variable parseInt : option string -> option Z.

Lemma parse_pairs (ps : list (string * string)) (rest : list string) (o : EPUBOptions) :
  parse_flags parseInt (flatten_pairs ps ++ rest)%list o
  = parse_flags parseInt rest (fold_left (fun o p => set_option parseInt o (fst p) (Some (snd p))) ps o).
Proof.
  revert o. induction ps as [|p ps IH]; intros o; [reflexivity|].
  cbn [flatten_pairs flat_map app fold_left]. apply IH.
Qed.

Lemma text_flag_cases (flag : string) :
  In flag ["--title"; "--author"; "--language"] ->
  flag = "--title" \/ flag = "--author" \/ flag = "--language".
Proof. cbn [In]. intros [H | [H | [H | H] ] ]; [auto | auto | auto | destruct H]. Qed.

Lemma set_text_option (flag : string) (value : option string) (o : EPUBOptions) :
  In flag ["--title"; "--author"; "--language"] ->
  text_option flag (set_option parseInt o flag value) = value.
Proof.
  intros H. apply text_flag_cases in H. destruct H as [-> | [-> | ->]]; reflexivity.
Qed.

Lemma set_other_option (flag other : string) (value : option string) (o : EPUBOptions) :
  In flag ["--title"; "--author"; "--language"] ->
  other <> flag ->
  text_option flag (set_option parseInt o other value) = text_option flag o.
Proof.
  intros H Hne. apply text_flag_cases in H. unfold set_option.
  destruct (String.eqb_spec other "--title") as [->|_];
    [destruct H as [-> | [-> | ->]]; [congruence | reflexivity | reflexivity]|].
  destruct (String.eqb_spec other "--author") as [->|_];
    [destruct H as [-> | [-> | ->]]; [reflexivity | congruence | reflexivity]|].
  destruct (String.eqb_spec other "--language") as [->|_];
    [destruct H as [-> | [-> | ->]]; [reflexivity | reflexivity | congruence]|].
  destruct (String.eqb_spec other "--dpi") as [->|_];
    [destruct H as [-> | [-> | ->]]; reflexivity|].
  reflexivity.
Qed.

Lemma fold_other_options (flag : string) (qs : list (string * string)) (o : EPUBOptions) :
  In flag ["--title"; "--author"; "--language"] ->
  Forall (fun p => fst p <> flag) qs ->
  text_option flag (fold_left (fun o p => set_option parseInt o (fst p) (Some (snd p))) qs o)
  = text_option flag o.
Proof.
  intros Hf Hqs. revert o.
  induction Hqs as [|p qs Hp _ IH]; intros o; cbn [fold_left]; [reflexivity|].
  rewrite IH. now apply set_other_option.
Qed.

(** X13.  On a command line made of flag and value pairs, a text flag
    ([--title], [--author], [--language]) given more than once takes the
    value of its last occurrence, whatever other pairs come before or
    after. *)
Theorem last_flag_wins (flag value : string) (ps qs : list (string * string))
    (o : EPUBOptions) :
  In flag ["--title"; "--author"; "--language"] ->
  Forall (fun p => fst p <> flag) qs ->
  text_option flag (parse_flags parseInt (flatten_pairs ps ++ flag :: value :: flatten_pairs qs)%list o)
  = Some value.
Proof.
  intros Hf Hqs. rewrite parse_pairs. cbn [parse_flags].
  rewrite <- (app_nil_r (flatten_pairs qs)), parse_pairs. cbn [parse_flags].
  rewrite fold_other_options by assumption.
  now apply set_text_option.
Qed.

(** X14.  A text flag left as the last argument, without a value, sets its
    option to [undefined], also when the flag was given a value earlier.
    For [--title] the converter then names the book after the input file:
    the title is the base name of the input path, or [Untitled] when that
    is empty. *)
Theorem dangling_flag_resets (flag : string) (ps : list (string * string))
    (pdf : PDFDocument) (inputPath : string) (g : Random) :
  In flag ["--title"; "--author"; "--language"] ->
  text_option flag (parse_flags parseInt (flatten_pairs ps ++ [flag])%list no_options) = None
  /\ title (fst (convertPDFToEPUB_book basename pdf inputPath
                   (parse_flags parseInt (flatten_pairs ps ++ ["--title"])%list no_options) g))
     = or_else (Some (basename inputPath ".pdf")) "Untitled".
Proof.
  intros Hf. split.
  - rewrite parse_pairs. cbn [parse_flags]. now apply set_text_option.
  - destruct (convertPDFToEPUB_book_pages basename pdf inputPath
                (parse_flags parseInt (flatten_pairs ps ++ ["--title"])%list no_options) g)
      as (epub & _ & Ht & ->).
    destruct (convert_pages_spec Node pdf
                (inject_Z (or_else_number
                   (opt_dpi (parse_flags parseInt (flatten_pairs ps ++ ["--title"])%list no_options)) 150)
                 / 72)%Q epub) as (_ & -> & _).
    rewrite Ht. rewrite parse_pairs. cbn [parse_flags].
    change (opt_title (set_option parseInt ?o "--title" None)) with (@None string).
    reflexivity.
Qed.

(** X15.  Pairs whose flag is none of the four known ones change
    nothing: the options are those of the command line without them. *)
Theorem unknown_flags_ignored (ps : list (string * string)) (rest : list string)
    (o : EPUBOptions) :
  Forall (fun p => ~ In (fst p) ["--title"; "--author"; "--language"; "--dpi"]) ps ->
  parse_flags parseInt (flatten_pairs ps ++ rest)%list o = parse_flags parseInt rest o.
Proof.
  intros Hps. rewrite parse_pairs. f_equal. revert o.
  induction Hps as [|p ps Hp _ IH]; intros o; cbn [fold_left]; [reflexivity|].
  rewrite IH. unfold set_option. cbn [In] in Hp.
  destruct (String.eqb_spec (fst p) "--title") as [E|_]; [exfalso; apply Hp; rewrite E; tauto|].
  destruct (String.eqb_spec (fst p) "--author") as [E|_]; [exfalso; apply Hp; rewrite E; tauto|].
  destruct (String.eqb_spec (fst p) "--language") as [E|_]; [exfalso; apply Hp; rewrite E; tauto|].
  destruct (String.eqb_spec (fst p) "--dpi") as [E|_]; [exfalso; apply Hp; rewrite E; tauto|].
  reflexivity.
Qed.

(** X16.  [main] writes an archive only when it has at least an input and
    an output argument, the input exists and loads; it writes to the
    second argument; and the archive written starts with the stored
    [mimetype] entry, has six entries and two for each page of the input,
    and no two of them share a name. *)
Theorem main_saves_well_formed (args : list string) (existsSync : string -> bool)
    (load : string -> option PDFDocument) (g : Random) (iso : string)
    (outputPath : string) (archive : list entry) :
  main basename parseInt args existsSync load g iso = Saved outputPath archive ->
  exists inputPath flags pdf,
    args = inputPath :: outputPath :: flags
    /\ existsSync inputPath = true
    /\ load inputPath = Some pdf
    /\ archive = convertPDFToEPUB basename pdf inputPath (parse_flags parseInt flags no_options) g iso
    /\ nth_error archive 0 =
         Some {| name := "mimetype"; data := Some "application/epub+zip";
                 options := {| compression := Some STORE; base64 := false |} |}
    /\ List.length archive = (6 + 2 * numPages pdf)%nat
    /\ NoDup (map name archive).
Proof.
  unfold main. destruct args as [|inputPath [|out flags]]; try discriminate.
  destruct (existsSync inputPath) eqn:Hex; cbn [negb]; [|discriminate].
  destruct (load inputPath) as [pdf|] eqn:Hload; [|discriminate].
  remember (convertPDFToEPUB basename pdf inputPath
              (parse_flags parseInt flags no_options) g iso) as written eqn:Ew.
  intros [= <- <-]. subst written. exists inputPath, flags, pdf.
  split; [reflexivity|]. split; [exact Hex|]. split; [exact Hload|]. split; [reflexivity|].
  unfold convertPDFToEPUB.
  destruct (convertPDFToEPUB_book_pages basename pdf inputPath (parse_flags parseInt flags no_options) g)
    as (epub & He & _ & Hb).
  destruct (convert_pages_numbered Node pdf
              (inject_Z (or_else_number
                 (opt_dpi (parse_flags parseInt flags no_options)) 150) / 72)%Q epub He)
    as [Hlen Hnum].
  rewrite <- Hb in Hlen, Hnum.
  split; [|split].
  - rewrite generate_shape. reflexivity.
  - rewrite generate_length, Hlen. reflexivity.
  - rewrite generate_names. apply paired_layout_NoDup.
    rewrite Hnum. apply positions_NoDup.
Qed.

(** With fewer than two arguments [main] prints the usage and exits; for a
    missing input it exits whatever loading would give. *)
Lemma main_usage_or_missing (args : list string) (existsSync : string -> bool)
    (load : string -> option PDFDocument) (g : Random) (iso : string) :
  ((List.length args < 2)%nat ->
   main basename parseInt args existsSync load g iso = UsageExit)
  /\ (forall inputPath outputPath flags,
        args = inputPath :: outputPath :: flags ->
        existsSync inputPath = false ->
        main basename parseInt args existsSync load g iso = NotFoundExit inputPath).
Proof.
  split.
  - destruct args as [|a [|c l]]; cbn [List.length]; intros H; [reflexivity..|lia].
  - intros inputPath outputPath flags -> Hex. cbn [main]. now rewrite Hex.
Qed.

End CommandLineFacts.

Lemma last_flag_wins_witness :
  text_option "--title"
    (parse_flags (fun _ => None)
       ["--title"; "A"; "--dpi"; "300"; "--title"; "B"; "--author"; "C"] no_options)
  = Some "B".
Proof.
  apply (last_flag_wins (fun _ => None) "--title" "B"
           [("--title", "A"); ("--dpi", "300")] [("--author", "C")] no_options).
  - left. reflexivity.
  - repeat constructor. discriminate.
Defined.

Lemma dangling_flag_resets_witness :
  text_option "--title"
    (parse_flags (fun _ => None) ["--title"; "A"; "--title"] no_options) = None.
Proof.
  refine (proj1 (dangling_flag_resets (fun p _ => p) (fun _ => None) "--title"
                   [("--title", "A")] sample_pdf "in.pdf" sample_random _)).
  left. reflexivity.
Defined.

Lemma unknown_flags_ignored_witness :
  parse_flags (fun _ => None) ["--verbose"; "yes"; "--title"; "T"] no_options
  = parse_flags (fun _ => None) ["--title"; "T"] no_options.
Proof.
  apply (unknown_flags_ignored (fun _ => None) [("--verbose", "yes")] ["--title"; "T"]
           no_options).
  repeat constructor. cbn [In fst]. intros [H|[H|[H|[H|H]]]]; try discriminate H. exact H.
Defined.

Lemma main_saves_well_formed_witness :
  List.length
    (convertPDFToEPUB (fun p _ => p) sample_pdf "in.pdf"
       (parse_flags (fun _ => None) [] no_options) sample_random EmptyString) = 10%nat.
Proof.
  destruct (main_saves_well_formed (fun p _ => p) (fun _ => None)
              ["in.pdf"; "out.epub"] (fun _ => true) (fun _ => Some sample_pdf)
              sample_random EmptyString "out.epub"
              (convertPDFToEPUB (fun p _ => p) sample_pdf "in.pdf"
                 (parse_flags (fun _ => None) [] no_options) sample_random EmptyString)
              eq_refl)
    as (inputPath & flags & pdf & _ & _ & Hload & _ & _ & Hlen & _).
  injection Hload as <-. exact Hlen.
Defined.

(* ================================================================== *)
(** ** The browser's title *)
(* ================================================================== *)

Lemma replace_first_at (pre post r : string) :
  free_of "." pre = true ->
  replace_first ".pdf" r (pre ++ ".pdf" ++ post) = pre ++ r ++ post.
Proof.
  induction pre as [|c pre IH]; intros H.
  - reflexivity.
  - cbn [free_of] in H. apply andb_prop in H. destruct H as [Hc Hpre].
    apply negb_true_iff in Hc. rewrite Ascii.eqb_sym in Hc.
    change (String c pre ++ ".pdf" ++ post) with (String c (pre ++ ".pdf" ++ post)).
    change (String c pre ++ r ++ post) with (String c (pre ++ r ++ post)).
    cbn [replace_first starts_with]. rewrite Hc. cbn [andb].
    now rewrite IH.
Qed.

Lemma replace_first_absent (s r : string) :
  free_of "." s = true -> replace_first ".pdf" r s = s.
Proof.
  induction s as [|c s IH]; intros H; [reflexivity|].
  cbn [free_of] in H. apply andb_prop in H. destruct H as [Hc Hs].
  apply negb_true_iff in Hc. rewrite Ascii.eqb_sym in Hc.
  cbn [replace_first starts_with]. rewrite Hc. cbn [andb].
  now rewrite IH.
Qed.

(* ================================================================== *)
(** ** Reading the documents back *)
(* ================================================================== *)

(** *** Scanning through holes *)

Lemma free_of_app (c : ascii) (a b : string) :
  free_of c (a ++ b) = free_of c a && free_of c b.
Proof.
  induction a as [|x a IH]; cbn [append free_of]; [reflexivity|].
  now rewrite IH, andb_assoc.
Qed.

(** No marker starts inside a text that is free of the marker's first
    character. *)
Lemma fields_hole (c : ascii) (m : string) (stop : ascii) (h rest : string) :
  free_of c h = true ->
  fields (String c m) stop (h ++ rest) = fields (String c m) stop rest.
Proof.
  induction h as [|a h IH]; cbn [append free_of]; [reflexivity|].
  intros H. apply andb_true_iff in H as [Ha Hh].
  cbn [fields starts_with]. rewrite Ascii.eqb_sym.
  apply negb_true_iff in Ha. rewrite Ha. cbn [andb]. now apply IH.
Qed.

(** A field runs through a text that is free of its stop character. *)
Lemma until_app (stop : ascii) (h rest : string) :
  free_of stop h = true -> until stop (h ++ rest) = h ++ until stop rest.
Proof.
  induction h as [|a h IH]; cbn [append free_of]; [reflexivity|].
  intros H. apply andb_true_iff in H as [Ha Hh].
  cbn [until]. apply negb_true_iff in Ha. rewrite Ha. now rewrite IH.
Qed.

(** What the holes of the templates hold: numerals, escaped text, the
    identifier, the timestamp. *)
Lemma numeral_free (c : ascii) (s : string) :
  numeral s = true -> is_digit c || Ascii.eqb c "-" = false -> free_of c s = true.
Proof.
  intros Hs Hc. induction s as [|a s IH]; [reflexivity|].
  cbn [numeral] in Hs. apply andb_true_iff in Hs as [Ha Hs].
  cbn [free_of]. rewrite (IH Hs), andb_true_r.
  apply negb_true_iff. destruct (Ascii.eqb_spec a c) as [->|]; [congruence | reflexivity].
Qed.

Lemma numeral_app (a b : string) : numeral (a ++ b) = numeral a && numeral b.
Proof.
  induction a as [|x a IH]; cbn [append numeral]; [reflexivity|].
  now rewrite IH, andb_assoc.
Qed.

Lemma numeral_uint (d : Decimal.uint) :
  numeral (DecimalString.NilEmpty.string_of_uint d) = true.
Proof. induction d; cbn; auto. Qed.

Lemma numeral_ToString (z : Z) : numeral (ToString z) = true.
Proof.
  unfold ToString, DecimalString.NilZero.string_of_int.
  destruct (Z.to_int z) as [d|d];
    unfold DecimalString.NilZero.string_of_uint; destruct d; cbn [numeral]; cbn;
    try reflexivity; apply numeral_uint.
Qed.

Lemma numeral_zeros (k : nat) : numeral (zeros k) = true.
Proof. induction k as [|k IH]; [reflexivity | exact IH]. Qed.

Lemma numeral_num (n : Z) : numeral (num n) = true.
Proof.
  unfold num. rewrite padStart_zeros, numeral_app, numeral_zeros.
  apply numeral_ToString.
Qed.

Lemma free_of_ToString (c : ascii) (z : Z) :
  is_digit c || Ascii.eqb c "-" = false -> free_of c (ToString z) = true.
Proof. apply numeral_free, numeral_ToString. Qed.

Lemma free_of_num (c : ascii) (n : Z) :
  is_digit c || Ascii.eqb c "-" = false -> free_of c (num n) = true.
Proof. apply numeral_free, numeral_num. Qed.

Lemma free_of_escape_char (c a : ascii) :
  (Ascii.eqb c "<" || Ascii.eqb c ">" || Ascii.eqb c dquote)%bool = true ->
  free_of c (escape_char a) = true.
Proof.
  intros Hc.
  unfold escape_char.
  destruct (Ascii.eqb_spec c "<") as [->|H1];
    [|destruct (Ascii.eqb_spec c ">") as [->|H2];
      [|destruct (Ascii.eqb_spec c dquote) as [->|H3]; [|discriminate]]];
    (destruct (Ascii.eqb_spec a "&") as [->|Hamp]; [reflexivity|];
     destruct (Ascii.eqb_spec a "<") as [->|Hlt]; [reflexivity|];
     destruct (Ascii.eqb_spec a ">") as [->|Hgt]; [reflexivity|];
     destruct (Ascii.eqb_spec a dquote) as [->|Hdq]; [reflexivity|];
     destruct (Ascii.eqb_spec a "'") as [->|Hap]; [reflexivity|]);
    cbn [free_of]; rewrite andb_true_r; apply negb_true_iff, Ascii.eqb_neq; assumption.
Qed.

Lemma free_of_escapeXML (c : ascii) (s : string) :
  (Ascii.eqb c "<" || Ascii.eqb c ">" || Ascii.eqb c dquote)%bool = true ->
  free_of c (escapeXML s) = true.
Proof.
  intros Hc. induction s as [|a s IH]; [reflexivity|].
  rewrite escapeXML_cons, free_of_app, IH, andb_true_r.
  now apply free_of_escape_char.
Qed.

Lemma matches_free (c : ascii) (p s : string) :
  is_hex c = false -> is_variant c = false -> free_of c p = true ->
  matches p s = true -> free_of c s = true.
Proof.
  intros Hh Hv. revert s.
  induction p as [|x p IH]; intros [|a s] Hp Hm; try reflexivity; try discriminate.
  cbn [free_of] in Hp. apply andb_true_iff in Hp as [Hx Hp].
  cbn [matches] in Hm. apply andb_true_iff in Hm as [Ha Hm].
  cbn [free_of]. rewrite (IH s Hp Hm), andb_true_r.
  apply negb_true_iff. destruct (Ascii.eqb_spec a c) as [->|]; [|reflexivity].
  exfalso.
  destruct (Ascii.eqb x "x"); [congruence|].
  destruct (Ascii.eqb x "y"); [congruence|].
  apply negb_true_iff in Hx. congruence.
Qed.

Lemma free_of_strip_millis (c : ascii) (s : string) :
  Ascii.eqb c "Z" = false -> free_of c s = true -> free_of c (strip_millis s) = true.
Proof.
  intros Hc. induction s as [|a s IH]; [reflexivity|].
  cbn [free_of strip_millis]. intros H. apply andb_true_iff in H as [Ha Hs].
  destruct (Ascii.eqb a "." && millis_Z s).
  - cbn [free_of]. rewrite Ascii.eqb_sym, Hc. reflexivity.
  - cbn [free_of]. now rewrite Ha, IH.
Qed.

Lemma free_of_number (c : ascii) (n : number) :
  is_digit c || Ascii.eqb c "-" = false ->
  free_of c "Infinity" = true ->
  free_of c (number_ToString n) = true.
Proof.
  intros Hc Hi. destruct n as [|z]; cbn [number_ToString].
  - cbn [free_of]. cbn [free_of] in Hi. rewrite Hi, andb_true_r.
    apply negb_true_iff. destruct (Ascii.eqb_spec "-" c) as [<-|]; [discriminate | reflexivity].
  - now apply free_of_ToString.
Qed.

(** The loops that grow a text with [+=] join the rendered lines. *)
Lemma accumulate_join {A : Type} (render : A -> string) (xs : list A) (init : string) :
  accumulate init render xs = init ++ join (map render xs).
Proof.
  unfold accumulate. revert init.
  induction xs as [|x xs IH]; intros init; cbn [fold_left map join fold_right].
  - now rewrite append_empty_r.
  - rewrite IH, append_assoc. reflexivity.
Qed.

Lemma join_app (xs ys : list string) : join (xs ++ ys) = join xs ++ join ys.
Proof.
  induction xs as [|x xs IH]; cbn [List.app join fold_right]; [reflexivity|].
  fold (join (xs ++ ys)). fold (join xs). now rewrite IH, append_assoc.
Qed.

(** Scanning the lines a loop produced, one line at a time. *)
Lemma yields_join {A : Type} (marker : string) (stop : ascii) (render : A -> string)
    (f : A -> list string) (xs : list A) :
  (forall x, In x xs -> yields marker stop (render x) (f x)) ->
  yields marker stop (join (map render xs)) (flat_map f xs).
Proof.
  intros H rest. induction xs as [|x xs IH]; [reflexivity|].
  cbn [map join fold_right flat_map]. fold (join (map render xs)).
  rewrite append_assoc, (H x (or_introl eq_refl)).
  rewrite IH by (intros y Hy; apply H; right; exact Hy).
  rewrite app_assoc. reflexivity.
Qed.

Lemma flat_map_singleton {A B : Type} (f : A -> B) (l : list A) :
  flat_map (fun x => [f x]) l = map f l.
Proof. induction l as [|a l IH]; cbn; [reflexivity | now rewrite IH]. Qed.

Lemma flat_map_nothing {A B : Type} (l : list A) :
  flat_map (fun _ : A => @nil B) l = [].
Proof. induction l as [|a l IH]; cbn; [reflexivity | exact IH]. Qed.

Lemma yields_lines {A : Type} (marker : string) (stop : ascii) (render : A -> string)
    (f : A -> string) (xs : list A) :
  (forall x, In x xs -> yields marker stop (render x) [f x]) ->
  yields marker stop (join (map render xs)) (map f xs).
Proof. rewrite <- flat_map_singleton. apply yields_join. Qed.

Lemma yields_no_lines {A : Type} (marker : string) (stop : ascii) (render : A -> string)
    (xs : list A) :
  (forall x, In x xs -> yields marker stop (render x) []) ->
  yields marker stop (join (map render xs)) [].
Proof.
  intros H. rewrite <- (flat_map_nothing xs). apply yields_join. exact H.
Qed.

(** As many fields as places where the marker starts. *)
Lemma fields_count (marker : string) (stop : ascii) (s : string) :
  List.length (fields marker stop s) = count_occurrences marker s.
Proof.
  induction s as [|a s IH]; [reflexivity|].
  cbn [fields count_occurrences].
  destruct (starts_with marker (String a s)); cbn [List.length]; rewrite IH; reflexivity.
Qed.

(** Templates as runs of literal text and holes. *)
Ltac expose :=
  unfold xml_decl, html_open, properties; unfold q; unfold dq, nl, dquote;
  rewrite ?append_assoc.

Ltac side :=
  lazymatch goal with
  | |- free_of _ (ToString _) = true => apply free_of_ToString; reflexivity
  | |- free_of _ (num _) = true => apply free_of_num; reflexivity
  | |- _ => assumption
  end.

(** One step of a scan: through literal text by computation, through a
    hole by the fact that it holds no character the scan looks for, through
    a block of lines by what the block yields. *)
Ltac scan_step :=
  first [ progress cbn [fields starts_with until drop String.length append andb
                        Ascii.eqb Bool.eqb List.app]
        | rewrite fields_hole by side
        | rewrite until_app by side
        | match goal with
          | H : yields ?m ?s ?text _ |- context [fields ?m ?s (?text ++ _)] => rewrite H
          end ].

Ltac scan := repeat scan_step; rewrite ?append_empty_r.

(** *** toc.ncx *)

Ltac open_navPoint :=
  intros rest; unfold start_tags, render_navPoint, nav_point;
  cbn [np_id np_playOrder np_label np_src].

Lemma navPoint_start_tag (i : nat) :
  yields "<navPoint " ">" (render_navPoint (nav_point i))
    [ "id=" ++ q ("navpoint" ++ ToString (succ_index i)) ++ " playOrder="
        ++ q (ToString (succ_index i)) ].
Proof. open_navPoint. expose. scan. reflexivity. Qed.

Lemma navPoint_text (i : nat) :
  yields "<text>" "<" (render_navPoint (nav_point i)) [ "Page " ++ ToString (succ_index i) ].
Proof. open_navPoint. expose. scan. reflexivity. Qed.

Lemma navPoint_content (i : nat) :
  yields "<content " ">" (render_navPoint (nav_point i))
    [ "src=" ++ q ("xhtml/page_" ++ num (succ_index i) ++ ".xhtml") ++ "/" ].
Proof. open_navPoint. expose. scan. reflexivity. Qed.

Lemma navPoint_meta (i : nat) :
  yields "<meta " ">" (render_navPoint (nav_point i)) [].
Proof. open_navPoint. expose. scan. reflexivity. Qed.

(** The template of the NCX, its holes filled with any texts free of the
    characters a scan looks for. *)
Section NCXTemplate.

Variables id_ total_ max_ title_ navPoints_ : string.
Hypothesis id_lt : free_of "<" id_ = true.
Hypothesis id_gt : free_of ">" id_ = true.
Hypothesis total_lt : free_of "<" total_ = true.
Hypothesis total_gt : free_of ">" total_ = true.
Hypothesis max_lt : free_of "<" max_ = true.
Hypothesis max_gt : free_of ">" max_ = true.
Hypothesis title_lt : free_of "<" title_ = true.

Lemma ncx_template_navPoint (r : list string) :
  yields "<navPoint " ">" navPoints_ r ->
  fields "<navPoint " ">" (ncx_template id_ total_ max_ title_ navPoints_) = r.
Proof.
  intros Hr. unfold ncx_template. expose. scan. apply app_nil_r.
Qed.

Lemma ncx_template_text (r : list string) :
  yields "<text>" "<" navPoints_ r ->
  fields "<text>" "<" (ncx_template id_ total_ max_ title_ navPoints_) = title_ :: r.
Proof.
  intros Hr. unfold ncx_template. expose. scan. now rewrite app_nil_r.
Qed.

Lemma ncx_template_content (r : list string) :
  yields "<content " ">" navPoints_ r ->
  fields "<content " ">" (ncx_template id_ total_ max_ title_ navPoints_) = r.
Proof.
  intros Hr. unfold ncx_template. expose. scan. apply app_nil_r.
Qed.

Lemma ncx_template_meta :
  yields "<meta " ">" navPoints_ [] ->
  fields "<meta " ">" (ncx_template id_ total_ max_ title_ navPoints_)
  = [ "name=" ++ q "dtb:uid" ++ " content=" ++ q ("urn:uuid:" ++ id_) ++ "/";
      "name=" ++ q "dtb:depth" ++ " content=" ++ q "1" ++ "/";
      "name=" ++ q "dtb:totalPageCount" ++ " content=" ++ q total_ ++ "/";
      "name=" ++ q "dtb:maxPageNumber" ++ " content=" ++ q max_ ++ "/" ].
Proof.
  intros Hr. unfold ncx_template. expose. scan. reflexivity.
Qed.

End NCXTemplate.

Lemma navPoints_join (b : t) :
  accumulate EmptyString render_navPoint (navPoints b)
  = join (map (fun i => render_navPoint (nav_point i)) (indices (pages b))).
Proof. unfold navPoints. now rewrite accumulate_join, map_map. Qed.

Lemma ncx_navPoint_tags (b : t) :
  free_of "<" (uuid b) = true ->
  start_tags "navPoint" (getNCX b)
  = map (fun i => "id=" ++ q ("navpoint" ++ ToString (succ_index i)) ++ " playOrder="
                    ++ q (ToString (succ_index i)))
      (indices (pages b)).
Proof.
  intros Hu. unfold getNCX. cbv zeta. rewrite navPoints_join.
  apply ncx_template_navPoint; try side; try (apply free_of_escapeXML; reflexivity).
  apply yields_lines. intros i _. apply navPoint_start_tag.
Qed.

Lemma ncx_texts (b : t) :
  free_of "<" (uuid b) = true ->
  fields "<text>" "<" (getNCX b)
  = escapeXML (title b)
      :: map (fun i => "Page " ++ ToString (succ_index i)) (indices (pages b)).
Proof.
  intros Hu. unfold getNCX. cbv zeta. rewrite navPoints_join.
  apply ncx_template_text; try side; try (apply free_of_escapeXML; reflexivity).
  apply yields_lines. intros i _. apply navPoint_text.
Qed.

Lemma ncx_content_tags (b : t) :
  free_of "<" (uuid b) = true ->
  start_tags "content" (getNCX b)
  = map (fun i => "src=" ++ q ("xhtml/page_" ++ num (succ_index i) ++ ".xhtml") ++ "/")
      (indices (pages b)).
Proof.
  intros Hu. unfold getNCX. cbv zeta. rewrite navPoints_join.
  apply ncx_template_content; try side; try (apply free_of_escapeXML; reflexivity).
  apply yields_lines. intros i _. apply navPoint_content.
Qed.

Lemma ncx_meta_tags (b : t) :
  free_of "<" (uuid b) = true -> free_of ">" (uuid b) = true ->
  start_tags "meta" (getNCX b)
  = [ "name=" ++ q "dtb:uid" ++ " content=" ++ q ("urn:uuid:" ++ uuid b) ++ "/";
      "name=" ++ q "dtb:depth" ++ " content=" ++ q "1" ++ "/";
      "name=" ++ q "dtb:totalPageCount" ++ " content="
        ++ q (ToString (Z.of_nat (List.length (pages b)))) ++ "/";
      "name=" ++ q "dtb:maxPageNumber" ++ " content="
        ++ q (ToString (Z.of_nat (List.length (pages b)))) ++ "/" ].
Proof.
  intros Hu Hu'. unfold getNCX. cbv zeta. rewrite navPoints_join.
  apply ncx_template_meta; try side; try (apply free_of_escapeXML; reflexivity).
  apply yields_no_lines. intros i _. apply navPoint_meta.
Qed.

(** *** content.opf *)

Lemma manifest_join (b : t) : manifest b = join (map render_item (manifest_items b)).
Proof.
  unfold manifest, manifest_items. rewrite !accumulate_join, !map_app, !join_app.
  rewrite append_assoc. reflexivity.
Qed.

Lemma spine_join (b : t) : spine b = join (map render_itemref (spine_idrefs b)).
Proof. unfold spine. rewrite accumulate_join. reflexivity. Qed.

Lemma manifest_item_cases (b : t) (it : item) :
  In it (manifest_items b) ->
  In it fixed_items \/ exists i, it = page_item i \/ it = image_item i.
Proof.
  unfold manifest_items. rewrite !in_app_iff, !in_map_iff.
  intros [H|[(i & <- & _)|(i & <- & _)]];
    [left; exact H | right; exists i; left; reflexivity | right; exists i; right; reflexivity].
Qed.

(** The first image line differs from the others: both cases, with the
    index left symbolic. *)
Ltac first_or_later :=
  try match goal with |- context [(?i =? 0)%nat] => destruct (i =? 0)%nat end.

Ltac open_item :=
  intros rest; unfold start_tags, render_item, item_tag, page_item, image_item;
  cbn [item_id item_href item_media_type item_props]; first_or_later.

Ltac by_item_cases H :=
  apply manifest_item_cases in H;
  destruct H as [[<-|[<-|[<-|[]]]]|(i & [-> | ->])].

(** A manifest line holds one [item] start tag and nothing else a scan
    looks for; likewise a spine line and its [itemref]. *)
Lemma item_line_tag (b : t) (it : item) :
  In it (manifest_items b) -> yields "<item " ">" (render_item it) [item_tag it].
Proof. intros H. by_item_cases H; open_item; expose; scan; reflexivity. Qed.

Lemma item_line_no_itemref (b : t) (it : item) :
  In it (manifest_items b) -> yields "<itemref " ">" (render_item it) [].
Proof. intros H. by_item_cases H; open_item; expose; scan; reflexivity. Qed.

Lemma item_line_no_reference (b : t) (it : item) :
  In it (manifest_items b) -> yields "<reference " ">" (render_item it) [].
Proof. intros H. by_item_cases H; open_item; expose; scan; reflexivity. Qed.

Ltac open_itemref :=
  intros rest; unfold start_tags, render_itemref, itemref_tag.

Lemma itemref_line_tag (i : nat) :
  yields "<itemref " ">" (render_itemref ("page" ++ num (succ_index i)))
    [itemref_tag ("page" ++ num (succ_index i))].
Proof. open_itemref; expose; scan; reflexivity. Qed.

Lemma itemref_line_no_item (i : nat) :
  yields "<item " ">" (render_itemref ("page" ++ num (succ_index i))) [].
Proof. open_itemref; expose; scan; reflexivity. Qed.

Lemma itemref_line_no_reference (i : nat) :
  yields "<reference " ">" (render_itemref ("page" ++ num (succ_index i))) [].
Proof. open_itemref; expose; scan; reflexivity. Qed.

(** The template of the package document over any such holes. *)
Section OPFTemplate.

Variables blank id_ title_ language_ creator_ now resolution manifest_ spine_ : string.
Hypothesis blank_lt : free_of "<" blank = true.
Hypothesis id_lt : free_of "<" id_ = true.
Hypothesis title_lt : free_of "<" title_ = true.
Hypothesis language_lt : free_of "<" language_ = true.
Hypothesis creator_lt : free_of "<" creator_ = true.
Hypothesis now_lt : free_of "<" now = true.
Hypothesis resolution_lt : free_of "<" resolution = true.

Lemma opf_template_item (r : list string) :
  yields "<item " ">" manifest_ r -> yields "<item " ">" spine_ [] ->
  fields "<item " ">"
    (opf_template blank id_ title_ language_ creator_ now resolution manifest_ spine_) = r.
Proof.
  intros Hm Hs. unfold opf_template, guide_href. expose. scan. apply app_nil_r.
Qed.

Lemma opf_template_itemref (r : list string) :
  yields "<itemref " ">" manifest_ [] -> yields "<itemref " ">" spine_ r ->
  fields "<itemref " ">"
    (opf_template blank id_ title_ language_ creator_ now resolution manifest_ spine_) = r.
Proof.
  intros Hm Hs. unfold opf_template, guide_href. expose. scan. apply app_nil_r.
Qed.

Lemma opf_template_reference :
  yields "<reference " ">" manifest_ [] -> yields "<reference " ">" spine_ [] ->
  fields "<reference " ">"
    (opf_template blank id_ title_ language_ creator_ now resolution manifest_ spine_)
  = [ "type=" ++ q "cover" ++ " title=" ++ q "Cover" ++ " href=" ++ q guide_href ++ "/" ].
Proof.
  intros Hm Hs. unfold opf_template, guide_href. expose. scan. reflexivity.
Qed.

End OPFTemplate.

Lemma free_of_blank_line (v : build) : free_of "<" (blank_line v) = true.
Proof. destruct v; reflexivity. Qed.

Lemma free_of_original_resolution (b : t) : free_of "<" (original_resolution b) = true.
Proof.
  unfold original_resolution. rewrite !free_of_app.
  rewrite !free_of_number by reflexivity. reflexivity.
Qed.

(** The start tags of the package document of a book. *)
Section PackageDocument.

Variables (v : build) (b : t) (iso : string).
Hypothesis uuid_lt : free_of "<" (uuid b) = true.
Hypothesis language_lt : free_of "<" (language b) = true.
Hypothesis iso_lt : free_of "<" iso = true.

Ltac open_opf :=
  unfold getContentOPF; cbv zeta; rewrite manifest_join, spine_join;
  unfold spine_idrefs; rewrite (map_map _ render_itemref).

Ltac opf_holes :=
  first [ apply free_of_blank_line | apply free_of_original_resolution
        | apply free_of_escapeXML; reflexivity
        | apply free_of_strip_millis; [reflexivity | assumption]
        | assumption ].

Lemma opf_item_tags :
  start_tags "item" (getContentOPF v b iso) = map item_tag (manifest_items b).
Proof.
  open_opf. apply opf_template_item; try opf_holes.
  - apply yields_lines. intros it Hit. apply (item_line_tag b it Hit).
  - apply yields_no_lines. intros i _. apply itemref_line_no_item.
Qed.

Lemma opf_itemref_tags :
  start_tags "itemref" (getContentOPF v b iso) = map itemref_tag (spine_idrefs b).
Proof.
  open_opf. unfold spine_idrefs. rewrite map_map.
  apply opf_template_itemref; try opf_holes.
  - apply yields_no_lines. intros it Hit. apply (item_line_no_itemref b it Hit).
  - apply (yields_lines _ _ _ (fun i => itemref_tag ("page" ++ num (succ_index i)))).
    intros i _. apply itemref_line_tag.
Qed.

Lemma opf_reference_tags :
  start_tags "reference" (getContentOPF v b iso)
  = [ "type=" ++ q "cover" ++ " title=" ++ q "Cover" ++ " href=" ++ q guide_href ++ "/" ].
Proof.
  open_opf. apply opf_template_reference; try opf_holes.
  - apply yields_no_lines. intros it Hit. apply (item_line_no_reference b it Hit).
  - apply yields_no_lines. intros i _. apply itemref_line_no_reference.
Qed.

End PackageDocument.

(** *** nav.xhtml *)

Ltac open_link :=
  intros rest; unfold start_tags, render_link, toc_link, pageList_link;
  cbn [link_href link_text].

Lemma toc_link_tag (i : nat) :
  yields "<a " ">" (render_link (toc_link i))
    [ "href=" ++ q ("xhtml/page_" ++ num (succ_index i) ++ ".xhtml") ].
Proof. open_link; expose; scan; reflexivity. Qed.

Lemma pageList_link_tag (i : nat) :
  yields "<a " ">" (render_link (pageList_link i))
    [ "href=" ++ q ("xhtml/page_" ++ num (succ_index i) ++ ".xhtml") ].
Proof. open_link; expose; scan; reflexivity. Qed.

Lemma toc_link_anchor (i : nat) :
  yields "<a " "<" (render_link (toc_link i))
    [ "href=" ++ q ("xhtml/page_" ++ num (succ_index i) ++ ".xhtml") ++ ">Page "
        ++ ToString (succ_index i) ].
Proof. open_link; expose; scan; reflexivity. Qed.

Lemma pageList_link_anchor (i : nat) :
  yields "<a " "<" (render_link (pageList_link i))
    [ "href=" ++ q ("xhtml/page_" ++ num (succ_index i) ++ ".xhtml") ++ ">"
        ++ ToString (succ_index i) ].
Proof. open_link; expose; scan; reflexivity. Qed.

Lemma toc_link_no_link (i : nat) : yields "<link " ">" (render_link (toc_link i)) [].
Proof. open_link; expose; scan; reflexivity. Qed.

Lemma pageList_link_no_link (i : nat) : yields "<link " ">" (render_link (pageList_link i)) [].
Proof. open_link; expose; scan; reflexivity. Qed.

(** The template of the navigation document over any such holes. *)
Section NavTemplate.

Variables language_ toc_ pageList_ : string.
Hypothesis language_lt : free_of "<" language_ = true.

Lemma nav_template_a (stop : ascii) (r1 r2 : list string) :
  yields "<a " stop toc_ r1 -> yields "<a " stop pageList_ r2 ->
  fields "<a " stop (nav_template language_ toc_ pageList_) = (r1 ++ r2)%list.
Proof.
  intros H1 H2. unfold nav_template. expose. scan. rewrite app_nil_r. reflexivity.
Qed.

Lemma nav_template_link :
  yields "<link " ">" toc_ [] -> yields "<link " ">" pageList_ [] ->
  fields "<link " ">" (nav_template language_ toc_ pageList_)
  = [ "rel=" ++ q "stylesheet" ++ " type=" ++ q "text/css" ++ " href="
        ++ q "styles/fixed-layout.css" ++ "/" ].
Proof.
  intros H1 H2. unfold nav_template. expose. scan. reflexivity.
Qed.

End NavTemplate.

Lemma links_join (b : t) :
  getNav b
  = nav_template (language b)
      (join (map (fun i => render_link (toc_link i)) (indices (pages b))))
      (join (map (fun i => render_link (pageList_link i)) (indices (pages b)))).
Proof.
  unfold getNav, toc_links, pageList_links. cbv zeta.
  rewrite !accumulate_join, !map_map. reflexivity.
Qed.

Lemma nav_a_tags (b : t) :
  free_of "<" (language b) = true ->
  start_tags "a" (getNav b)
  = List.app
      (map (fun i => "href=" ++ q ("xhtml/page_" ++ num (succ_index i) ++ ".xhtml"))
         (indices (pages b)))
      (map (fun i => "href=" ++ q ("xhtml/page_" ++ num (succ_index i) ++ ".xhtml"))
         (indices (pages b))).
Proof.
  intros Hl. rewrite links_join. apply nav_template_a; [exact Hl | |].
  - apply yields_lines. intros i _. apply toc_link_tag.
  - apply yields_lines. intros i _. apply pageList_link_tag.
Qed.

Lemma nav_anchors (b : t) :
  free_of "<" (language b) = true ->
  fields "<a " "<" (getNav b)
  = List.app
      (map (fun i => "href=" ++ q ("xhtml/page_" ++ num (succ_index i) ++ ".xhtml") ++ ">Page "
                       ++ ToString (succ_index i))
         (indices (pages b)))
      (map (fun i => "href=" ++ q ("xhtml/page_" ++ num (succ_index i) ++ ".xhtml") ++ ">"
                       ++ ToString (succ_index i))
         (indices (pages b))).
Proof.
  intros Hl. rewrite links_join. apply nav_template_a; [exact Hl | |].
  - apply yields_lines. intros i _. apply toc_link_anchor.
  - apply yields_lines. intros i _. apply pageList_link_anchor.
Qed.

Lemma nav_link_tags (b : t) :
  free_of "<" (language b) = true ->
  start_tags "link" (getNav b)
  = [ "rel=" ++ q "stylesheet" ++ " type=" ++ q "text/css" ++ " href="
        ++ q "styles/fixed-layout.css" ++ "/" ].
Proof.
  intros Hl. rewrite links_join. apply nav_template_link; [exact Hl | |].
  - apply yields_no_lines. intros i _. apply toc_link_no_link.
  - apply yields_no_lines. intros i _. apply pageList_link_no_link.
Qed.

(** *** Attribute values *)

Ltac open_attribute :=
  unfold attribute, item_tag, itemref_tag, page_item, image_item;
  cbn [item_id item_href item_media_type item_props]; first_or_later.

Lemma item_tag_href (b : t) (it : item) :
  In it (manifest_items b) -> attribute "href" (item_tag it) = [item_href it].
Proof. intros H. by_item_cases H; open_attribute; expose; scan; reflexivity. Qed.

Lemma item_tag_id (b : t) (it : item) :
  In it (manifest_items b) -> attribute "id" (item_tag it) = [item_id it].
Proof. intros H. by_item_cases H; open_attribute; expose; scan; reflexivity. Qed.



Lemma itemref_tag_idref (i : nat) :
  attribute "idref" (itemref_tag ("page" ++ num (succ_index i)))
  = [ "page" ++ num (succ_index i) ].
Proof. open_attribute; expose; scan; reflexivity. Qed.

Lemma anchor_href (i : nat) :
  attribute "href" ("href=" ++ q ("xhtml/page_" ++ num (succ_index i) ++ ".xhtml"))
  = [ "xhtml/page_" ++ num (succ_index i) ++ ".xhtml" ].
Proof. unfold attribute; expose; scan; reflexivity. Qed.

Lemma content_src (i : nat) :
  attribute "src" ("src=" ++ q ("xhtml/page_" ++ num (succ_index i) ++ ".xhtml") ++ "/")
  = [ "xhtml/page_" ++ num (succ_index i) ++ ".xhtml" ].
Proof. unfold attribute; expose; scan; reflexivity. Qed.

Lemma attributes_map {A : Type} (name_ : string) (tag : A -> string) (value : A -> string)
    (xs : list A) :
  (forall x, In x xs -> attribute name_ (tag x) = [value x]) ->
  flat_map (attribute name_) (map tag xs) = map value xs.
Proof.
  induction xs as [|x xs IH]; intros H; [reflexivity|].
  cbn [map flat_map]. rewrite (H x (or_introl eq_refl)).
  rewrite IH by (intros y Hy; apply H; right; exact Hy). reflexivity.
Qed.

Lemma uuid_v4_free (c : ascii) (s : string) :
  is_hex c = false -> is_variant c = false -> free_of c uuid_template = true ->
  uuid_v4_shape s = true -> free_of c s = true.
Proof. intros Hh Hv Hp. apply matches_free; assumption. Qed.

(** *** The documents of an archive *)

Lemma archive_documents (v : build) (b : t) (iso : string) :
  let zip := generate v b iso in
  document zip "META-INF/container.xml" = getContainer
  /\ document zip "OEBPS/content.opf" = getContentOPF v b iso
  /\ document zip "OEBPS/toc.ncx" = getNCX b
  /\ document zip "OEBPS/nav.xhtml" = getNav b.
Proof.
  intros zip. subst zip. unfold generate, zip_file. cbn [List.app].
  rewrite fold_page_entries. unfold document. cbn [List.app find name data String.eqb Ascii.eqb Bool.eqb].
  repeat split.
Qed.

(** *** What the archive refers to *)

Section ArchiveReferences.

Variables (v : build) (b : t) (iso : string).
Hypothesis uuid_shape : uuid_v4_shape (uuid b) = true.
Hypothesis language_lt : free_of "<" (language b) = true.
Hypothesis iso_lt : free_of "<" iso = true.

Lemma identifier_lt : free_of "<" (uuid b) = true.
Proof. apply uuid_v4_free; [reflexivity .. | exact uuid_shape]. Qed.

Lemma manifest_hrefs :
  attributes "href" "item" (getContentOPF v b iso) = map item_href (manifest_items b).
Proof.
  unfold attributes. rewrite (opf_item_tags v b iso identifier_lt language_lt iso_lt).
  apply attributes_map. intros it Hit. apply (item_tag_href b it Hit).
Qed.

Lemma manifest_ids :
  attributes "id" "item" (getContentOPF v b iso) = map item_id (manifest_items b).
Proof.
  unfold attributes. rewrite (opf_item_tags v b iso identifier_lt language_lt iso_lt).
  apply attributes_map. intros it Hit. apply (item_tag_id b it Hit).
Qed.

Lemma spine_idrefs_read :
  attributes "idref" "itemref" (getContentOPF v b iso) = spine_idrefs b.
Proof.
  unfold attributes. rewrite (opf_itemref_tags v b iso identifier_lt language_lt iso_lt).
  unfold spine_idrefs. rewrite map_map.
  rewrite (attributes_map "idref" _ (fun i => "page" ++ num (succ_index i)));
    [reflexivity|].
  intros i _. apply itemref_tag_idref.
Qed.

Lemma guide_hrefs :
  attributes "href" "reference" (getContentOPF v b iso) = [guide_href].
Proof.
  unfold attributes. rewrite (opf_reference_tags v b iso identifier_lt language_lt iso_lt).
  vm_compute. reflexivity.
Qed.

Lemma ncx_sources :
  attributes "src" "content" (getNCX b) = map np_src (navPoints b).
Proof.
  unfold attributes. rewrite (ncx_content_tags b identifier_lt).
  unfold navPoints. rewrite map_map. cbn [np_src nav_point].
  apply attributes_map. intros i _. apply content_src.
Qed.

Lemma nav_hrefs :
  attributes "href" "a" (getNav b)
  = List.app (map link_href (toc_links b)) (map link_href (pageList_links b)).
Proof.
  unfold attributes. rewrite (nav_a_tags b language_lt).
  rewrite flat_map_app. unfold toc_links, pageList_links. rewrite !map_map.
  cbn [link_href toc_link pageList_link].
  rewrite (attributes_map "href" _ (fun i => "xhtml/page_" ++ num (succ_index i) ++ ".xhtml"));
    [reflexivity|].
  intros i _. apply anchor_href.
Qed.

Lemma nav_stylesheet :
  attributes "href" "link" (getNav b) = ["styles/fixed-layout.css"].
Proof.
  unfold attributes. rewrite (nav_link_tags b language_lt). vm_compute. reflexivity.
Qed.

Lemma container_rootfile :
  attributes "full-path" "rootfile" getContainer = ["OEBPS/content.opf"].
Proof. vm_compute. reflexivity. Qed.

(** The references read back from the archive are the ones computed from
    the insertion positions, and the guide's. *)
Lemma archive_references_read :
  archive_references (generate v b iso)
  = List.app (map item_href (manifest_items b))
      (guide_href ::
       List.app (map np_src (navPoints b))
         (List.app (List.app (map link_href (toc_links b)) (map link_href (pageList_links b)))
            ["styles/fixed-layout.css"])).
Proof.
  unfold archive_references.
  destruct (archive_documents v b iso) as (_ & -> & -> & ->).
  rewrite manifest_hrefs, guide_hrefs, ncx_sources, nav_hrefs, nav_stylesheet.
  reflexivity.
Qed.

End ArchiveReferences.

Lemma first_position (b : t) : pages b <> [] -> In 1 (positions b).
Proof.
  unfold positions, indices. destruct (pages b) as [|p ps]; [congruence|].
  intros _. cbn [List.length seq map]. left. reflexivity.
Qed.

Lemma guide_is_first_markup : resolve guide_href = markup_name 1.
Proof. vm_compute. reflexivity. Qed.

(** With the guide counted, the references resolve exactly when there is a
    page and the page numbers are the insertion positions in some order. *)
Lemma archive_references_resolve_iff (v : build) (b : t) (iso : string) :
  uuid_v4_shape (uuid b) = true ->
  free_of "<" (language b) = true ->
  free_of "<" iso = true ->
  archive_references_resolve (generate v b iso)
  <-> pages b <> [] /\ Permutation (map pageNum (pages b)) (positions b).
Proof.
  intros Hu Hl Hi. unfold archive_references_resolve. cbv zeta.
  rewrite (archive_references_read v b iso Hu Hl Hi).
  destruct (archive_documents v b iso) as (-> & -> & _ & _).
  rewrite container_rootfile.
  rewrite (spine_idrefs_read v b iso Hu Hl Hi), (manifest_ids v b iso Hu Hl Hi).
  rewrite <- (references_resolve_permutation v b iso).
  unfold references_resolve, file_references.
  split.
  - intros (_ & HB & HC). split; [|split; [|exact HC]].
    + assert (H1 : In (resolve guide_href) (map name (generate v b iso))).
      { apply HB. apply in_app_iff. right. left. reflexivity. }
      rewrite generate_names, guide_is_first_markup in H1.
      apply markup_in_archive in H1. intros He. rewrite He in H1. exact H1.
    + intros h Hh. apply HB.
      rewrite !in_app_iff in Hh. rewrite !in_app_iff. cbn [In]. rewrite !in_app_iff.
      tauto.
  - intros (Hne & HB & HC). split; [|split; [|exact HC]].
    + intros p [<-|[]]. rewrite generate_names. unfold paired_layout, fixed_names.
      apply in_app_iff. left. cbn [In]. tauto.
    + intros h Hh.
      rewrite !in_app_iff in Hh. cbn [In] in Hh. rewrite !in_app_iff in Hh. cbn [In] in Hh.
      assert (Hfix : forall s, In s fixed_names -> In s (map name (generate v b iso))).
      { intros s Hs. rewrite generate_names. unfold paired_layout.
        apply in_app_iff. left. exact Hs. }
      assert (Hperm : Permutation (map pageNum (pages b)) (positions b)).
      { apply (references_resolve_permutation v b iso). split; assumption. }
      destruct Hh as [Hh|[<-|[Hh|[[Hh|Hh]|[<-|[]]]]]];
        try (apply HB; rewrite !in_app_iff; tauto).
      * rewrite generate_names, guide_is_first_markup. apply markup_in_archive.
        apply Permutation_in with (l := positions b); [symmetry; exact Hperm|].
        apply first_position, Hne.
      * apply Hfix. cbn. tauto.
Qed.

(* ================================================================== *)
(** ** The navigation-control document, read back *)
(* ================================================================== *)

Lemma places_positions (b : t) (n : Z) :
  Z.of_nat (List.length (pages b)) = n ->
  map Z.of_nat (seq 1 (Z.to_nat n)) = positions b.
Proof.
  intros H. unfold positions, indices. rewrite positions_from_one.
  replace (Z.to_nat n) with (List.length (pages b)) by lia. reflexivity.
Qed.

(** C8.  For a book of [n] pages, [n] between 1 and 999, whose identifier
    has the shape construction gives it, the text of the NCX holds exactly
    [n] [navPoint] start tags; in document order the [i]-th has the id
    [navpointi] and the [playOrder] [i], the [i]-th label after the
    document title is [Page i], and the [i]-th [content] element has the
    source [xhtml/page_DDD.xhtml], [DDD] the three-digit zero-padded
    numeral of [i]; the [meta] elements declare [n] as
    [dtb:totalPageCount] and as [dtb:maxPageNumber]. *)
Theorem ncx_nav_points (b : t) (n : Z) :
  Z.of_nat (List.length (pages b)) = n ->
  1 <= n <= 999 ->
  uuid_v4_shape (uuid b) = true ->
  let places := map Z.of_nat (seq 1 (Z.to_nat n)) in
  count_occurrences "<navPoint " (getNCX b) = Z.to_nat n
  /\ start_tags "navPoint" (getNCX b)
     = map (fun i => "id=" ++ q ("navpoint" ++ ToString i) ++ " playOrder=" ++ q (ToString i))
         places
  /\ fields "<text>" "<" (getNCX b)
     = escapeXML (title b) :: map (fun i => "Page " ++ ToString i) places
  /\ start_tags "content" (getNCX b)
     = map (fun i => "src=" ++ q ("xhtml/page_" ++ three_digits i ++ ".xhtml") ++ "/") places
  /\ start_tags "meta" (getNCX b)
     = [ "name=" ++ q "dtb:uid" ++ " content=" ++ q ("urn:uuid:" ++ uuid b) ++ "/";
         "name=" ++ q "dtb:depth" ++ " content=" ++ q "1" ++ "/";
         "name=" ++ q "dtb:totalPageCount" ++ " content=" ++ q (ToString n) ++ "/";
         "name=" ++ q "dtb:maxPageNumber" ++ " content=" ++ q (ToString n) ++ "/" ].
Proof.
  intros Hlen Hn Hu places. subst places.
  assert (Hlt : free_of "<" (uuid b) = true) by (apply uuid_v4_free; [reflexivity .. | exact Hu]).
  assert (Hgt : free_of ">" (uuid b) = true) by (apply uuid_v4_free; [reflexivity .. | exact Hu]).
  assert (Htags : start_tags "navPoint" (getNCX b)
                  = map (fun i => "id=" ++ q ("navpoint" ++ ToString i) ++ " playOrder="
                                    ++ q (ToString i)) (positions b)).
  { rewrite (ncx_navPoint_tags b Hlt). unfold positions. rewrite map_map. reflexivity. }
  rewrite (places_positions b n Hlen).
  split; [|split; [|split; [|split]]].
  - change (count_occurrences "<navPoint " (getNCX b))
      with (count_occurrences ("<" ++ "navPoint" ++ " ") (getNCX b)).
    rewrite <- (fields_count _ ">"). fold (start_tags "navPoint" (getNCX b)).
    rewrite Htags, length_map, positions_length. lia.
  - exact Htags.
  - rewrite (ncx_texts b Hlt). unfold positions. rewrite map_map. reflexivity.
  - rewrite (ncx_content_tags b Hlt). unfold positions. rewrite map_map.
    apply map_ext_in. intros i Hi. unfold indices in Hi. apply in_seq in Hi.
    rewrite num_three_digits by (unfold succ_index; lia). reflexivity.
  - rewrite (ncx_meta_tags b Hlt Hgt), Hlen. reflexivity.
Qed.

(** Scenario B: in a book of twelve pages the NCX has twelve navPoint start
    tags, and the last [content] element points at [page_012]. *)
Lemma ncx_nav_points_witness :
  Z.of_nat (List.length (pages (book_of_pages 12))) = 12
  /\ 1 <= 12 <= 999
  /\ uuid_v4_shape (uuid (book_of_pages 12)) = true
  /\ count_occurrences "<navPoint " (getNCX (book_of_pages 12)) = 12%nat
  /\ nth_error (start_tags "content" (getNCX (book_of_pages 12))) 11
     = Some ("src=" ++ q "xhtml/page_012.xhtml" ++ "/").
Proof.
  assert (Hlen : Z.of_nat (List.length (pages (book_of_pages 12))) = 12)
    by (vm_compute; reflexivity).
  assert (Hn : 1 <= 12 <= 999) by lia.
  assert (Hu : uuid_v4_shape (uuid (book_of_pages 12)) = true) by (vm_compute; reflexivity).
  destruct (ncx_nav_points (book_of_pages 12) 12 Hlen Hn Hu) as (Hcount & _ & _ & Hsrc & _).
  split; [exact Hlen|]. split; [exact Hn|]. split; [exact Hu|]. split; [exact Hcount|].
  rewrite Hsrc. reflexivity.
Defined.

(* ================================================================== *)
(** ** The cover image, read back *)
(* ================================================================== *)









(* ================================================================== *)
(** ** Cross-document references, read back *)
(* ================================================================== *)

(** C9, as stated, fails in both directions.  Two pages numbered 2 and 1,
    in that order: every reference read back from the archive resolves,
    yet no page number equals its insertion position.  No page at all:
    every page number equals its insertion position, there being none, yet
    the guide of the package document refers to [xhtml/page_001.xhtml],
    which the archive does not hold. *)
Lemma resolve_without_position_numbers :
  (archive_references_resolve (generate Node book_swapped EmptyString)
   /\ map pageNum (pages book_swapped) = [2; 1]
   /\ positions book_swapped = [1; 2]
   /\ ~ numbered_by_position book_swapped)
  /\ (numbered_by_position book_empty
      /\ In "xhtml/page_001.xhtml" (archive_references (generate Node book_empty EmptyString))
      /\ ~ archive_references_resolve (generate Node book_empty EmptyString)).
Proof.
  assert (Hs : pages book_swapped
               = [ {| imageData := "PNG"; width := 300; height := 400; pageNum := 2 |};
                   {| imageData := "PNG"; width := 300; height := 400; pageNum := 1 |} ])
    by (vm_compute; reflexivity).
  assert (He : pages book_empty = []) by (vm_compute; reflexivity).
  split; [split; [|split; [|split]] | split; [|split]].
  - apply archive_references_resolve_iff;
      [vm_compute; reflexivity | vm_compute; reflexivity | reflexivity |].
    unfold positions, indices. rewrite Hs. split; [discriminate|].
    change (Permutation [2; 1] [1; 2]). apply perm_swap.
  - rewrite Hs. reflexivity.
  - unfold positions, indices. rewrite Hs. reflexivity.
  - unfold numbered_by_position, positions, indices. rewrite Hs.
    change ([2; 1] = [1; 2] -> False). intros H. discriminate H.
  - unfold numbered_by_position, positions, indices. rewrite He. reflexivity.
  - rewrite archive_references_read;
      [|vm_compute; reflexivity | vm_compute; reflexivity | reflexivity].
    apply in_app_iff. right. left. reflexivity.
  - intros H. apply archive_references_resolve_iff in H;
      [|vm_compute; reflexivity | vm_compute; reflexivity | reflexivity].
    destruct H as [H _]. apply H, He.
Qed.

(** C9, amended.  The archive names the page files after each page's
    [pageNum]; the package document, the NCX and the navigation document
    refer to them by insertion position, and the guide of the package
    document refers to the first.  For a book whose language text holds no
    [<] (nor do the generated identifier and the clock reading), every
    reference read back from the documents of the archive (the container's
    root file, the manifest hrefs, the guide's href, the NCX content
    sources, the hrefs of both navigation lists and of the style sheet
    link, and the spine idrefs against the manifest ids) resolves if and
    only if the book has at least one page and its page numbers are the
    insertion positions 1..n in some order; in particular they all resolve
    when there is a page and each page number equals its insertion
    position. *)
Theorem references_resolve_iff (v : build) (b : t) (iso : string) :
  uuid_v4_shape (uuid b) = true ->
  free_of "<" (language b) = true ->
  free_of "<" iso = true ->
  let page_href := fun n => "xhtml/page_" ++ num n ++ ".xhtml" in
  map name (generate v b iso) =
    List.app fixed_names
      (flat_map (fun p => [ "OEBPS/xhtml/page_" ++ num (pageNum p) ++ ".xhtml";
                            "OEBPS/images/page_" ++ num (pageNum p) ++ ".png" ])
         (pages b))
  /\ archive_references (generate v b iso) =
       List.app [ "styles/fixed-layout.css"; "toc.ncx"; "nav.xhtml" ]
         (List.app (map page_href (positions b))
            (List.app (map (fun n => "images/page_" ++ num n ++ ".png") (positions b))
               ("xhtml/page_001.xhtml" ::
                List.app (map page_href (positions b))
                  (List.app (map page_href (positions b))
                     (List.app (map page_href (positions b))
                        [ "styles/fixed-layout.css" ])))))
  /\ (archive_references_resolve (generate v b iso)
      <-> pages b <> [] /\ Permutation (map pageNum (pages b)) (positions b))
  /\ (pages b <> [] -> numbered_by_position b ->
      archive_references_resolve (generate v b iso)).
Proof.
  intros Hu Hl Hi page_href. subst page_href.
  split; [|split; [|split]].
  - rewrite generate_names. unfold paired_layout. f_equal.
    now rewrite flat_map_concat_map, map_map, <- flat_map_concat_map.
  - rewrite (archive_references_read v b iso Hu Hl Hi).
    unfold manifest_items, navPoints, toc_links, pageList_links, positions.
    rewrite !map_app, !map_map, <- !app_assoc. reflexivity.
  - apply archive_references_resolve_iff; assumption.
  - intros Hne H. apply archive_references_resolve_iff; try assumption.
    split; [exact Hne|]. rewrite H. apply Permutation_refl.
Qed.

Lemma references_resolve_iff_witness :
  uuid_v4_shape (uuid book_two) = true
  /\ free_of "<" (language book_two) = true
  /\ free_of "<" "2024-05-17T09:30:00.123Z" = true
  /\ pages book_two <> []
  /\ numbered_by_position book_two
  /\ archive_references_resolve (generate Browser book_two "2024-05-17T09:30:00.123Z").
Proof.
  assert (Hu : uuid_v4_shape (uuid book_two) = true) by (vm_compute; reflexivity).
  assert (Hl : free_of "<" (language book_two) = true) by (vm_compute; reflexivity).
  assert (Hi : free_of "<" "2024-05-17T09:30:00.123Z" = true) by reflexivity.
  assert (Hne : pages book_two <> []) by (vm_compute; discriminate).
  assert (H : numbered_by_position book_two) by reflexivity.
  split; [exact Hu|]. split; [exact Hl|]. split; [exact Hi|]. split; [exact Hne|].
  split; [exact H|].
  exact (proj2 (proj2 (proj2
           (references_resolve_iff Browser book_two "2024-05-17T09:30:00.123Z" Hu Hl Hi)))
           Hne H).
Defined.

(* ================================================================== *)
(** ** Navigation and metadata across the documents *)
(* ================================================================== *)

(** X7.  Read back from the text of the three documents, the five loops
    over the page list agree.  For a book whose language text holds no
    [<]: the NCX content sources, the anchor targets of the table of
    contents and those of the page list are, in order, the hrefs of the
    manifest's markup entries, [xhtml/page_NNN.xhtml] for each insertion
    position; the spine refers to the ids of those entries in the same
    order; and the anchors of the table of contents are labelled [Page i],
    those of the page list [i]. *)
Theorem navigation_lists_agree (v : build) (b : t) (iso : string) :
  uuid_v4_shape (uuid b) = true ->
  free_of "<" (language b) = true ->
  free_of "<" iso = true ->
  let opf := getContentOPF v b iso in
  let page_href := fun n => "xhtml/page_" ++ num n ++ ".xhtml" in
  let targets := map page_href (positions b) in
  attributes "src" "content" (getNCX b) = targets
  /\ attributes "href" "a" (getNav b) = List.app targets targets
  /\ attributes "href" "item" opf
     = List.app [ "styles/fixed-layout.css"; "toc.ncx"; "nav.xhtml" ]
         (List.app targets (map (fun n => "images/page_" ++ num n ++ ".png") (positions b)))
  /\ attributes "id" "item" opf
     = List.app [ "css"; "ncx"; "nav" ]
         (List.app (map (fun n => "page" ++ num n) (positions b))
            (map (fun n => "img" ++ num n) (positions b)))
  /\ attributes "idref" "itemref" opf = map (fun n => "page" ++ num n) (positions b)
  /\ fields "<a " "<" (getNav b)
     = List.app
         (map (fun n => "href=" ++ q (page_href n) ++ ">Page " ++ ToString n) (positions b))
         (map (fun n => "href=" ++ q (page_href n) ++ ">" ++ ToString n) (positions b))
  /\ List.length targets = List.length (pages b).
Proof.
  intros Hu Hl Hi opf page_href targets. subst opf page_href targets.
  split; [|split; [|split; [|split; [|split; [|split]]]]].
  - rewrite (ncx_sources b Hu). unfold navPoints, positions. rewrite !map_map. reflexivity.
  - rewrite (nav_hrefs b Hl). unfold toc_links, pageList_links, positions.
    rewrite !map_map. reflexivity.
  - rewrite (manifest_hrefs v b iso Hu Hl Hi). unfold manifest_items, positions.
    rewrite !map_app, !map_map. reflexivity.
  - rewrite (manifest_ids v b iso Hu Hl Hi). unfold manifest_items, positions.
    rewrite !map_app, !map_map. reflexivity.
  - rewrite (spine_idrefs_read v b iso Hu Hl Hi). unfold spine_idrefs, positions.
    rewrite !map_map. reflexivity.
  - rewrite (nav_anchors b Hl). unfold positions. rewrite !map_map. reflexivity.
  - rewrite length_map. apply positions_length.
Qed.

Lemma navigation_lists_agree_witness :
  uuid_v4_shape (uuid book_two) = true
  /\ free_of "<" (language book_two) = true
  /\ free_of "<" "2024-05-17T09:30:00.123Z" = true
  /\ attributes "href" "a" (getNav book_two)
     = [ "xhtml/page_001.xhtml"; "xhtml/page_002.xhtml";
         "xhtml/page_001.xhtml"; "xhtml/page_002.xhtml" ].
Proof.
  assert (Hu : uuid_v4_shape (uuid book_two) = true) by (vm_compute; reflexivity).
  assert (Hl : free_of "<" (language book_two) = true) by (vm_compute; reflexivity).
  assert (Hi : free_of "<" "2024-05-17T09:30:00.123Z" = true) by reflexivity.
  split; [exact Hu|]. split; [exact Hl|]. split; [exact Hi|].
  rewrite (proj1 (proj2
             (navigation_lists_agree Node book_two "2024-05-17T09:30:00.123Z" Hu Hl Hi))).
  reflexivity.
Defined.

(** X9.  Title and author cannot add elements to a document, the language
    can.  For a book whose language text holds no [<], the [item] start
    tags of the package document and the [navPoint] start tags of the NCX
    are the same whatever text, markup included, is set as the title or as
    the author.  The language is written unescaped: set to a text that
    holds an [item] element, it adds an [item] start tag to the package
    document. *)
Theorem language_can_add_markup (v : build) (b : t) (iso : string) (text : string) :
  uuid_v4_shape (uuid b) = true ->
  free_of "<" (language b) = true ->
  free_of "<" iso = true ->
  start_tags "item" (getContentOPF v (set_title b text) iso)
  = start_tags "item" (getContentOPF v b iso)
  /\ start_tags "item" (getContentOPF v (set_author b text) iso)
     = start_tags "item" (getContentOPF v b iso)
  /\ start_tags "navPoint" (getNCX (set_title b text)) = start_tags "navPoint" (getNCX b)
  /\ start_tags "item" (getContentOPF Node book_with_markup EmptyString)
     = ("id=" ++ q "x" ++ " href=" ++ q "x.png" ++ " media-type=" ++ q "image/png"
          ++ " properties=" ++ q "cover-image" ++ "/")
         :: start_tags "item" (getContentOPF Node book_A EmptyString).
Proof.
  intros Hu Hl Hi.
  assert (Hlt : free_of "<" (uuid b) = true) by (apply uuid_v4_free; [reflexivity .. | exact Hu]).
  split; [|split; [|split]].
  - rewrite (opf_item_tags v (set_title b text) iso Hlt Hl Hi).
    rewrite (opf_item_tags v b iso Hlt Hl Hi). reflexivity.
  - rewrite (opf_item_tags v (set_author b text) iso Hlt Hl Hi).
    rewrite (opf_item_tags v b iso Hlt Hl Hi). reflexivity.
  - rewrite (ncx_navPoint_tags (set_title b text) Hlt).
    rewrite (ncx_navPoint_tags b Hlt). reflexivity.
  - vm_compute. reflexivity.
Qed.

Lemma language_can_add_markup_witness :
  uuid_v4_shape (uuid book_A) = true
  /\ free_of "<" (language book_A) = true
  /\ free_of "<" "2024-05-17T09:30:00.123Z" = true
  /\ start_tags "item"
       (getContentOPF Node (set_title book_A "<item id=x>") "2024-05-17T09:30:00.123Z")
     = start_tags "item" (getContentOPF Node book_A "2024-05-17T09:30:00.123Z").
Proof.
  assert (Hu : uuid_v4_shape (uuid book_A) = true) by (vm_compute; reflexivity).
  assert (Hl : free_of "<" (language book_A) = true) by (vm_compute; reflexivity).
  assert (Hi : free_of "<" "2024-05-17T09:30:00.123Z" = true) by reflexivity.
  split; [exact Hu|]. split; [exact Hl|]. split; [exact Hi|].
  exact (proj1 (language_can_add_markup Node book_A "2024-05-17T09:30:00.123Z"
                  "<item id=x>" Hu Hl Hi)).
Defined.

(** *** The title, whatever the file name *)

Lemma starts_with_app (p rest : string) : starts_with p (p ++ rest) = true.
Proof.
  induction p as [|a p IH]; [reflexivity|].
  cbn [append starts_with]. rewrite Ascii.eqb_refl. exact IH.
Qed.

Lemma starts_with_split (p s : string) :
  starts_with p s = true -> s = p ++ drop (String.length p) s.
Proof.
  revert s. induction p as [|a p IH]; intros s H; [reflexivity|].
  destruct s as [|c s]; [discriminate|].
  cbn [starts_with] in H. apply andb_true_iff in H as [Hc Hs].
  apply Ascii.eqb_eq in Hc. subst c.
  cbn [String.length drop append]. f_equal. apply IH, Hs.
Qed.

(** [replace] with an empty replacement removes the first occurrence. *)
Lemma replace_first_removes (pat s : string) :
  first_removed pat s (replace_first pat EmptyString s).
Proof.
  induction s as [|c s IH].
  - cbn [replace_first]. destruct (starts_with pat EmptyString) eqn:Hs.
    + destruct pat; [|discriminate].
      apply (removed_at EmptyString EmptyString EmptyString). intros; apply Nat.le_0_l.
    + apply removed_none. intros (pre & post & H).
      destruct pre; [|discriminate]. destruct pat; discriminate.
  - cbn [replace_first]. destruct (starts_with pat (String c s)) eqn:Hs.
    + pose proof (starts_with_split _ _ Hs) as Hsplit. cbn [append].
      rewrite Hsplit at 1.
      apply (removed_at pat EmptyString (drop (String.length pat) (String c s))).
      intros; apply Nat.le_0_l.
    + remember (replace_first pat EmptyString s) as r eqn:Hr. clear Hr.
      destruct IH as [s Hnone | pre post Hfirst].
      * apply removed_none. intros (pre & post & H).
        destruct pre as [|c' pre].
        -- cbn [append] in H. rewrite H, starts_with_app in Hs. discriminate.
        -- cbn [append] in H. injection H as _ H. apply Hnone. now exists pre, post.
      * change (String c (pre ++ post)) with (String c pre ++ post).
        change (String c (pre ++ pat ++ post)) with (String c pre ++ pat ++ post).
        apply removed_at. intros pre' post' H.
        destruct pre' as [|c' pre'].
        -- exfalso.
           change (String c (pre ++ pat ++ post)) with (String c pre ++ pat ++ post) in Hs.
           rewrite H in Hs. change (EmptyString ++ pat ++ post') with (pat ++ post') in Hs.
           rewrite starts_with_app in Hs. discriminate.
        -- cbn [append] in H. injection H as _ H. cbn [String.length].
           apply le_n_S, (Hfirst pre' post' H).
Qed.

(** The first occurrence is one place: the relation is a function. *)
Lemma first_removed_unique (pat s r1 r2 : string) :
  first_removed pat s r1 -> first_removed pat s r2 -> r1 = r2.
Proof.
  intros H1 H2.
  inversion H1 as [s1 Hn1 E1 E1' | pre1 post1 Hf1 E1 E1'];
    inversion H2 as [s2 Hn2 E2 E2' | pre2 post2 Hf2 E2 E2']; subst.
  - reflexivity.
  - exfalso. apply Hn1. now exists pre2, post2.
  - exfalso. apply Hn2. now exists pre1, post1.
  - assert (Hlen : String.length pre1 = String.length pre2).
    { apply Nat.le_antisymm.
      - apply (Hf1 pre2 post2). symmetry. exact E2.
      - apply (Hf2 pre1 post1). exact E2. }
    symmetry in E2.
    destruct (append_same_length _ _ _ _ Hlen E2) as [-> Hrest].
    apply append_inv_head in Hrest. now subst.
Qed.

Lemma first_removed_at (pre post : string) :
  free_of "." pre = true -> first_removed ".pdf" (pre ++ ".pdf" ++ post) (pre ++ post).
Proof.
  intros H. pose proof (replace_first_removes ".pdf" (pre ++ ".pdf" ++ post)) as R.
  rewrite (replace_first_at pre post EmptyString H) in R. exact R.
Qed.

(** X17.  Dropping a file of type [application/pdf] selects it and sets
    the title to the file name without its first [.pdf], whatever the
    name, keeping author and language: a name in which [.pdf] does not
    occur is the title as it is, and what follows the first [.pdf], a
    second [.pdf] included, stays in the title.  A file of any other type,
    or no file, changes nothing. *)
Theorem dropped_file_title (f : File) (file : option File) (metadata : Metadata) :
  (file_type f = "application/pdf" ->
   forall t, first_removed ".pdf" (file_name f) t ->
   handleFileDrop (Some f) file metadata
   = (Some f, {| md_title := t; md_author := md_author metadata;
                 md_language := md_language metadata |}))
  /\ (file_type f = "application/pdf" -> ~ occurs_in ".pdf" (file_name f) ->
      handleFileDrop (Some f) file metadata
      = (Some f, {| md_title := file_name f; md_author := md_author metadata;
                    md_language := md_language metadata |}))
  /\ (file_type f = "application/pdf" ->
      forall pre post, free_of "." pre = true -> file_name f = pre ++ ".pdf" ++ post ->
      handleFileDrop (Some f) file metadata
      = (Some f, {| md_title := pre ++ post; md_author := md_author metadata;
                    md_language := md_language metadata |}))
  /\ (file_type f <> "application/pdf" ->
      handleFileDrop (Some f) file metadata = (file, metadata))
  /\ handleFileDrop None file metadata = (file, metadata).
Proof.
  assert (Hpdf : file_type f = "application/pdf" ->
                 forall t, first_removed ".pdf" (file_name f) t ->
                 handleFileDrop (Some f) file metadata
                 = (Some f, {| md_title := t; md_author := md_author metadata;
                               md_language := md_language metadata |})).
  { intros Hty t Ht. unfold handleFileDrop. rewrite Hty, String.eqb_refl.
    rewrite (first_removed_unique _ _ _ _ (replace_first_removes ".pdf" (file_name f)) Ht).
    reflexivity. }
  split; [exact Hpdf|]. split; [|split; [|split]].
  - intros Hty Hno. apply (Hpdf Hty). apply removed_none, Hno.
  - intros Hty pre post Hpre Hname. apply (Hpdf Hty). rewrite Hname.
    apply first_removed_at, Hpre.
  - intros Hty. unfold handleFileDrop. apply String.eqb_neq in Hty. rewrite Hty. reflexivity.
  - reflexivity.
Qed.

Lemma dropped_file_title_witness :
  handleFileDrop (Some {| file_name := "draft.v2.pdf.final.pdf"; file_type := "application/pdf" |})
    None initial_metadata
  = (Some {| file_name := "draft.v2.pdf.final.pdf"; file_type := "application/pdf" |},
     {| md_title := "draft.v2.final.pdf"; md_author := EmptyString; md_language := "en" |}).
Proof.
  refine (proj1 (dropped_file_title
                   {| file_name := "draft.v2.pdf.final.pdf"; file_type := "application/pdf" |}
                   None initial_metadata) eq_refl "draft.v2.final.pdf" _).
  apply (removed_at ".pdf" "draft.v2" ".final.pdf").
  intros pre' post' H.
  destruct pre' as [|c0 [|c1 [|c2 [|c3 [|c4 [|c5 [|c6 [|c7 pre']]]]]]]];
    cbn in H; try discriminate H; cbn; lia.
Defined.

(** X18.  The title of the book the browser converts: the title typed in
    the form when there is one; otherwise the file name without its first
    [.pdf], whatever the name (as it is when [.pdf] does not occur in it);
    and [Untitled] when that is empty too, as for a file named just
    [.pdf].  It is never empty, and the download is named after the typed
    title, or [converted.epub] without one. *)
Theorem browser_book_title (pdf : PDFDocument) (file : File) (metadata : Metadata)
    (dpi : Z) (g : Random) :
  let b := fst (convertToEPUB_book pdf file metadata dpi g) in
  (md_title metadata <> EmptyString -> title b = md_title metadata)
  /\ (md_title metadata = EmptyString ->
      forall t, first_removed ".pdf" (file_name file) t ->
      title b = if String.eqb t EmptyString then "Untitled" else t)
  /\ (md_title metadata = EmptyString -> ~ occurs_in ".pdf" (file_name file) ->
      file_name file <> EmptyString -> title b = file_name file)
  /\ (forall pre post, md_title metadata = EmptyString -> free_of "." pre = true ->
        pre ++ post <> EmptyString -> file_name file = pre ++ ".pdf" ++ post ->
        title b = pre ++ post)
  /\ (md_title metadata = EmptyString -> file_name file = ".pdf" -> title b = "Untitled")
  /\ title b <> EmptyString
  /\ (md_title metadata = EmptyString -> download_name metadata = "converted.epub").
Proof.
  intros b.
  destruct (convertToEPUB_book_pages pdf file metadata dpi g) as (epub & _ & Ht & Hb).
  fold b in Hb.
  destruct (convert_pages_spec Browser pdf (inject_Z dpi / 72)%Q epub) as (_ & Hc & _).
  rewrite <- Hb in Hc. rewrite Hc, Ht. clear.
  assert (Hgen : md_title metadata = EmptyString ->
                 forall t, first_removed ".pdf" (file_name file) t ->
                 or_else (Some (or_else (Some (md_title metadata))
                                  (replace_first ".pdf" EmptyString (file_name file))))
                   "Untitled"
                 = if String.eqb t EmptyString then "Untitled" else t).
  { intros -> t Ht. cbn [or_else].
    rewrite (first_removed_unique _ _ _ _ (replace_first_removes ".pdf" (file_name file)) Ht).
    destruct t; reflexivity. }
  split; [|split; [exact Hgen|split; [|split; [|split; [|split]]]]].
  - intros H. destruct (md_title metadata); [congruence | reflexivity].
  - intros Hm Hno Hne. rewrite (Hgen Hm (file_name file) (removed_none _ _ Hno)).
    destruct (file_name file); [congruence | reflexivity].
  - intros pre post Hm Hpre Hne Hname.
    rewrite (Hgen Hm (pre ++ post)) by (rewrite Hname; apply first_removed_at, Hpre).
    destruct (pre ++ post); [congruence | reflexivity].
  - intros -> ->. reflexivity.
  - apply or_else_nonempty. discriminate.
  - unfold download_name. intros ->. reflexivity.
Qed.

Lemma browser_book_title_witness :
  title (fst (convertToEPUB_book sample_pdf
                {| file_name := "a.b.pdf"; file_type := "application/pdf" |}
                initial_metadata 150 sample_random)) = "a.b".
Proof.
  refine (proj1 (proj2 (browser_book_title sample_pdf
                          {| file_name := "a.b.pdf"; file_type := "application/pdf" |}
                          initial_metadata 150 sample_random))
            eq_refl "a.b" _).
  apply (removed_at ".pdf" "a.b" EmptyString).
  intros pre' post' H.
  destruct pre' as [|c0 [|c1 [|c2 pre']]]; cbn in H; try discriminate H; cbn; lia.
Defined.

End EPUBGenerator.
